(** * AirQuality ingestion scripts: pagination, retry and batch flushing

    A shallow embedding of the three OpenAQ ingestion scripts
    ([scripts/run_full_ingestion.py], [scripts/ingest_openaq_data.py],
    [scripts/nepal_ingestion.py]) and the properties of their
    pagination / retry / flattening / batching logic.

    Python values are modelled by [Value]; a [dict] is an association list in
    insertion order.  Effects (HTTP calls, sleeps, warning and error log
    records, counters, files written) are threaded through a [World] by a
    state-and-exception monad.  [while True] loops take fuel. *)

From Stdlib Require Import List String ZArith Lia Bool Arith.
Import ListNotations.
Open Scope string_scope.
Open Scope list_scope.
Open Scope nat_scope.

(* ===================================================================== *)
(** ** Python values *)
(* ===================================================================== *)

#[local] Set Warnings "-register-all".

(** JSON-shaped Python values.  A float is kept as the pair (m, e) standing
    for m * 2^e; the scripts only copy and test floats, never compute. *)
Inductive Value : Type :=
| VNone
| VBool (b : bool)
| VInt (z : Z)
| VFloat (m e : Z)
| VStr (s : string)
| VList (l : list Value)
| VDict (d : list (string * Value)).

Definition Dict := list (string * Value).

(** Python truthiness, as used by [if not x]. *)
Definition truthy (v : Value) : bool :=
  match v with
  | VNone => false
  | VBool b => b
  | VInt z => negb (z =? 0)%Z
  | VFloat m _ => negb (m =? 0)%Z
  | VStr s => negb (String.eqb s "")
  | VList l => match l with [] => false | _ :: _ => true end
  | VDict d => match d with [] => false | _ :: _ => true end
  end.

Section Assoc.
Context {V : Type}.

(** [d[k]] when present. *)
Fixpoint lookup (k : string) (d : list (string * V)) : option V :=
  match d with
  | [] => None
  | (k', v) :: r => if String.eqb k k' then Some v else lookup k r
  end.

(** [d[k] = v]: an existing key keeps its position, a new one goes last. *)
Fixpoint setitem (k : string) (v : V) (d : list (string * V)) : list (string * V) :=
  match d with
  | [] => [(k, v)]
  | (k', v') :: r =>
      if String.eqb k k' then (k, v) :: r else (k', v') :: setitem k v r
  end.

(** [d.update(kvs)]. *)
Definition update (d kvs : list (string * V)) : list (string * V) :=
  fold_left (fun acc kv => setitem (fst kv) (snd kv) acc) kvs d.
End Assoc.

(** [d.get(k, default)] on a dict. *)
Definition get (d : Dict) (k : string) (default : Value) : Value :=
  match lookup k d with
  | Some v => v
  | None => default
  end.

(** Exceptions the modelled code can meet. *)
Inductive Exn : Type :=
| AttributeError
| TypeError
| KeyboardInterrupt.

(** [v.get(k, default)] on an arbitrary value: only a dict has [get]. *)
Definition py_get (v : Value) (k : string) (default : Value) : Exn + Value :=
  match v with
  | VDict d => inr (get d k default)
  | _ => inl AttributeError
  end.

(** [v.update(kvs)] on an arbitrary value: the new contents of the object. *)
Definition py_update (v : Value) (kvs : Dict) : Exn + Value :=
  match v with
  | VDict d => inr (VDict (update d kvs))
  | _ => inl AttributeError
  end.

(** A [str] is held as its UTF-8 encoding.  A byte [10xxxxxx] continues the
    code point begun before it; [code_points s] cuts [s] into its code
    points, which is what [len] counts and a [for] loop walks through. *)
Definition continuation (c : Ascii.ascii) : bool :=
  (128 <=? Ascii.nat_of_ascii c) && (Ascii.nat_of_ascii c <? 192).

Fixpoint code_points (s : string) : list string :=
  match s with
  | EmptyString => []
  | String c rest =>
      let points := code_points rest in
      match rest, points with
      | String c' _, point :: points' =>
          if continuation c' then String c point :: points'
          else String c EmptyString :: points
      | _, _ => String c EmptyString :: points
      end
  end.

Definition chars (s : string) : list Value := map VStr (code_points s).

(** [iter(v)]: what a [for] loop or [list.extend] walks through. *)
Definition py_iter (v : Value) : Exn + list Value :=
  match v with
  | VList l => inr l
  | VDict d => inr (map (fun kv => VStr (fst kv)) d)
  | VStr s => inr (chars s)
  | _ => inl TypeError
  end.

(** [len(v)]. *)
Definition py_len (v : Value) : Exn + nat :=
  match v with
  | VList l => inr (List.length l)
  | VDict d => inr (List.length d)
  | VStr s => inr (List.length (code_points s))
  | _ => inl TypeError
  end.

(* ===================================================================== *)
(** ** World: HTTP, clock, log, counters, disk *)
(* ===================================================================== *)

Inductive Endpoint : Type :=
| Locations                               (* "locations" *)
| SensorMeasurements (sensor_id : Value). (* f"sensors/{sensor_id}/measurements" *)

Record Request : Type := mkRequest { endpoint : Endpoint; params : Dict }.

(** What one [requests.get] does.  [Response status json]: the call
    returned; [json] is what [response.json()] parses, [None] when the body
    is not JSON.  The other constructors are the exceptions it raises;
    [Signal] is a KeyboardInterrupt delivered while the call blocks. *)
Inductive Outcome : Type :=
| Response (status_code : Z) (json : option Value)
| Timeout
| ConnectionError
| RequestException
| Signal.

(** [response.raise_for_status()] raises HTTPError on 4xx and 5xx. *)
Definition raise_for_status (status_code : Z) : bool :=
  ((400 <=? status_code) && (status_code <? 600))%Z.

Inductive Filename : Type :=
| AllLocations                    (* all_locations_{timestamp}.parquet *)
| AllSensors                      (* all_sensors_{timestamp}.parquet *)
| MeasurementsBatch (index : Z)   (* measurements_batch_{index}_{timestamp}.parquet *)
| MeasurementsFinal               (* measurements_final_{timestamp}.parquet *)
| IngestionSummary                (* ingestion_summary_{timestamp}.json *)
| NepalPartition (data_type : string) (batch : option Z).
                                  (* {data_type}/nepal_{data_type}_{timestamp}[_batch_{n}].parquet *)

(** Warning and error log records (info records are not modelled). *)
Inductive Msg : Type :=
| TimeoutRetrying (attempt : nat)
| FinalTimeout
| RateLimitedWaiting (wait_time : Z)
| ServerErrorRetrying (status_code : Z)
| HTTPErrorFor (status_code : Z)
| RequestErrorRetrying (attempt : nat)
| FinalRequestError
| JSONDecodeFailed
| ApiRequestFailed
| FailedLocationsPage (page : Z)
| FailedMeasurements (sensor_id : Value)
| SkippingSensorNoId
| ConnectionErrorFor (attempt : nat)
| FailedAfterAttempts (n : nat)
| NoDataToSave (description : string)
| FailedToSave (description : string)
| SensorGeneratedException (sensor_id : Value) (e : Exn)
| InterruptedByUser
| FatalError (e : Exn)
| UnexpectedError
| NoLocationsAborting
| NoSensorsAborting.

Inductive Level : Type := WARNING | ERROR.

(** The JSON document written by [create_ingestion_summary] (timing fields,
    which are wall-clock floats, are left out). *)
Record Summary : Type := mkSummary {
  status : string;
  sum_total_locations : Z;
  sum_total_sensors : Z;
  sum_total_measurements : Z;
  sum_batch_count : Z;
  sum_measurement_batches : list Filename
}.

Inductive Content : Type :=
| Parquet (records : list Value)
| Json (summary : Summary)
| Unreadable.             (* a file that is not a complete parquet file *)

(** What the [try] block of a save method does with its
    [df.to_parquet(path, ...)]: the file is written, or an exception is
    raised somewhere in the block; in that case [left_behind] is what the
    block has put at the path before it raised, if anything. *)
Inductive WriteResult : Type :=
| Written
| Failed (left_behind : option Content).

Inductive Event : Type :=
| EvGet (r : Request)
| EvDelay                 (* time.sleep(self.request_delay) *)
| EvSleep (seconds : Z)   (* time.sleep(seconds) *)
| EvLog (l : Level) (m : Msg).

Record World : Type := mkWorld {
  calls : nat;                       (* requests.get calls made so far *)
  clock : nat;                       (* readings of datetime.now taken so far *)
  trace : list Event;                (* oldest first *)
  counters : list (string * Z);      (* self.stats / self.progress *)
  disk : list (Filename * Content)   (* files written, oldest first *)
}.

Definition world0 : World := mkWorld 0 0 [] [] [].

Definition counter (k : string) (w : World) : Z :=
  match lookup k (counters w) with
  | Some z => z
  | None => 0%Z
  end.

(* ===================================================================== *)
(** ** State and exception monad *)
(* ===================================================================== *)

Section Monad.
Context {S : Type}.

Inductive Res (A : Type) : Type :=
| Ret (a : A) (s : S)
| Raise (e : Exn) (s : S)
| NoFuel.

Definition M (A : Type) : Type := S -> Res A.

Definition ret {A} (a : A) : M A := fun s => Ret A a s.

Definition bind {A B} (m : M A) (k : A -> M B) : M B :=
  fun s =>
    match m s with
    | Ret _ a s' => k a s'
    | Raise _ e s' => Raise B e s'
    | NoFuel _ => NoFuel B
    end.

Definition raise {A} (e : Exn) : M A := fun s => Raise A e s.

Definition out_of_fuel {A} : M A := fun _ => NoFuel A.

Definition modify (f : S -> S) : M unit := fun s => Ret unit tt (f s).

Definition gets {A} (f : S -> A) : M A := fun s => Ret A (f s) s.

(** Turn a pure Python operation that may raise into a computation. *)
Definition try_pure {A} (r : Exn + A) : M A :=
  match r with
  | inr a => ret a
  | inl e => raise e
  end.
End Monad.

Arguments Res : clear implicits.
Arguments M : clear implicits.
Arguments Ret {S A} a s.
Arguments Raise {S A} e s.
Arguments NoFuel {S A}.

Declare Scope monad_scope.
Delimit Scope monad_scope with monad.
Notation "x <- m ;; k" := (bind m (fun x => k))
  (at level 61, m at next level, right associativity) : monad_scope.
Notation "m ;; k" := (bind m (fun _ => k))
  (at level 61, right associativity) : monad_scope.
Open Scope monad_scope.

(* ===================================================================== *)
(** ** Primitive effects on the world *)
(* ===================================================================== *)

Definition record_event (e : Event) (w : World) : World :=
  mkWorld (calls w) (clock w) (trace w ++ [e]) (counters w) (disk w).

Definition record_call (r : Request) (w : World) : World :=
  mkWorld (S (calls w)) (clock w) (trace w ++ [EvGet r]) (counters w) (disk w).

Definition tick (w : World) : World :=
  mkWorld (calls w) (S (clock w)) (trace w) (counters w) (disk w).

Definition set_counter (k : string) (z : Z) (w : World) : World :=
  mkWorld (calls w) (clock w) (trace w) (setitem k z (counters w)) (disk w).

Definition write_file (f : Filename) (c : Content) (w : World) : World :=
  mkWorld (calls w) (clock w) (trace w) (counters w) (disk w ++ [(f, c)]).

(** The disk after a write that raised: nothing removes what it left. *)
Definition leave_file (f : Filename) (left_behind : option Content) (w : World) : World :=
  match left_behind with
  | Some c => write_file f c w
  | None => w
  end.

(** [self.logger.warning(...)] and [self.logger.error(...)]. *)
Definition log (l : Level) (m : Msg) : M World unit := modify (record_event (EvLog l m)).

(** [time.sleep(seconds)] and [time.sleep(self.request_delay)]. *)
Definition sleep (seconds : Z) : M World unit := modify (record_event (EvSleep seconds)).
Definition delay : M World unit := modify (record_event EvDelay).

(** [self.stats[k] += n]. *)
Definition incr (k : string) (n : Z) : M World unit :=
  modify (fun w => set_counter k (counter k w + n) w).

Section Env.
(** The API: what the [n]-th [requests.get] of the run answers to a request. *)
Variable server : nat -> Request -> Outcome.
(** The clock: the ISO string of the [n]-th reading of [datetime.now]. *)
Variable isoformat_now : nat -> Value.
(** The file system: what [df.to_parquet] of these records to this file does. *)
Variable to_parquet : Filename -> list Value -> WriteResult.

(** [requests.get(url, headers=..., params=..., timeout=30)]. *)
Definition requests_get (r : Request) : M World Outcome :=
  fun w =>
    match server (calls w) r with
    | Signal => Raise KeyboardInterrupt (record_call r w)
    | o => Ret o (record_call r w)
    end.

(** [datetime.now(timezone.utc).isoformat()]. *)
Definition utcnow : M World Value :=
  fun w => Ret (isoformat_now (clock w)) (tick w).
End Env.

(** Pure Python code that may raise: sequencing on [Exn + A]. *)
Definition ebind {A B} (r : Exn + A) (k : A -> Exn + B) : Exn + B :=
  match r with
  | inr a => k a
  | inl e => inl e
  end.

Notation "x <~ r ;; k" := (ebind r (fun x => k))
  (at level 61, r at next level, right associativity) : monad_scope.

Definition VNat (n : nat) : Value := VInt (Z.of_nat n).

(** [not v]. *)
Definition py_not (v : Value) : bool := negb (truthy v).

(* ===================================================================== *)
(** ** scripts/run_full_ingestion.py: class FullScaleOpenAQIngester *)
(* ===================================================================== *)

Module Full.

(** Fallback configuration values of the script. *)
Definition DATE_FROM : Value := VStr "2024-01-01T00:00:00Z".
Definition BATCH_SIZE : Z := 75000.

Section Requests.
Variable server : nat -> Request -> Outcome.

(** The [for attempt in range(retries + 1)] loop of [make_request]:
    [remaining] iterations are left, the next one is number [attempt]. *)
Fixpoint make_request_from (retries : nat) (r : Request)
         (remaining attempt : nat) : M World Value :=
  match remaining with
  | O => ret VNone
  | S remaining' =>
      let continue := make_request_from retries r remaining' (S attempt) in
      o <- requests_get server r ;;
      match o with
      | Response status_code json =>
          if raise_for_status status_code then
            (* except requests.exceptions.HTTPError *)
            if (status_code =? 429)%Z then
              if attempt <? retries then
                let wait_time := (60 * (Z.of_nat attempt + 1))%Z in
                log WARNING (RateLimitedWaiting wait_time) ;;
                sleep wait_time ;;
                continue
              else
                log ERROR (HTTPErrorFor status_code) ;; continue
            else if (500 <=? status_code)%Z then
              if attempt <? retries then
                log WARNING (ServerErrorRetrying status_code) ;;
                sleep (5 * (Z.of_nat attempt + 1)) ;;
                continue
              else
                log ERROR (HTTPErrorFor status_code) ;; continue
            else
              log ERROR (HTTPErrorFor status_code) ;; continue
          else
            delay ;;
            match json with
            | Some body => ret body
            | None =>
                (* [response.json()] raises requests' JSONDecodeError, which
                   is a RequestException: the clause for RequestException
                   comes before the one for json.JSONDecodeError and takes it *)
                if attempt <? retries then
                  log WARNING (RequestErrorRetrying (attempt + 1)) ;;
                  sleep (2 ^ Z.of_nat attempt) ;;
                  continue
                else
                  log ERROR FinalRequestError ;; continue
            end
      | Timeout =>
          if attempt <? retries then
            log WARNING (TimeoutRetrying (attempt + 1)) ;;
            sleep (2 ^ Z.of_nat attempt) ;;
            continue
          else
            log ERROR FinalTimeout ;; continue
      | ConnectionError | RequestException =>
          (* except requests.exceptions.RequestException *)
          if attempt <? retries then
            log WARNING (RequestErrorRetrying (attempt + 1)) ;;
            sleep (2 ^ Z.of_nat attempt) ;;
            continue
          else
            log ERROR FinalRequestError ;; continue
      | Signal => raise KeyboardInterrupt
      end
  end.

(** [make_request(endpoint, params, retries=3)]: the parsed body, or
    [None]. *)
Definition make_request (r : Request) (retries : nat) : M World Value :=
  make_request_from retries r (S retries) 0.

(** The [while True] loop of [get_all_locations_for_country]. *)
Fixpoint locations_loop (fuel : nat) (country_id : Value) (limit page : nat)
         (locations : list Value) : M World (list Value) :=
  match fuel with
  | O => out_of_fuel
  | S fuel' =>
      let params := [("countries_id", country_id);
                     ("page", VNat page);
                     ("limit", VNat limit)] in
      response <- make_request (mkRequest Locations params) 3 ;;
      if py_not response then
        log WARNING (FailedLocationsPage (Z.of_nat page)) ;;
        ret locations
      else
        results <- try_pure (py_get response "results" (VList [])) ;;
        if py_not results then ret locations
        else
          items <- try_pure (py_iter results) ;;
          let locations := locations ++ items in
          n <- try_pure (py_len results) ;;
          if n <? limit then ret locations
          else locations_loop fuel' country_id limit (S page) locations
  end.

(** [get_all_locations_for_country(country_id, country_name)]. *)
Definition get_all_locations_for_country (fuel : nat) (country_id : Value)
  : M World (list Value) :=
  locations <- locations_loop fuel country_id 1000 1 [] ;;
  incr "total_locations" (Z.of_nat (List.length locations)) ;;
  ret locations.

End Requests.

(** The record built for one sensor of one location by
    [extract_sensors_from_locations] (the dict literal, entries evaluated
    in order). *)
Definition sensor_info_of (location sensor : Value) : Exn + Value :=
  sensor_id <~ py_get sensor "id" VNone ;;
  sensor_name <~ py_get sensor "name" VNone ;;
  parameter <~ py_get sensor "parameter" (VDict []) ;;
  location_id <~ py_get location "id" VNone ;;
  location_name <~ py_get location "name" VNone ;;
  location_locality <~ py_get location "locality" VNone ;;
  timezone <~ py_get location "timezone" VNone ;;
  country <~ py_get location "country" (VDict []) ;;
  coordinates <~ py_get location "coordinates" (VDict []) ;;
  bounds <~ py_get location "bounds" (VList []) ;;
  owner <~ py_get location "owner" (VDict []) ;;
  provider <~ py_get location "provider" (VDict []) ;;
  instruments <~ py_get location "instruments" (VList []) ;;
  licenses <~ py_get location "licenses" (VList []) ;;
  datetime_first <~ py_get location "datetimeFirst" VNone ;;
  datetime_last <~ py_get location "datetimeLast" VNone ;;
  is_mobile <~ py_get location "isMobile" (VBool false) ;;
  is_monitor <~ py_get location "isMonitor" (VBool false) ;;
  inr (VDict [("sensor_id", sensor_id);
              ("sensor_name", sensor_name);
              ("parameter", parameter);
              ("location_id", location_id);
              ("location_name", location_name);
              ("location_locality", location_locality);
              ("timezone", timezone);
              ("country", country);
              ("coordinates", coordinates);
              ("bounds", bounds);
              ("owner", owner);
              ("provider", provider);
              ("instruments", instruments);
              ("licenses", licenses);
              ("datetime_first", datetime_first);
              ("datetime_last", datetime_last);
              ("is_mobile", is_mobile);
              ("is_monitor", is_monitor)]).

(** The inner loop [for sensor in location_sensors]. *)
Fixpoint sensors_of_location (location : Value) (location_sensors : list Value)
  : Exn + list Value :=
  match location_sensors with
  | [] => inr []
  | sensor :: rest =>
      sensor_info <~ sensor_info_of location sensor ;;
      more <~ sensors_of_location location rest ;;
      inr (sensor_info :: more)
  end.

(** The outer loop [for location in locations]: the final [sensors] list. *)
Fixpoint sensors_of_locations (locations : list Value) : Exn + list Value :=
  match locations with
  | [] => inr []
  | location :: rest =>
      location_sensors <~ py_get location "sensors" (VList []) ;;
      sensor_list <~ py_iter location_sensors ;;
      here <~ sensors_of_location location sensor_list ;;
      more <~ sensors_of_locations rest ;;
      inr (here ++ more)
  end.

(** [extract_sensors_from_locations(locations, country_name)]. *)
Definition extract_sensors_from_locations (locations : list Value)
  : M World (list Value) :=
  sensors <- try_pure (sensors_of_locations locations) ;;
  incr "total_sensors" (Z.of_nat (List.length sensors)) ;;
  ret sensors.

(** The context columns [measurement.update({...})] receives, all but the
    ingestion timestamp (the dict literal, entries evaluated in order). *)
Definition context_columns (sensor_id sensor_info : Value) : Exn + Dict :=
  sensor_name <~ py_get sensor_info "sensor_name" VNone ;;
  location_id <~ py_get sensor_info "location_id" VNone ;;
  location_name <~ py_get sensor_info "location_name" VNone ;;
  country <~ py_get sensor_info "country" (VDict []) ;;
  country_name <~ py_get country "name" VNone ;;
  country' <~ py_get sensor_info "country" (VDict []) ;;
  country_code <~ py_get country' "code" VNone ;;
  coordinates <~ py_get sensor_info "coordinates" (VDict []) ;;
  coordinates_lat <~ py_get coordinates "latitude" VNone ;;
  coordinates' <~ py_get sensor_info "coordinates" (VDict []) ;;
  coordinates_lon <~ py_get coordinates' "longitude" VNone ;;
  timezone <~ py_get sensor_info "timezone" VNone ;;
  provider <~ py_get sensor_info "provider" (VDict []) ;;
  provider_name <~ py_get provider "name" VNone ;;
  inr [("sensor_id", sensor_id);
       ("sensor_name", sensor_name);
       ("location_id", location_id);
       ("location_name", location_name);
       ("country_name", country_name);
       ("country_code", country_code);
       ("coordinates_lat", coordinates_lat);
       ("coordinates_lon", coordinates_lon);
       ("timezone", timezone);
       ("provider_name", provider_name)].

Section Measurements.
Variable server : nat -> Request -> Outcome.
Variable isoformat_now : nat -> Value.

(** One iteration of [for measurement in results: measurement.update({...})].
    The record is updated in place: the value returned is the contents of
    the object [measurement] once the statement has run. *)
Definition update_measurement (sensor_id sensor_info measurement : Value)
  : M World Value :=
  match measurement with
  | VDict _ =>
      columns <- try_pure (context_columns sensor_id sensor_info) ;;
      now <- utcnow isoformat_now ;;
      try_pure (py_update measurement (columns ++ [("ingestion_timestamp", now)]))
  | _ => raise AttributeError
  end.

(** The whole [for measurement in results] loop over the objects of
    [results], by position: their contents after the loop. *)
Fixpoint update_measurements (sensor_id sensor_info : Value) (objects : list Value)
  : M World (list Value) :=
  match objects with
  | [] => ret []
  | measurement :: rest =>
      measurement' <- update_measurement sensor_id sensor_info measurement ;;
      rest' <- update_measurements sensor_id sensor_info rest ;;
      ret (measurement' :: rest')
  end.

(** The [while True] loop of [get_sensor_measurements_single]. *)
Fixpoint measurements_loop (fuel : nat) (sensor_id sensor_info date_from date_to : Value)
         (limit page : nat) (measurements : list Value) : M World (list Value) :=
  match fuel with
  | O => out_of_fuel
  | S fuel' =>
      let params := [("date_from", date_from);
                     ("date_to", date_to);
                     ("page", VNat page);
                     ("limit", VNat limit)] in
      response <- make_request server (mkRequest (SensorMeasurements sensor_id) params) 3 ;;
      if py_not response then ret measurements
      else
        results <- try_pure (py_get response "results" (VList [])) ;;
        if py_not results then ret measurements
        else
          objects <- try_pure (py_iter results) ;;
          objects' <- update_measurements sensor_id sensor_info objects ;;
          let measurements := measurements ++ objects' in
          n <- try_pure (py_len results) ;;
          if n <? limit then ret measurements
          else measurements_loop fuel' sensor_id sensor_info date_from date_to
                                 limit (S page) measurements
  end.

(** [get_sensor_measurements_single(sensor_info, country_name, date_from,
    date_to)]; an argument left out is [None]. *)
Definition get_sensor_measurements_single (fuel : nat) (sensor_info : Value)
           (date_from date_to : option Value) : M World (list Value) :=
  sensor_id <- try_pure (py_get sensor_info "sensor_id" VNone) ;;
  if py_not sensor_id then ret []
  else
    let date_from := match date_from with Some d => d | None => DATE_FROM end in
    date_to <- match date_to with
               | Some d => ret d
               | None => utcnow isoformat_now
               end ;;
    measurements_loop fuel sensor_id sensor_info date_from date_to 1000 1 [].
End Measurements.

(** What the main thread sees of one [ThreadPoolExecutor] run of
    [get_sensor_measurements_batch]: the futures it consumes from
    [as_completed], in completion order, each with the sensor it was
    submitted for and what [future.result()] does; and whether a
    KeyboardInterrupt reaches the main thread once it has consumed them.
    The workers run [get_sensor_measurements_single] concurrently; their
    interleaving is not modelled, its outcome is this record. *)
Record PoolRun : Type := mkPoolRun {
  completed : list (Value * (Exn + list Value));
  interrupted : bool
}.

(** Local variables of [run_full_ingestion] that outlive the [try] body,
    together with the world. *)
Record Run : Type := mkRun {
  world : World;
  all_locations : list Value;
  all_sensors : list Value;
  measurement_batches : list Filename;
  current_batch : list Value
}.

Definition run0 (w : World) : Run := mkRun w [] [] [] [].

Definition set_world (w : World) (r : Run) : Run :=
  mkRun w (all_locations r) (all_sensors r) (measurement_batches r) (current_batch r).
Definition set_all_locations (l : list Value) (r : Run) : Run :=
  mkRun (world r) l (all_sensors r) (measurement_batches r) (current_batch r).
Definition set_all_sensors (l : list Value) (r : Run) : Run :=
  mkRun (world r) (all_locations r) l (measurement_batches r) (current_batch r).
Definition set_measurement_batches (l : list Filename) (r : Run) : Run :=
  mkRun (world r) (all_locations r) (all_sensors r) l (current_batch r).
Definition set_current_batch (l : list Value) (r : Run) : Run :=
  mkRun (world r) (all_locations r) (all_sensors r) (measurement_batches r) l.

(** A method of the ingester run inside [run_full_ingestion]. *)
Definition call {A} (m : M World A) : M Run A :=
  fun r =>
    match m (world r) with
    | Ret a w => Ret a (set_world w r)
    | Raise e w => Raise e (set_world w r)
    | NoFuel => NoFuel
    end.

Section Orchestrator.
Variable server : nat -> Request -> Outcome.
Variable to_parquet : Filename -> list Value -> WriteResult.
(** The [n]-th thread-pool run of the process, on a sensor batch. *)
Variable pool : nat -> list Value -> PoolRun.
Variable batch_size : Z.
Variable target_countries : list (string * Value).

(** [save_batch_to_parquet(data, filename, description)]. *)
Definition save_batch_to_parquet (data : list Value) (filename : Filename)
           (description : string) : M World unit :=
  match data with
  | [] => log WARNING (NoDataToSave description)
  | _ :: _ =>
      match to_parquet filename data with
      | Written => modify (write_file filename (Parquet data))
      | Failed left_behind =>
          (* except Exception as e: the error is logged, nothing is removed *)
          modify (leave_file filename left_behind) ;;
          log ERROR (FailedToSave description)
      end
  end.

(** The body of [for future in as_completed(future_to_sensor)]. *)
Fixpoint consume_futures (futures : list (Value * (Exn + list Value)))
         (all_measurements : list Value) : M World (list Value) :=
  match futures with
  | [] => ret all_measurements
  | (sensor_info, result) :: rest =>
      match result with
      | inr measurements =>
          let all_measurements := all_measurements ++ measurements in
          incr "current_sensor" 1 ;;
          incr "total_measurements" (Z.of_nat (List.length measurements)) ;;
          consume_futures rest all_measurements
      | inl KeyboardInterrupt => raise KeyboardInterrupt
      | inl exc =>
          (* except Exception as exc *)
          sensor_id <- try_pure (py_get sensor_info "sensor_id" (VStr "unknown")) ;;
          log ERROR (SensorGeneratedException sensor_id exc) ;;
          consume_futures rest all_measurements
      end
  end.

(** [get_sensor_measurements_batch(sensor_batch, country_name)], as the
    [n]-th pool run. *)
Definition get_sensor_measurements_batch (n : nat) (sensor_batch : list Value)
  : M World (list Value) :=
  let run := pool n sensor_batch in
  all_measurements <- consume_futures (completed run) [] ;;
  if interrupted run then raise KeyboardInterrupt
  else ret all_measurements.

(** [create_ingestion_summary(timestamp, measurement_files, interrupted)]. *)
Definition create_ingestion_summary (measurement_files : list Filename)
           (interrupted : bool) : M World unit :=
  modify (fun w =>
    let summary :=
      mkSummary (if interrupted then "interrupted" else "completed")
                (counter "total_locations" w)
                (counter "total_sensors" w)
                (counter "total_measurements" w)
                (counter "batch_count" w)
                measurement_files in
    write_file IngestionSummary (Json summary) w).

(** Phase 1 loop: [for country_name, country_id in self.target_countries.items()]. *)
Fixpoint collect_countries (fuel : nat) (countries : list (string * Value))
  : M Run unit :=
  match countries with
  | [] => ret tt
  | (country_name, country_id) :: rest =>
      locations <- call (get_all_locations_for_country server fuel country_id) ;;
      modify (fun r => set_all_locations (all_locations r ++ locations) r) ;;
      sensors <- call (extract_sensors_from_locations locations) ;;
      modify (fun r => set_all_sensors (all_sensors r ++ sensors) r) ;;
      call (incr "countries_processed" 1) ;;
      collect_countries fuel rest
  end.

(** The statements of one iteration of the Phase 2 loop that follow the
    pool run: extend the buffer, and save it when it is large enough. *)
Definition buffer_and_maybe_save (batch_measurements : list Value) : M Run unit :=
  modify (fun r => set_current_batch (current_batch r ++ batch_measurements) r) ;;
  buffered <- gets current_batch ;;
  if (batch_size <=? Z.of_nat (List.length buffered))%Z then
    index <- gets (fun r => counter "batch_count" (world r)) ;;
    let batch_filename := MeasurementsBatch index in
    call (save_batch_to_parquet buffered batch_filename "measurements (batch)") ;;
    modify (fun r => set_measurement_batches (measurement_batches r ++ [batch_filename]) r) ;;
    modify (set_current_batch []) ;;
    call (incr "batch_count" 1)
  else ret tt.

Definition sensor_batch_size : nat := 50.

(** Phase 2 loop: [for i in range(0, len(all_sensors), sensor_batch_size)],
    with [iterations] values of [i] left, the next one being [i]. *)
Fixpoint collect_measurements (sensors : list Value) (iterations i : nat)
  : M Run unit :=
  match iterations with
  | O => ret tt
  | S iterations' =>
      let sensor_batch := firstn sensor_batch_size (skipn i sensors) in
      let batch_num := i / sensor_batch_size + 1 in
      batch_measurements <-
        call (get_sensor_measurements_batch (batch_num - 1) sensor_batch) ;;
      buffer_and_maybe_save batch_measurements ;;
      collect_measurements sensors iterations' (i + sensor_batch_size)
  end.

(** [len(range(0, n, sensor_batch_size))]. *)
Definition total_batches (n : nat) : nat :=
  (n + sensor_batch_size - 1) / sensor_batch_size.

(** The body of the [try] statement of [run_full_ingestion]. *)
Definition try_body (fuel : nat) : M Run unit :=
  (* Phase 1 *)
  collect_countries fuel target_countries ;;
  locations <- gets all_locations ;;
  call (save_batch_to_parquet locations AllLocations "locations") ;;
  sensors <- gets all_sensors ;;
  call (save_batch_to_parquet sensors AllSensors "sensors") ;;
  (* Phase 2 *)
  collect_measurements sensors (total_batches (List.length sensors)) 0 ;;
  buffered <- gets current_batch ;;
  match buffered with
  | [] => ret tt
  | _ :: _ =>
      call (save_batch_to_parquet buffered MeasurementsFinal "measurements (final batch)") ;;
      modify (fun r => set_measurement_batches (measurement_batches r ++ [MeasurementsFinal]) r) ;;
      call (incr "batch_count" 1)
  end ;;
  (* Phase 3 *)
  files <- gets measurement_batches ;;
  call (create_ingestion_summary files false).

(** [run_full_ingestion()]: the [try] statement with its handlers.  The
    [finally] clause only writes info log records. *)
Definition run_full_ingestion (fuel : nat) : M Run unit :=
  fun r =>
    match try_body fuel r with
    | Ret a r' => Ret a r'
    | Raise KeyboardInterrupt r' =>
        (call (log WARNING InterruptedByUser) ;;
         files <- gets measurement_batches ;;
         call (create_ingestion_summary files true)) r'
    | Raise e r' =>
        (call (log ERROR (FatalError e)) ;; raise e) r'
    | NoFuel => NoFuel
    end.
End Orchestrator.
End Full.

(* ===================================================================== *)
(** ** scripts/ingest_openaq_data.py: class OpenAQIngester *)
(* ===================================================================== *)

Module Basic.

(** The record built for one sensor of one location. *)
Definition sensor_info_of (location sensor : Value) : Exn + Value :=
  sensor_id <~ py_get sensor "id" VNone ;;
  sensor_name <~ py_get sensor "name" VNone ;;
  parameter <~ py_get sensor "parameter" (VDict []) ;;
  location_id <~ py_get location "id" VNone ;;
  location_name <~ py_get location "name" VNone ;;
  location_locality <~ py_get location "locality" VNone ;;
  country <~ py_get location "country" (VDict []) ;;
  coordinates <~ py_get location "coordinates" (VDict []) ;;
  timezone <~ py_get location "timezone" VNone ;;
  owner <~ py_get location "owner" (VDict []) ;;
  provider <~ py_get location "provider" (VDict []) ;;
  inr (VDict [("sensor_id", sensor_id);
              ("sensor_name", sensor_name);
              ("parameter", parameter);
              ("location_id", location_id);
              ("location_name", location_name);
              ("location_locality", location_locality);
              ("country", country);
              ("coordinates", coordinates);
              ("timezone", timezone);
              ("owner", owner);
              ("provider", provider)]).

Fixpoint sensors_of_location (location : Value) (location_sensors : list Value)
  : Exn + list Value :=
  match location_sensors with
  | [] => inr []
  | sensor :: rest =>
      sensor_info <~ sensor_info_of location sensor ;;
      more <~ sensors_of_location location rest ;;
      inr (sensor_info :: more)
  end.

(** [extract_sensors_from_locations(locations)]. *)
Fixpoint extract_sensors_from_locations (locations : list Value) : Exn + list Value :=
  match locations with
  | [] => inr []
  | location :: rest =>
      location_sensors <~ py_get location "sensors" (VList []) ;;
      sensor_list <~ py_iter location_sensors ;;
      here <~ sensors_of_location location sensor_list ;;
      more <~ extract_sensors_from_locations rest ;;
      inr (here ++ more)
  end.

(** The columns [measurement.update({...})] receives. *)
Definition context_columns (sensor_id sensor_info : Value) : Exn + Dict :=
  sensor_name <~ py_get sensor_info "sensor_name" VNone ;;
  location_id <~ py_get sensor_info "location_id" VNone ;;
  location_name <~ py_get sensor_info "location_name" VNone ;;
  country <~ py_get sensor_info "country" (VDict []) ;;
  country_name <~ py_get country "name" VNone ;;
  country' <~ py_get sensor_info "country" (VDict []) ;;
  country_code <~ py_get country' "code" VNone ;;
  inr [("sensor_id", sensor_id);
       ("sensor_name", sensor_name);
       ("location_id", location_id);
       ("location_name", location_name);
       ("country_name", country_name);
       ("country_code", country_code)].

(** One iteration of [for measurement in results: measurement.update({...})]:
    the contents of the object [measurement] once the statement has run. *)
Definition update_measurement (sensor_id sensor_info measurement : Value)
  : Exn + Value :=
  match measurement with
  | VDict _ =>
      columns <~ context_columns sensor_id sensor_info ;;
      py_update measurement columns
  | _ => inl AttributeError
  end.

Fixpoint update_measurements (sensor_id sensor_info : Value) (objects : list Value)
  : Exn + list Value :=
  match objects with
  | [] => inr []
  | measurement :: rest =>
      measurement' <~ update_measurement sensor_id sensor_info measurement ;;
      rest' <~ update_measurements sensor_id sensor_info rest ;;
      inr (measurement' :: rest')
  end.

Section Ingester.
Variable server : nat -> Request -> Outcome.
Variable isoformat_now : nat -> Value.
Variable to_parquet : Filename -> list Value -> WriteResult.

(** [make_request(endpoint, params)]: one call, no retry. *)
Definition make_request (r : Request) : M World Value :=
  o <- requests_get server r ;;
  match o with
  | Response status_code json =>
      if raise_for_status status_code then
        log ERROR ApiRequestFailed ;; ret VNone
      else
        delay ;;
        match json with
        | Some body => ret body
        | None =>
            (* [response.json()] raises requests' JSONDecodeError, which is
               a RequestException: the first clause takes it *)
            log ERROR ApiRequestFailed ;; ret VNone
        end
  | Timeout | ConnectionError | RequestException =>
      log ERROR ApiRequestFailed ;; ret VNone
  | Signal => raise KeyboardInterrupt
  end.

(** The [while True] loop of [get_all_locations]. *)
Fixpoint locations_loop (fuel : nat) (country_id : Value) (limit page : nat)
         (locations : list Value) : M World (list Value) :=
  match fuel with
  | O => out_of_fuel
  | S fuel' =>
      let params := [("countries_id", country_id);
                     ("page", VNat page);
                     ("limit", VNat limit)] in
      response <- make_request (mkRequest Locations params) ;;
      if py_not response then ret locations
      else
        results <- try_pure (py_get response "results" (VList [])) ;;
        if py_not results then ret locations
        else
          items <- try_pure (py_iter results) ;;
          let locations := locations ++ items in
          meta <- try_pure (py_get response "meta" (VDict [])) ;;
          n <- try_pure (py_len results) ;;
          if n <? limit then ret locations
          else locations_loop fuel' country_id limit (S page) locations
  end.

(** [get_all_locations(country_id, country_name)]. *)
Definition get_all_locations (fuel : nat) (country_id : Value) : M World (list Value) :=
  locations_loop fuel country_id 1000 1 [].

(** The [while True] loop of [get_sensor_measurements]. *)
Fixpoint measurements_loop (fuel : nat) (sensor_id sensor_info date_from date_to : Value)
         (limit page : nat) (measurements : list Value) : M World (list Value) :=
  match fuel with
  | O => out_of_fuel
  | S fuel' =>
      let params := [("date_from", date_from);
                     ("date_to", date_to);
                     ("page", VNat page);
                     ("limit", VNat limit)] in
      response <- make_request (mkRequest (SensorMeasurements sensor_id) params) ;;
      if py_not response then ret measurements
      else
        results <- try_pure (py_get response "results" (VList [])) ;;
        if py_not results then ret measurements
        else
          objects <- try_pure (py_iter results) ;;
          objects' <- try_pure (update_measurements sensor_id sensor_info objects) ;;
          let measurements := measurements ++ objects' in
          n <- try_pure (py_len results) ;;
          if n <? limit then ret measurements
          else measurements_loop fuel' sensor_id sensor_info date_from date_to
                                 limit (S page) measurements
  end.

Definition default_date_from : Value := VStr "2015-01-01T00:00:00Z".

(** [get_sensor_measurements(sensor_id, sensor_info, date_from, date_to)];
    an argument left out is [None]. *)
Definition get_sensor_measurements (fuel : nat) (sensor_id sensor_info : Value)
           (date_from date_to : option Value) : M World (list Value) :=
  let date_from := match date_from with Some d => d | None => default_date_from end in
  date_to <- match date_to with
             | Some d => ret d
             | None => utcnow isoformat_now
             end ;;
  (* the info record formats sensor_info.get('sensor_name', 'Unknown') *)
  _ <- try_pure (py_get sensor_info "sensor_name" (VStr "Unknown")) ;;
  measurements_loop fuel sensor_id sensor_info date_from date_to 1000 1 [].

(** [save_to_parquet(data, filename, description)]. *)
Definition save_to_parquet (data : list Value) (filename : Filename)
           (description : string) : M World unit :=
  match data with
  | [] => log WARNING (NoDataToSave description)
  | _ :: _ =>
      match to_parquet filename data with
      | Written => modify (write_file filename (Parquet data))
      | Failed left_behind =>
          (* except Exception as e: the error is logged, nothing is removed *)
          modify (leave_file filename left_behind) ;;
          log ERROR (FailedToSave description)
      end
  end.

(** Step 1 loop of [run_full_ingestion]: the final
    [(all_locations, all_sensors)]. *)
Fixpoint collect_countries (fuel : nat) (countries : list (string * Value))
         (all_locations all_sensors : list Value)
  : M World (list Value * list Value) :=
  match countries with
  | [] => ret (all_locations, all_sensors)
  | (country_name, country_id) :: rest =>
      locations <- get_all_locations fuel country_id ;;
      sensors <- try_pure (extract_sensors_from_locations locations) ;;
      collect_countries fuel rest (all_locations ++ locations) (all_sensors ++ sensors)
  end.

(** Step 2 loop: [for i, sensor_info in enumerate(all_sensors, 1)]; the
    final [all_measurements]. *)
Fixpoint collect_measurements (fuel : nat) (sensors : list Value) (i : nat)
         (all_measurements : list Value) : M World (list Value) :=
  match sensors with
  | [] => ret all_measurements
  | sensor_info :: rest =>
      sensor_id <- try_pure (py_get sensor_info "sensor_id" VNone) ;;
      if py_not sensor_id then
        collect_measurements fuel rest (S i) all_measurements
      else
        measurements <- get_sensor_measurements fuel sensor_id sensor_info None None ;;
        let all_measurements := all_measurements ++ measurements in
        if (100000 <=? Z.of_nat (List.length all_measurements))%Z then
          save_to_parquet all_measurements (MeasurementsBatch (Z.of_nat i))
                          "measurements (batch)" ;;
          collect_measurements fuel rest (S i) []
        else
          collect_measurements fuel rest (S i) all_measurements
  end.

(** [run_full_ingestion()]. *)
Definition run_full_ingestion (fuel : nat) (target_countries : list (string * Value))
  : M World unit :=
  collected <- collect_countries fuel target_countries [] [] ;;
  let (all_locations, all_sensors) := collected in
  save_to_parquet all_locations AllLocations "locations" ;;
  save_to_parquet all_sensors AllSensors "sensors" ;;
  all_measurements <- collect_measurements fuel all_sensors 1 [] ;;
  match all_measurements with
  | [] => ret tt
  | _ :: _ => save_to_parquet all_measurements MeasurementsFinal "measurements (final)"
  end.
End Ingester.
End Basic.

(* ===================================================================== *)
(** ** scripts/nepal_ingestion.py: class NepalOpenAQIngester *)
(* ===================================================================== *)

Module Nepal.

(** Settings made by the constructor. *)
Definition max_retries : nat := 3.
Definition initial_batch_size : Z := 50000.

(** The columns [measurement.update({...})] receives. *)
Definition context_columns (sensor_id sensor_name parameter_name location_name
                            sensor_info : Value) : Exn + Dict :=
  location_id <~ py_get sensor_info "location_id" VNone ;;
  location_locality <~ py_get sensor_info "location_locality" VNone ;;
  inr [("sensor_id", sensor_id);
       ("sensor_name", sensor_name);
       ("parameter_name", parameter_name);
       ("location_id", location_id);
       ("location_name", location_name);
       ("location_locality", location_locality);
       ("country_name", VStr "Nepal");
       ("country_code", VStr "NP")].

(** One iteration of [for measurement in results: measurement.update({...})]:
    the contents of the object [measurement] once the statement has run. *)
Definition update_measurement (sensor_id sensor_name parameter_name location_name
                               sensor_info measurement : Value) : Exn + Value :=
  match measurement with
  | VDict _ =>
      columns <~ context_columns sensor_id sensor_name parameter_name
                                 location_name sensor_info ;;
      py_update measurement columns
  | _ => inl AttributeError
  end.

Fixpoint update_measurements (sensor_id sensor_name parameter_name location_name
                              sensor_info : Value) (objects : list Value)
  : Exn + list Value :=
  match objects with
  | [] => inr []
  | measurement :: rest =>
      measurement' <~ update_measurement sensor_id sensor_name parameter_name
                                         location_name sensor_info measurement ;;
      rest' <~ update_measurements sensor_id sensor_name parameter_name
                                   location_name sensor_info rest ;;
      inr (measurement' :: rest')
  end.

Section Ingester.
Variable server : nat -> Request -> Outcome.
Variable isoformat_now : nat -> Value.
Variable to_parquet : Filename -> list Value -> WriteResult.
(** [self.batch_size]. *)
Variable batch_size : Z.

(** The [for attempt in range(self.max_retries)] loop of
    [make_request_with_retry]: [remaining] iterations are left, the next
    one is number [attempt]. *)
Fixpoint make_request_from (retries : nat) (r : Request) (remaining attempt : nat)
  : M World Value :=
  match remaining with
  | O =>
      log ERROR (FailedAfterAttempts retries) ;; ret VNone
  | S remaining' =>
      (* the statements after the try statement, then the next iteration *)
      let wait_and_continue :=
        (if attempt <? retries - 1
         then sleep ((Z.of_nat attempt + 1) * 2)
         else ret tt) ;;
        make_request_from retries r remaining' (S attempt) in
      o <- requests_get server r ;;
      match o with
      | Response status_code json =>
          if raise_for_status status_code then
            (* except requests.exceptions.HTTPError *)
            if (status_code =? 429)%Z then
              log WARNING (RateLimitedWaiting 60) ;;
              sleep 60 ;;
              wait_and_continue
            else
              log ERROR (HTTPErrorFor status_code) ;;
              incr "errors_encountered" 1 ;;
              wait_and_continue
          else
            delay ;;
            match json with
            | Some body => ret body
            | None =>
                (* except json.JSONDecodeError *)
                log ERROR JSONDecodeFailed ;;
                incr "errors_encountered" 1 ;;
                wait_and_continue
            end
      | Timeout =>
          log WARNING (TimeoutRetrying (attempt + 1)) ;;
          incr "errors_encountered" 1 ;;
          wait_and_continue
      | ConnectionError =>
          log WARNING (ConnectionErrorFor (attempt + 1)) ;;
          incr "errors_encountered" 1 ;;
          sleep 5 ;;
          wait_and_continue
      | RequestException =>
          (* except Exception *)
          log ERROR UnexpectedError ;;
          incr "errors_encountered" 1 ;;
          wait_and_continue
      | Signal => raise KeyboardInterrupt
      end
  end.

(** [make_request_with_retry(endpoint, params)]. *)
Definition make_request_with_retry (r : Request) : M World Value :=
  make_request_from max_retries r max_retries 0.

(** The [while True] loop of [get_sensor_measurements]. *)
Fixpoint measurements_loop (fuel : nat)
         (sensor_id sensor_name parameter_name location_name sensor_info
          date_from date_to : Value)
         (limit page : nat) (measurements : list Value) : M World (list Value) :=
  match fuel with
  | O => out_of_fuel
  | S fuel' =>
      let params := [("date_from", date_from);
                     ("date_to", date_to);
                     ("page", VNat page);
                     ("limit", VNat limit)] in
      response <- make_request_with_retry (mkRequest (SensorMeasurements sensor_id) params) ;;
      if py_not response then
        log ERROR (FailedMeasurements sensor_id) ;;
        ret measurements
      else
        results <- try_pure (py_get response "results" (VList [])) ;;
        if py_not results then ret measurements
        else
          objects <- try_pure (py_iter results) ;;
          objects' <- try_pure (update_measurements sensor_id sensor_name parameter_name
                                                    location_name sensor_info objects) ;;
          let measurements := measurements ++ objects' in
          n <- try_pure (py_len results) ;;
          incr "measurements_collected" (Z.of_nat n) ;;
          if n <? limit then ret measurements
          else measurements_loop fuel' sensor_id sensor_name parameter_name location_name
                                 sensor_info date_from date_to limit (S page) measurements
  end.

Definition default_date_from : Value := VStr "2024-01-01T00:00:00Z".

(** [get_sensor_measurements(sensor_info, date_from, date_to)]; an
    argument left out is [None]. *)
Definition get_sensor_measurements (fuel : nat) (sensor_info : Value)
           (date_from date_to : option Value) : M World (list Value) :=
  let date_from := match date_from with Some d => d | None => default_date_from end in
  sensor_id <- try_pure (py_get sensor_info "sensor_id" VNone) ;;
  sensor_name <- try_pure (py_get sensor_info "sensor_name" (VStr "Unknown")) ;;
  location_name <- try_pure (py_get sensor_info "location_name" (VStr "Unknown")) ;;
  parameter_name <- try_pure (py_get sensor_info "parameter_name" (VStr "Unknown")) ;;
  if py_not sensor_id then
    log WARNING SkippingSensorNoId ;;
    ret []
  else
    date_to <- match date_to with
               | Some d => ret d
               | None => utcnow isoformat_now
               end ;;
    measurements_loop fuel sensor_id sensor_name parameter_name location_name
                      sensor_info date_from date_to 1000 1 [].

(** [save_to_parquet_partitioned(data, data_type, timestamp)]; [batch] is
    the batch number the caller put into the timestamp, if any. *)
Definition save_to_parquet_partitioned (data : list Value) (data_type : string)
           (batch : option Z) : M World unit :=
  match data with
  | [] => log WARNING (NoDataToSave data_type)
  | _ :: _ =>
      match to_parquet (NepalPartition data_type batch) data with
      | Written => modify (write_file (NepalPartition data_type batch) (Parquet data))
      | Failed left_behind =>
          (* except Exception as e: the error is logged, nothing is removed *)
          modify (leave_file (NepalPartition data_type batch) left_behind) ;;
          log ERROR (FailedToSave data_type)
      end
  end.

(** Step 3 loop of [run_nepal_ingestion]:
    [for i, sensor_info in enumerate(sensors, 1)]; the final
    [(all_measurements, batch_count)]. *)
Fixpoint collect_measurements (fuel : nat) (sensors : list Value)
         (all_measurements : list Value) (batch_count : Z)
  : M World (list Value * Z) :=
  match sensors with
  | [] => ret (all_measurements, batch_count)
  | sensor_info :: rest =>
      measurements <- get_sensor_measurements fuel sensor_info None None ;;
      let all_measurements := all_measurements ++ measurements in
      if (batch_size <=? Z.of_nat (List.length all_measurements))%Z then
        let batch_count := (batch_count + 1)%Z in
        save_to_parquet_partitioned all_measurements "measurements" (Some batch_count) ;;
        collect_measurements fuel rest [] batch_count
      else
        collect_measurements fuel rest all_measurements batch_count
  end.

Definition nepal_country_id : Value := VInt 145.

(** What the info record written for one fetched location evaluates:
    [location.get("name", "Unknown")], [location.get("locality", "Unknown")]
    and [len(location.get("sensors", []))]. *)
Definition describe_location (location : Value) : Exn + unit :=
  location_name <~ py_get location "name" (VStr "Unknown") ;;
  locality <~ py_get location "locality" (VStr "Unknown") ;;
  location_sensors <~ py_get location "sensors" (VList []) ;;
  sensor_count <~ py_len location_sensors ;;
  inr tt.

(** The loop [for location in results] of [get_nepal_locations]. *)
Fixpoint describe_locations (results : list Value) : Exn + unit :=
  match results with
  | [] => inr tt
  | location :: rest =>
      _ <~ describe_location location ;;
      describe_locations rest
  end.

(** The [while True] loop of [get_nepal_locations]. *)
Fixpoint locations_loop (fuel : nat) (limit page : nat) (locations : list Value)
  : M World (list Value) :=
  match fuel with
  | O => out_of_fuel
  | S fuel' =>
      let params := [("countries_id", nepal_country_id);
                     ("page", VNat page);
                     ("limit", VNat limit)] in
      response <- make_request_with_retry (mkRequest Locations params) ;;
      if py_not response then
        log ERROR (FailedLocationsPage (Z.of_nat page)) ;;
        ret locations
      else
        results <- try_pure (py_get response "results" (VList [])) ;;
        if py_not results then ret locations
        else
          items <- try_pure (py_iter results) ;;
          let locations := locations ++ items in
          n <- try_pure (py_len results) ;;
          incr "locations_processed" (Z.of_nat n) ;;
          try_pure (describe_locations items) ;;
          if n <? limit then ret locations
          else locations_loop fuel' limit (S page) locations
  end.

(** [get_nepal_locations()]. *)
Definition get_nepal_locations (fuel : nat) : M World (list Value) :=
  locations_loop fuel 1000 1 [].

(** The record built for one sensor of one location. *)
Definition sensor_info_of (location location_id location_name locality sensor : Value)
  : Exn + Value :=
  sensor_id <~ py_get sensor "id" VNone ;;
  sensor_name <~ py_get sensor "name" (VStr "Unknown") ;;
  parameter <~ py_get sensor "parameter" (VDict []) ;;
  parameter_name <~ py_get parameter "name" (VStr "Unknown") ;;
  country <~ py_get location "country" (VDict []) ;;
  coordinates <~ py_get location "coordinates" (VDict []) ;;
  timezone <~ py_get location "timezone" VNone ;;
  owner <~ py_get location "owner" (VDict []) ;;
  provider <~ py_get location "provider" (VDict []) ;;
  inr (VDict [("sensor_id", sensor_id);
              ("sensor_name", sensor_name);
              ("parameter", parameter);
              ("parameter_name", parameter_name);
              ("location_id", location_id);
              ("location_name", location_name);
              ("location_locality", locality);
              ("country", country);
              ("coordinates", coordinates);
              ("timezone", timezone);
              ("owner", owner);
              ("provider", provider)]).

Fixpoint sensors_of_location (location location_id location_name locality : Value)
         (location_sensors : list Value) : Exn + list Value :=
  match location_sensors with
  | [] => inr []
  | sensor :: rest =>
      sensor_info <~ sensor_info_of location location_id location_name locality sensor ;;
      more <~ sensors_of_location location location_id location_name locality rest ;;
      inr (sensor_info :: more)
  end.

(** The outer loop [for location in locations]: the final [sensors] list. *)
Fixpoint sensors_of_locations (locations : list Value) : Exn + list Value :=
  match locations with
  | [] => inr []
  | location :: rest =>
      location_id <~ py_get location "id" VNone ;;
      location_name <~ py_get location "name" (VStr "Unknown") ;;
      locality <~ py_get location "locality" (VStr "Unknown") ;;
      location_sensors <~ py_get location "sensors" (VList []) ;;
      sensor_count <~ py_len location_sensors ;;
      sensor_list <~ py_iter location_sensors ;;
      here <~ sensors_of_location location location_id location_name locality sensor_list ;;
      more <~ sensors_of_locations rest ;;
      inr (here ++ more)
  end.

(** [extract_sensors_from_locations(locations)]; it assigns
    [self.progress['sensors_processed'] = len(sensors)]. *)
Definition extract_sensors_from_locations (locations : list Value)
  : M World (list Value) :=
  sensors <- try_pure (sensors_of_locations locations) ;;
  modify (set_counter "sensors_processed" (Z.of_nat (List.length sensors))) ;;
  ret sensors.

(** The body of the [try] statement of [run_nepal_ingestion]. *)
Definition try_body (fuel : nat) : M World unit :=
  locations <- get_nepal_locations fuel ;;
  match locations with
  | [] => log ERROR NoLocationsAborting
  | _ :: _ =>
      save_to_parquet_partitioned locations "locations" None ;;
      sensors <- extract_sensors_from_locations locations ;;
      match sensors with
      | [] => log ERROR NoSensorsAborting
      | _ :: _ =>
          save_to_parquet_partitioned sensors "sensors" None ;;
          collected <- collect_measurements fuel sensors [] 0 ;;
          let (all_measurements, batch_count) := collected in
          match all_measurements with
          | [] => ret tt
          | _ :: _ =>
              save_to_parquet_partitioned all_measurements "measurements"
                                          (Some (batch_count + 1)%Z)
          end
      end
  end.

(** [run_nepal_ingestion()]: the [try] statement with its handlers. *)
Definition run_nepal_ingestion (fuel : nat) : M World unit :=
  fun w =>
    match try_body fuel w with
    | Ret a w' => Ret a w'
    | Raise KeyboardInterrupt w' => log WARNING InterruptedByUser w'
    | Raise e w' => (log ERROR (FatalError e) ;; raise e) w'
    | NoFuel => NoFuel
    end.
End Ingester.
End Nepal.

(* ===================================================================== *)
(** ** Simulated environments used to state the properties *)
(* ===================================================================== *)

(** A simulated outcome sequence: the [n]-th call of the run gets the [n]-th
    outcome, whatever is requested; past the end the connection fails. *)
Definition script (outcomes : list Outcome) : nat -> Request -> Outcome :=
  fun n _ => nth n outcomes ConnectionError.

(** The spec's classification of one outcome (section 4.1). *)
Inductive Kind : Type :=
| KSuccess | KTimeout | KRateLimited | KServerError | KClientError
| KMalformedResponse | KNetworkError | KInterrupt.

Definition classify (o : Outcome) : Kind :=
  match o with
  | Response status_code json =>
      if raise_for_status status_code then
        if (status_code =? 429)%Z then KRateLimited
        else if (500 <=? status_code)%Z then KServerError
        else KClientError
      else match json with
           | Some _ => KSuccess
           | None => KMalformedResponse
           end
  | Timeout => KTimeout
  | ConnectionError | RequestException => KNetworkError
  | Signal => KInterrupt
  end.

(** A call that neither yields a parsed body nor is interrupted. *)
Definition failed (o : Outcome) : bool :=
  match classify o with
  | KSuccess | KInterrupt => false
  | _ => true
  end.

(** A wrapper surfaces a failure immediately: it returns [None] having made
    exactly one call. *)
Definition surfaces_immediately (wrapper : M World Value) (w : World) : Prop :=
  exists w', wrapper w = Ret VNone w' /\ calls w' = S (calls w).

Definition a_request : Request := mkRequest Locations [("page", VInt 1)].

(** The number a request carries under a query parameter. *)
Definition nat_param (r : Request) (k : string) : nat :=
  match get (params r) k VNone with
  | VInt z => Z.to_nat z
  | _ => 0
  end.

(** The records of page [page] (counted from 1) of a result stream cut into
    pages of [limit] records. *)
Definition page_of (stream : list Value) (limit page : nat) : list Value :=
  firstn limit (skipn ((page - 1) * limit) stream).

(** An API that serves one finite result stream consistently: every call
    succeeds and answers with the requested page of the stream. *)
Definition paged_api (stream : list Value) : nat -> Request -> Outcome :=
  fun _ r =>
    let page := nat_param r "page" in
    let limit := nat_param r "limit" in
    Response 200 (Some (VDict [("meta", VDict [("page", VNat page); ("limit", VNat limit)]);
                               ("results", VList (page_of stream limit page))])).

(** The key is missing from the dict, or holds a mapping. *)
Definition mapping_or_absent (d : Dict) (k : string) : bool :=
  match lookup k d with
  | None => true
  | Some (VDict _) => true
  | Some _ => false
  end.

(** Sample records: a location with one sensor, the sensor record extracted
    from it, and a raw measurement. *)
Definition sample_sensor : Dict := [("id", VInt 7); ("name", VStr "pm25")].

Definition sample_location : Dict :=
  [("id", VInt 8118);
   ("name", VStr "Kathmandu");
   ("coordinates", VDict [("latitude", VFloat 3897 (-7)); ("longitude", VFloat 2731 (-5))]);
   ("sensors", VList [VDict sample_sensor])].

Definition sample_sensor_info : Dict :=
  Eval cbv in
    match Basic.sensor_info_of (VDict sample_location) (VDict sample_sensor) with
    | inr (VDict d) => d
    | _ => []
    end.

Definition sample_measurement : Dict := [("value", VInt 42); ("sensor_id", VInt 0)].

Definition sample_now : nat -> Value := fun _ => VStr "2025-09-22T00:00:00+00:00".

Definition sample_flat_full : Value :=
  Eval cbv in
    match Full.update_measurement sample_now (VInt 7) (VDict sample_sensor_info)
                                  (VDict sample_measurement) world0 with
    | Ret flat _ => flat
    | _ => VNone
    end.

Definition sample_flat_basic : Value :=
  Eval cbv in
    match Basic.update_measurement (VInt 7) (VDict sample_sensor_info)
                                   (VDict sample_measurement) with
    | inr flat => flat
    | inl _ => VNone
    end.

(** What [save_batch_to_parquet] leaves behind for non-empty data. *)
Definition after_save (to_parquet : Filename -> list Value -> WriteResult)
           (data : list Value) (filename : Filename) (description : string)
           (w : World) : World :=
  match to_parquet filename data with
  | Written => write_file filename (Parquet data) w
  | Failed left_behind =>
      record_event (EvLog ERROR (FailedToSave description))
                   (leave_file filename left_behind w)
  end.

(** A run that is interrupted during measurement collection: one country
    with one location of 51 sensors (two sensor batches); the first pool run
    completes two sensors with one measurement each, the second is
    interrupted after one more sensor has completed. *)
Definition busy_location : Value :=
  VDict [("id", VInt 8118);
         ("name", VStr "Kathmandu");
         ("sensors", VList (repeat (VDict sample_sensor) 51))].


Definition always_written : Filename -> list Value -> WriteResult := fun _ _ => Written.




Definition is_measurement_file (f : Filename) : bool :=
  match f with
  | MeasurementsBatch _ | MeasurementsFinal => true
  | _ => false
  end.

(** The seconds of the [time.sleep(seconds)] calls of a trace, in order. *)
Definition slept (t : list Event) : list Z :=
  flat_map (fun e => match e with EvSleep seconds => [seconds] | _ => [] end) t.

(** The failures after which [make_request] of the full-scale script waits
    and tries again. *)
Definition retryable (o : Outcome) : bool :=
  match classify o with
  | KTimeout | KNetworkError | KRateLimited | KServerError => true
  | _ => false
  end.

(** The seconds [make_request] of the full-scale script waits after a
    retryable failure of attempt number [attempt] (counted from 0). *)
Definition backoff_seconds (o : Outcome) (attempt : nat) : Z :=
  match classify o with
  | KRateLimited => 60 * (Z.of_nat attempt + 1)
  | KServerError => 5 * (Z.of_nat attempt + 1)
  | _ => 2 ^ Z.of_nat attempt
  end.

(** The waits after a run of failures that starts at attempt [attempt]. *)
Fixpoint schedule (failures : list Outcome) (attempt : nat) : list Z :=
  match failures with
  | [] => []
  | o :: rest => backoff_seconds o attempt :: schedule rest (S attempt)
  end.

(** What a wrapper may change: it makes calls and writes the trace, and
    leaves the disk and the clock alone. *)
Definition only_calls (bound : nat) (w w' : World) : Prop :=
  calls w <= calls w' <= calls w + bound
  /\ disk w' = disk w
  /\ clock w' = clock w.

(** The failures [make_request_with_retry] of the Nepal script counts in
    [progress['errors_encountered']]: all but rate limiting. *)
Definition counted_errors (failures : list Outcome) : nat :=
  List.length (filter (fun o => match classify o with
                                | KRateLimited => false
                                | _ => true
                                end) failures).

(** The records held by the measurement files of a disk, in the order
    written. *)
Definition measurement_records (d : list (Filename * Content)) : list Value :=
  flat_map (fun fc => match fc with
                      | (f, Parquet records) =>
                          if is_measurement_file f then records else []
                      | (_, Json _) | (_, Unreadable) => []
                      end) d.

(** A future the main thread can consume without raising: it did not end
    with a KeyboardInterrupt and, if it ended with another exception, its
    sensor record is a mapping. *)
Definition tame (future : Value * (Exn + list Value)) : bool :=
  match future with
  | (_, inr _) => true
  | (_, inl KeyboardInterrupt) => false
  | (VDict _, inl _) => true
  | (_, inl _) => false
  end.

(** The measurement lists of the futures that returned. *)
Definition returned (futures : list (Value * (Exn + list Value))) : list (list Value) :=
  flat_map (fun future => match snd future with
                          | inr measurements => [measurements]
                          | inl _ => []
                          end) futures.

(** A Phase 2 that runs to its end: 120 sensors, hence three pool runs, in
    which every sensor returns two measurements, with a threshold of 150. *)
Definition steady_pool : nat -> list Value -> Full.PoolRun :=
  fun _ sensor_batch =>
    Full.mkPoolRun
      (map (fun s => (s, inr [VDict sample_measurement; VDict sample_measurement]))
           sensor_batch)
      false.

Definition sample_sensors : list Value := repeat (VDict sample_sensor_info) 120.

Definition after_phase2 : Full.Run :=
  Eval vm_compute in
    match Full.collect_measurements always_written steady_pool 150 sample_sensors 3 0
                                    (Full.run0 world0) with
    | Ret _ r => r
    | _ => Full.run0 world0
    end.

(** A run that completes: two countries, each answered with the one
    location of 51 sensors, hence 102 sensors and three pool runs. *)
Definition two_countries : list (string * Value) :=
  [("Nepal", VInt 145); ("India", VInt 9)].

Definition after_phase1 : Full.Run :=
  Eval vm_compute in
    match Full.collect_countries (paged_api [busy_location]) 5 two_countries
                                 (Full.run0 world0) with
    | Ret _ r => r
    | _ => Full.run0 world0
    end.

Definition completed_run : Full.Run :=
  Eval vm_compute in
    match Full.try_body (paged_api [busy_location]) always_written steady_pool 150
                        two_countries 5 (Full.run0 world0) with
    | Ret _ r => r
    | _ => Full.run0 world0
    end.

(** A computation keeps an observation [d] of the state: however it ends,
    with a value or with an exception, [d] is what it was. *)
Definition keeps {S D A : Type} (d : S -> D) (m : M S A) : Prop :=
  forall s, match m s with
            | Ret _ s' | Raise _ s' => d s' = d s
            | NoFuel => True
            end.

(** A location whose [sensors] entry is null, and the run that meets it. *)
Definition broken_location : Value :=
  VDict [("id", VInt 8119); ("name", VStr "Pokhara"); ("sensors", VNone)].

Definition broken_run : Res Full.Run unit :=
  Full.run_full_ingestion (paged_api [busy_location; broken_location]) always_written
                          steady_pool 150 two_countries 5 (Full.run0 world0).

Definition broken_phase1 : Full.Run :=
  Eval vm_compute in
    match Full.collect_countries (paged_api [busy_location; broken_location]) 5
                                 two_countries (Full.run0 world0) with
    | Raise _ r => r
    | _ => Full.run0 world0
    end.

(** A location without sensors, and the world once the Nepal script has
    fetched it. *)
Definition bare_location : Value :=
  VDict [("id", VInt 8120); ("name", VStr "Lumbini")].

Definition nepal_after_locations : World :=
  Eval vm_compute in
    match Nepal.get_nepal_locations (paged_api [bare_location]) 5 world0 with
    | Ret _ w => w
    | _ => world0
    end.

(** A location the Nepal script can describe in its log: a mapping whose
    [sensors] entry, if any, has a length. *)
Definition sized_location (location : Value) : bool :=
  match location with
  | VDict d =>
      match get d "sensors" (VList []) with
      | VList _ | VDict _ | VStr _ => true
      | _ => false
      end
  | _ => false
  end.

(** The columns each script sets on a measurement. *)
Definition full_columns : list string :=
  ["sensor_id"; "sensor_name"; "location_id"; "location_name"; "country_name";
   "country_code"; "coordinates_lat"; "coordinates_lon"; "timezone"; "provider_name";
   "ingestion_timestamp"].

Definition basic_columns : list string :=
  ["sensor_id"; "sensor_name"; "location_id"; "location_name"; "country_name";
   "country_code"].

Definition nepal_columns : list string :=
  ["sensor_id"; "sensor_name"; "parameter_name"; "location_id"; "location_name";
   "location_locality"; "country_name"; "country_code"].

(** [k] is none of the keys. *)
Definition not_among (keys : list string) (k : string) : bool :=
  negb (existsb (String.eqb k) keys).

(** A location the extraction handles: a mapping whose [sensors] entry, if
    any, is a list of mappings; and the number of its sensors. *)
Definition is_mapping (v : Value) : bool :=
  match v with
  | VDict _ => true
  | _ => false
  end.

Definition proper_location (location : Value) : bool :=
  match location with
  | VDict d =>
      match get d "sensors" (VList []) with
      | VList sensors => forallb is_mapping sensors
      | _ => false
      end
  | _ => false
  end.

Definition sensor_count (location : Value) : nat :=
  match location with
  | VDict d =>
      match get d "sensors" (VList []) with
      | VList sensors => List.length sensors
      | _ => 0
      end
  | _ => 0
  end.

(** The sensors a proper location lists. *)
Definition listed_sensors (location : Value) : list Value :=
  match location with
  | VDict d =>
      match get d "sensors" (VList []) with
      | VList sensors => sensors
      | _ => []
      end
  | _ => []
  end.

(** The entry of a record under a key ([None] when there is none). *)
Definition field (k : string) (record : Value) : Value :=
  match record with
  | VDict d => get d k VNone
  | _ => VNone
  end.

(** The (location id, sensor id) pairs the locations list, in order. *)
Definition listed_pairs (locations : list Value) : list (Value * Value) :=
  flat_map (fun location =>
              map (fun sensor => (field "id" location, field "id" sensor))
                  (listed_sensors location)) locations.

(** The (location id, sensor id) pairs of sensor records. *)
Definition record_pairs (sensors : list Value) : list (Value * Value) :=
  map (fun sensor_info => (field "location_id" sensor_info, field "sensor_id" sensor_info))
      sensors.

(** [n] batch file names numbered from [first]. *)
Definition batch_names (first : Z) (n : nat) : list Filename :=
  map (fun j => MeasurementsBatch (first + Z.of_nat j)) (seq 0 n).

(** The context columns of the basic script for the sample sensor. *)
Definition sample_basic_columns : Dict :=
  Eval cbv in
    match Basic.context_columns (VInt 7) (VDict sample_sensor_info) with
    | inr columns => columns
    | inl _ => []
    end.

(** One sensor of the Nepal script served two measurements on one page:
    what is returned and the world it leaves. *)
Definition nepal_sensor_run : Res World (list Value) :=
  Nepal.get_sensor_measurements
    (paged_api [VDict sample_measurement; VDict sample_measurement])
    sample_now 2 (VDict sample_sensor_info) None None world0.

Definition nepal_sensor_measurements : list Value :=
  Eval vm_compute in
    match nepal_sensor_run with
    | Ret measurements _ => measurements
    | _ => []
    end.

Definition nepal_sensor_world : World :=
  Eval vm_compute in
    match nepal_sensor_run with
    | Ret _ w => w
    | _ => world0
    end.

(** The files [run_nepal_ingestion] writes for successive batches when the
    batch counter stands at [batch_count]. *)
Fixpoint nepal_batch_files (batch_count : Z) (batches : list (list Value))
  : list (Filename * Content) :=
  match batches with
  | [] => []
  | batch :: rest =>
      (NepalPartition "measurements" (Some (batch_count + 1)%Z), Parquet batch)
        :: nepal_batch_files (batch_count + 1) rest
  end.

(** Step 3 of the Nepal script over three sensors, each served two
    measurements, with a batch size of 3. *)
Definition nepal_collect_run : Res World (list Value * Z) :=
  Nepal.collect_measurements
    (paged_api [VDict sample_measurement; VDict sample_measurement])
    sample_now always_written 3 2
    [VDict sample_sensor_info; VDict sample_sensor_info; VDict sample_sensor_info]
    [] 0 world0.

Definition nepal_collect_buffer : list Value :=
  Eval vm_compute in
    match nepal_collect_run with
    | Ret (buffered, _) _ => buffered
    | _ => []
    end.

Definition nepal_collect_world : World :=
  Eval vm_compute in
    match nepal_collect_run with
    | Ret _ w => w
    | _ => world0
    end.

Definition sample_flat_nepal : Value :=
  Eval cbv in
    match Nepal.update_measurement (VInt 7) (VStr "pm25") (VStr "Unknown")
                                   (VStr "Kathmandu") (VDict sample_sensor_info)
                                   (VDict sample_measurement) with
    | inr flat => flat
    | inl _ => VNone
    end.

Definition ceil_div (n L : nat) : nat := (n + L - 1) / L.

(** The number of requests the spec expects for a stream of [n] records and
    page size [L]. *)
Definition expected_requests (n L : nat) : nat :=
  if n mod L =? 0 then ceil_div n L + 1 else ceil_div n L.

(* ===================================================================== *)
(** ** Evaluation lemmas for the monad *)
(* ===================================================================== *)

Section MonadLemmas.
Context {S A B : Type}.

Lemma bind_Ret (m : M S A) (k : A -> M S B) (s s' : S) (a : A) :
  m s = Ret a s' -> bind m k s = k a s'.
Proof. intros H. unfold bind. now rewrite H. Qed.

Lemma bind_Raise (m : M S A) (k : A -> M S B) (s s' : S) (e : Exn) :
  m s = Raise e s' -> bind m k s = Raise e s'.
Proof. intros H. unfold bind. now rewrite H. Qed.

Lemma bind_NoFuel (m : M S A) (k : A -> M S B) (s : S) :
  m s = NoFuel -> bind m k s = NoFuel.
Proof. intros H. unfold bind. now rewrite H. Qed.
End MonadLemmas.

Lemma calls_record_event e w : calls (record_event e w) = calls w.
Proof. reflexivity. Qed.

Lemma calls_record_call r w : calls (record_call r w) = S (calls w).
Proof. reflexivity. Qed.

Lemma calls_set_counter k z w : calls (set_counter k z w) = calls w.
Proof. reflexivity. Qed.

(* ===================================================================== *)
(** ** Retry policy *)
(* ===================================================================== *)

(** C5 (as amended): with [retries = 3] the full-scale wrapper makes exactly
    3 calls on [Timeout, Timeout, Success] and returns the third call's
    body, and exactly 4 calls on four rate-limited responses, after which it
    returns [None], the last log record being the HTTP 429 error.  The Nepal
    wrapper, whose [max_retries = 3] counts attempts, also makes 3 calls on
    [Timeout, Timeout, Success] and returns the body, but makes exactly 3
    calls on persistent rate limiting before it returns [None]. *)
Theorem retry_policy_max_retries_3 :
  forall (r : Request) (body : Value),
    let success := Response 200 (Some body) in
    let rate_limited := Response 429 None in
    (exists w, Full.make_request (script [Timeout; Timeout; success]) r 3 world0 = Ret body w
               /\ calls w = 3)
    /\ (exists w, Full.make_request
                    (script [rate_limited; rate_limited; rate_limited; rate_limited])
                    r 3 world0 = Ret VNone w
                  /\ calls w = 4
                  /\ last (trace w) EvDelay = EvLog ERROR (HTTPErrorFor 429))
    /\ (exists w, Nepal.make_request_with_retry (script [Timeout; Timeout; success]) r world0
                  = Ret body w
                  /\ calls w = 3)
    /\ (exists w, Nepal.make_request_with_retry
                    (script [rate_limited; rate_limited; rate_limited; rate_limited])
                    r world0 = Ret VNone w
                  /\ calls w = 3).
Proof.
  intros r body success rate_limited.
  repeat split; eexists; repeat split; cbv; reflexivity.
Qed.

(** C5 as stated fails on the Nepal wrapper: with [max_retries = 3] and four
    rate-limited responses it stops after 3 calls, not 4. *)
Lemma retry_policy_nepal_three_calls :
  let rate_limited := Response 429 None in
  classify rate_limited = KRateLimited
  /\ Nepal.max_retries = 3
  /\ ~ (exists w, Nepal.make_request_with_retry
                    (script [rate_limited; rate_limited; rate_limited; rate_limited])
                    a_request world0 = Ret VNone w
                  /\ calls w = 4).
Proof.
  cbv zeta. split; [reflexivity | split; [reflexivity |]].
  intros [w [H Hc]].
  vm_compute in H. inversion H; subst w. discriminate Hc.
Qed.

(** Steps that leave the call count alone. *)
Ltac run_effects :=
  repeat (unfold bind at 1, log, sleep, delay, incr, modify, ret; cbn beta iota).

(** When every remaining attempt fails, the Nepal wrapper uses them all and
    returns [None]. *)
Lemma nepal_all_failed (server : nat -> Request -> Outcome) (r : Request) (retries : nat) :
  forall remaining attempt w,
    (forall k, k < remaining -> failed (server (calls w + k) r) = true) ->
    exists w', Nepal.make_request_from server retries r remaining attempt w = Ret VNone w'
               /\ calls w' = calls w + remaining.
Proof.
  induction remaining as [|n IH]; intros attempt w Hf.
  - eexists; split; [reflexivity | cbn; lia].
  - assert (Hcont : forall w1, calls w1 = S (calls w) ->
              exists w', ((if attempt <? retries - 1
                           then sleep ((Z.of_nat attempt + 1) * 2)
                           else ret tt) ;;
                          Nepal.make_request_from server retries r n (S attempt)) w1
                         = Ret VNone w'
                         /\ calls w' = calls w + S n).
    { intros w1 Hw1.
      assert (Hshift : forall w2, calls w2 = S (calls w) ->
                exists w', Nepal.make_request_from server retries r n (S attempt) w2
                           = Ret VNone w' /\ calls w' = calls w + S n).
      { intros w2 Hw2. destruct (IH (S attempt) w2) as [w' [He Hc]].
        - intros k Hk. rewrite Hw2. replace (S (calls w) + k) with (calls w + S k) by lia.
          apply Hf. lia.
        - exists w'. split; [exact He | lia]. }
      destruct (attempt <? retries - 1); run_effects; apply Hshift; exact Hw1. }
    pose proof (Hf 0 ltac:(lia)) as H0. rewrite Nat.add_0_r in H0.
    cbn [Nepal.make_request_from]. unfold bind at 1, requests_get.
    unfold failed, classify in H0.
    destruct (server (calls w) r) as [sc j| | | |]; try discriminate H0.
    + destruct (raise_for_status sc).
      * destruct (sc =? 429)%Z; run_effects; apply Hcont; reflexivity.
      * destruct j; [discriminate H0|]. run_effects. apply Hcont. reflexivity.
    + run_effects. apply Hcont. reflexivity.
    + run_effects. apply Hcont. reflexivity.
    + run_effects. apply Hcont. reflexivity.
Qed.

(** When every remaining attempt fails, in whatever way, the full-scale
    wrapper uses them all and returns [None] without raising. *)
Lemma full_all_failed (server : nat -> Request -> Outcome) (r : Request) (retries : nat) :
  forall remaining attempt w,
    (forall k, k < remaining -> failed (server (calls w + k) r) = true) ->
    exists w', Full.make_request_from server retries r remaining attempt w = Ret VNone w'
               /\ calls w' = calls w + remaining.
Proof.
  induction remaining as [|n IH]; intros attempt w Hf.
  - eexists; split; [reflexivity | cbn; lia].
  - assert (Hcont : forall w1, calls w1 = S (calls w) ->
              exists w', Full.make_request_from server retries r n (S attempt) w1
                         = Ret VNone w' /\ calls w' = calls w + S n).
    { intros w1 Hw1. destruct (IH (S attempt) w1) as [w' [He Hc]].
      - intros k Hk. rewrite Hw1. replace (S (calls w) + k) with (calls w + S k) by lia.
        apply Hf. lia.
      - exists w'. split; [exact He | lia]. }
    pose proof (Hf 0 ltac:(lia)) as H0. rewrite Nat.add_0_r in H0.
    cbn [Full.make_request_from]. unfold bind at 1, requests_get.
    unfold failed, classify in H0.
    destruct (server (calls w) r) as [sc j| | | |]; try discriminate H0.
    + destruct (raise_for_status sc).
      * destruct (sc =? 429)%Z; [|destruct (500 <=? sc)%Z];
          destruct (attempt <? retries); run_effects; apply Hcont; reflexivity.
      * destruct j; [discriminate H0|].
        destruct (attempt <? retries); run_effects; apply Hcont; reflexivity.
    + destruct (attempt <? retries); run_effects; apply Hcont; reflexivity.
    + destruct (attempt <? retries); run_effects; apply Hcont; reflexivity.
    + destruct (attempt <? retries); run_effects; apply Hcont; reflexivity.
Qed.

(** The basic wrapper makes one call whatever happens. *)
Lemma basic_single_call (server : nat -> Request -> Outcome) (r : Request) (w : World) :
  failed (server (calls w) r) = true ->
  surfaces_immediately (Basic.make_request server r) w.
Proof.
  intros H. unfold surfaces_immediately, Basic.make_request.
  unfold bind at 1, requests_get. unfold failed, classify in H.
  destruct (server (calls w) r) as [sc j| | | |]; try discriminate H.
  - destruct (raise_for_status sc).
    + run_effects. eexists; split; reflexivity.
    + destruct j; [discriminate H|]. run_effects. eexists; split; reflexivity.
  - run_effects. eexists; split; reflexivity.
  - run_effects. eexists; split; reflexivity.
  - run_effects. eexists; split; reflexivity.
Qed.




(* ===================================================================== *)
(** ** Sensors without a usable id *)
(* ===================================================================== *)

(** C10: a sensor record whose [sensor_id] is missing or falsy ([None], the
    integer 0, ...) is skipped: the full-scale collector returns the empty
    list and leaves the world as it was (no request is made); the basic
    orchestrator goes straight to the next sensor with its buffer unchanged;
    the Nepal collector returns the empty list having only logged a
    warning. *)
Theorem falsy_sensor_id_is_skipped :
  forall (server : nat -> Request -> Outcome) (isoformat_now : nat -> Value)
         (to_parquet : Filename -> list Value -> WriteResult)
         (fuel : nat) (sensor_info : Dict) (date_from date_to : option Value)
         (rest : list Value) (i : nat) (all_measurements : list Value) (w : World),
    truthy (get sensor_info "sensor_id" VNone) = false ->
    Full.get_sensor_measurements_single server isoformat_now fuel (VDict sensor_info)
                                        date_from date_to w
    = Ret [] w
    /\ Basic.collect_measurements server isoformat_now to_parquet fuel
                                  (VDict sensor_info :: rest) i all_measurements w
       = Basic.collect_measurements server isoformat_now to_parquet fuel
                                    rest (S i) all_measurements w
    /\ Nepal.get_sensor_measurements server isoformat_now fuel (VDict sensor_info)
                                     date_from date_to w
       = Ret [] (record_event (EvLog WARNING SkippingSensorNoId) w).
Proof.
  intros server isoformat_now to_parquet fuel sensor_info date_from date_to
         rest i all_measurements w Hfalsy.
  split; [|split].
  - unfold Full.get_sensor_measurements_single.
    unfold bind at 1, try_pure, py_get, ret, py_not. rewrite Hfalsy. reflexivity.
  - cbn [Basic.collect_measurements].
    unfold bind at 1, try_pure, py_get, ret, py_not. rewrite Hfalsy. reflexivity.
  - unfold Nepal.get_sensor_measurements.
    unfold bind, try_pure, py_get, ret, py_not. rewrite Hfalsy. reflexivity.
Qed.

Lemma falsy_sensor_id_is_skipped_witness :
  let sensor_info := [("sensor_id", VInt 0); ("sensor_name", VStr "pm25")] in
  let server := script [] in
  let now := fun _ : nat => VStr "2025-09-22T00:00:00+00:00" in
  let to_parquet := fun (_ : Filename) (_ : list Value) => Written in
  Full.get_sensor_measurements_single server now 5 (VDict sensor_info) None None world0
  = Ret [] world0
  /\ Basic.collect_measurements server now to_parquet 5 [VDict sensor_info] 1 [] world0
     = Basic.collect_measurements server now to_parquet 5 [] 2 [] world0
  /\ Nepal.get_sensor_measurements server now 5 (VDict sensor_info) None None world0
     = Ret [] (record_event (EvLog WARNING SkippingSensorNoId) world0).
Proof.
  cbv zeta.
  apply (falsy_sensor_id_is_skipped
           (script []) (fun _ : nat => VStr "2025-09-22T00:00:00+00:00")
           (fun (_ : Filename) (_ : list Value) => Written)
           5 [("sensor_id", VInt 0); ("sensor_name", VStr "pm25")]
           None None [] 1 [] world0).
  reflexivity.
Defined.

(* ===================================================================== *)
(** ** Pagination *)
(* ===================================================================== *)

Lemma expected_requests_floor (n L : nat) :
  1 <= L -> expected_requests n L = n / L + 1.
Proof.
  intros HL. unfold expected_requests, ceil_div.
  pose proof (Nat.div_mod_eq n L) as Hn.
  pose proof (Nat.mod_upper_bound n L ltac:(lia)) as Hr.
  destruct (n mod L =? 0) eqn:E.
  - apply Nat.eqb_eq in E.
    replace (n + L - 1) with (L - 1 + (n / L) * L) by nia.
    rewrite Nat.div_add by lia. rewrite Nat.div_small by lia. lia.
  - apply Nat.eqb_neq in E.
    replace (n + L - 1) with ((n mod L - 1) + (n / L + 1) * L) by nia.
    rewrite Nat.div_add by lia. rewrite Nat.div_small by lia. lia.
Qed.

(** A call that succeeds with a parsed body is returned after the
    inter-request delay. *)
Lemma full_make_request_success (server : nat -> Request -> Outcome) (r : Request)
      (retries : nat) (w : World) (status_code : Z) (body : Value) :
  server (calls w) r = Response status_code (Some body) ->
  raise_for_status status_code = false ->
  Full.make_request server r retries w
  = Ret body (record_event EvDelay (record_call r w)).
Proof.
  intros Hs Hok. unfold Full.make_request. cbn [Full.make_request_from].
  unfold bind at 1, requests_get. rewrite Hs, Hok. reflexivity.
Qed.

Lemma basic_make_request_success (server : nat -> Request -> Outcome) (r : Request)
      (w : World) (status_code : Z) (body : Value) :
  server (calls w) r = Response status_code (Some body) ->
  raise_for_status status_code = false ->
  Basic.make_request server r w
  = Ret body (record_event EvDelay (record_call r w)).
Proof.
  intros Hs Hok. unfold Basic.make_request.
  unfold bind at 1, requests_get. rewrite Hs, Hok. reflexivity.
Qed.

Lemma paged_api_locations (stream : list Value) (n : nat) (country_id : Value)
      (limit page : nat) :
  paged_api stream n (mkRequest Locations [("countries_id", country_id);
                                          ("page", VNat page);
                                          ("limit", VNat limit)])
  = Response 200 (Some (VDict [("meta", VDict [("page", VNat page); ("limit", VNat limit)]);
                               ("results", VList (page_of stream limit page))])).
Proof.
  unfold paged_api, nat_param, get. cbn. now rewrite !Nat2Z.id.
Qed.

Lemma firstn_nil_inv {A} (n : nat) (l : list A) : 1 <= n -> firstn n l = [] -> l = [].
Proof. destruct n; [lia|]. now destruct l. Qed.

(** On an API that serves a stream consistently, the location loop started
    at page [page] collects the rest of the stream in
    [length rest / L + 1] requests. *)
Lemma full_locations_loop_paged (stream : list Value) (country_id : Value) (L : nat) :
  1 <= L ->
  forall fuel page locations w,
    1 <= page ->
    List.length (skipn ((page - 1) * L) stream) / L + 1 <= fuel ->
    exists w',
      Full.locations_loop (paged_api stream) fuel country_id L page locations w
      = Ret (locations ++ skipn ((page - 1) * L) stream) w'
      /\ calls w' = calls w + (List.length (skipn ((page - 1) * L) stream) / L + 1).
Proof.
  intros HL. induction fuel as [|fuel IH]; intros page locations w Hp Hfuel; [lia|].
  cbn [Full.locations_loop].
  unfold bind at 1.
  erewrite full_make_request_success; [| apply paged_api_locations | reflexivity].
  cbn [py_not truthy negb].
  unfold bind at 1, try_pure, py_get, get, ret at 1. cbn [lookup String.eqb Ascii.eqb Bool.eqb].
  unfold page_of.
  set (rest := skipn ((page - 1) * L) stream) in *.
  destruct (firstn L rest) as [|x items] eqn:Efirst.
  - apply firstn_nil_inv in Efirst; [|exact HL].
    rewrite Efirst. cbn [py_not truthy negb]. unfold ret.
    eexists; split; [now rewrite app_nil_r |].
    cbn [List.length calls record_event record_call]. rewrite Nat.Div0.div_0_l. lia.
  - cbn [py_not truthy negb]. rewrite <- Efirst.
    unfold bind at 1, try_pure, py_iter, ret at 1.
    unfold bind at 1, try_pure, py_len, ret at 1.
    rewrite length_firstn.
    destruct (Nat.min L (List.length rest) <? L) eqn:Eshort.
    + apply Nat.ltb_lt in Eshort.
      rewrite firstn_all2 by lia. unfold ret.
      eexists; split; [reflexivity|].
      rewrite Nat.div_small by lia. cbn; lia.
    + apply Nat.ltb_ge in Eshort.
      assert (Hlen : L <= List.length rest) by lia.
      assert (Hskip : skipn ((S page - 1) * L) stream = skipn L rest).
      { unfold rest. rewrite skipn_skipn. f_equal. nia. }
      assert (Hdiv : List.length rest / L = List.length (skipn L rest) / L + 1).
      { rewrite length_skipn.
        replace (List.length rest) with ((List.length rest - L) + 1 * L) at 1 by lia.
        now rewrite Nat.div_add by lia. }
      destruct (IH (S page) (locations ++ firstn L rest)
                   (record_event EvDelay
                      (record_call
                         (mkRequest Locations [("countries_id", country_id);
                                               ("page", VNat page);
                                               ("limit", VNat L)]) w)))
        as [w' [He Hc]]; [lia | rewrite Hskip; lia |].
      exists w'. split.
      * rewrite He, Hskip, <- app_assoc, firstn_skipn. reflexivity.
      * rewrite Hc, Hskip. cbn [calls record_event record_call]. lia.
Qed.

Lemma basic_locations_loop_paged (stream : list Value) (country_id : Value) (L : nat) :
  1 <= L ->
  forall fuel page locations w,
    1 <= page ->
    List.length (skipn ((page - 1) * L) stream) / L + 1 <= fuel ->
    exists w',
      Basic.locations_loop (paged_api stream) fuel country_id L page locations w
      = Ret (locations ++ skipn ((page - 1) * L) stream) w'
      /\ calls w' = calls w + (List.length (skipn ((page - 1) * L) stream) / L + 1).
Proof.
  intros HL. induction fuel as [|fuel IH]; intros page locations w Hp Hfuel; [lia|].
  cbn [Basic.locations_loop].
  unfold bind at 1.
  erewrite basic_make_request_success; [| apply paged_api_locations | reflexivity].
  cbn [py_not truthy negb].
  unfold bind at 1, try_pure, py_get, get, ret at 1. cbn [lookup String.eqb Ascii.eqb Bool.eqb].
  unfold page_of.
  set (rest := skipn ((page - 1) * L) stream) in *.
  destruct (firstn L rest) as [|x items] eqn:Efirst.
  - apply firstn_nil_inv in Efirst; [|exact HL].
    rewrite Efirst. cbn [py_not truthy negb]. unfold ret.
    eexists; split; [now rewrite app_nil_r |].
    cbn [List.length calls record_event record_call]. rewrite Nat.Div0.div_0_l. lia.
  - cbn [py_not truthy negb]. rewrite <- Efirst.
    unfold bind at 1, try_pure, py_iter, ret at 1.
    unfold bind at 1, try_pure, ret at 1.
    unfold bind at 1, try_pure, py_len, ret at 1.
    rewrite length_firstn.
    destruct (Nat.min L (List.length rest) <? L) eqn:Eshort.
    + apply Nat.ltb_lt in Eshort.
      rewrite firstn_all2 by lia. unfold ret.
      eexists; split; [reflexivity|].
      rewrite Nat.div_small by lia. cbn; lia.
    + apply Nat.ltb_ge in Eshort.
      assert (Hlen : L <= List.length rest) by lia.
      assert (Hskip : skipn ((S page - 1) * L) stream = skipn L rest).
      { unfold rest. rewrite skipn_skipn. f_equal. nia. }
      assert (Hdiv : List.length rest / L = List.length (skipn L rest) / L + 1).
      { rewrite length_skipn.
        replace (List.length rest) with ((List.length rest - L) + 1 * L) at 1 by lia.
        now rewrite Nat.div_add by lia. }
      destruct (IH (S page) (locations ++ firstn L rest)
                   (record_event EvDelay
                      (record_call
                         (mkRequest Locations [("countries_id", country_id);
                                               ("page", VNat page);
                                               ("limit", VNat L)]) w)))
        as [w' [He Hc]]; [lia | rewrite Hskip; lia |].
      exists w'. split.
      * rewrite He, Hskip, <- app_assoc, firstn_skipn. reflexivity.
      * rewrite Hc, Hskip. cbn [calls record_event record_call]. lia.
Qed.

(** C4: for every page size [L >= 1] and every finite stream of [n] records
    served consistently, the location paginators (run with enough fuel)
    return the whole stream after exactly [ceil(n/L)] requests when the last
    page is short and [ceil(n/L) + 1] requests when [n] is a multiple of [L]
    (the extra request returns the empty page): they terminate in both
    cases.  The same holds of [get_all_locations_for_country] and
    [get_all_locations], whose page size is 1000. *)
Theorem paginator_request_count :
  forall (stream : list Value) (country_id : Value) (L fuel : nat) (w : World),
    1 <= L ->
    expected_requests (List.length stream) L <= fuel ->
    expected_requests (List.length stream) 1000 <= fuel ->
    (exists w', Full.locations_loop (paged_api stream) fuel country_id L 1 [] w
                = Ret stream w'
                /\ calls w' = calls w + expected_requests (List.length stream) L)
    /\ (exists w', Basic.locations_loop (paged_api stream) fuel country_id L 1 [] w
                   = Ret stream w'
                   /\ calls w' = calls w + expected_requests (List.length stream) L)
    /\ (exists w', Full.get_all_locations_for_country (paged_api stream) fuel country_id w
                   = Ret stream w'
                   /\ calls w' = calls w + expected_requests (List.length stream) 1000)
    /\ (exists w', Basic.get_all_locations (paged_api stream) fuel country_id w
                   = Ret stream w'
                   /\ calls w' = calls w + expected_requests (List.length stream) 1000).
Proof.
  intros stream country_id L fuel w HL Hfuel Hfuel'.
  rewrite (expected_requests_floor _ L) in * by lia.
  rewrite (expected_requests_floor _ 1000) in * by lia.
  assert (Hstart : forall K, skipn ((1 - 1) * K) stream = stream) by reflexivity.
  split; [|split; [|split]].
  - destruct (full_locations_loop_paged stream country_id L HL fuel 1 [] w)
      as [w' [He Hc]]; [lia | rewrite Hstart; lia |].
    rewrite Hstart in He, Hc. exists w'. split; [exact He | lia].
  - destruct (basic_locations_loop_paged stream country_id L HL fuel 1 [] w)
      as [w' [He Hc]]; [lia | rewrite Hstart; lia |].
    rewrite Hstart in He, Hc. exists w'. split; [exact He | lia].
  - destruct (full_locations_loop_paged stream country_id 1000 ltac:(lia) fuel 1 [] w)
      as [w' [He Hc]]; [lia | rewrite Hstart; lia |].
    rewrite Hstart in He, Hc. unfold Full.get_all_locations_for_country.
    rewrite (bind_Ret _ _ _ _ _ He). run_effects.
    eexists; split; [reflexivity | cbn [calls set_counter]; lia].
  - destruct (basic_locations_loop_paged stream country_id 1000 ltac:(lia) fuel 1 [] w)
      as [w' [He Hc]]; [lia | rewrite Hstart; lia |].
    rewrite Hstart in He, Hc. exists w'. split; [exact He | lia].
Qed.

Lemma paginator_request_count_witness :
  let stream := [VDict [("id", VInt 1)]; VDict [("id", VInt 2)];
                 VDict [("id", VInt 3)]; VDict [("id", VInt 4)]] in
  (exists w', Full.locations_loop (paged_api stream) 3 (VInt 145) 2 1 [] world0
              = Ret stream w'
              /\ calls w' = calls world0 + expected_requests (List.length stream) 2)
  /\ (exists w', Basic.locations_loop (paged_api stream) 3 (VInt 145) 2 1 [] world0
                 = Ret stream w'
                 /\ calls w' = calls world0 + expected_requests (List.length stream) 2)
  /\ (exists w', Full.get_all_locations_for_country (paged_api stream) 3 (VInt 145) world0
                 = Ret stream w'
                 /\ calls w' = calls world0 + expected_requests (List.length stream) 1000)
  /\ (exists w', Basic.get_all_locations (paged_api stream) 3 (VInt 145) world0
                 = Ret stream w'
                 /\ calls w' = calls world0 + expected_requests (List.length stream) 1000).
Proof.
  cbv zeta.
  apply (paginator_request_count
           [VDict [("id", VInt 1)]; VDict [("id", VInt 2)];
            VDict [("id", VInt 3)]; VDict [("id", VInt 4)]]
           (VInt 145) 2 3 world0).
  - lia.
  - vm_compute. lia.
  - vm_compute. lia.
Defined.

(** The two request counts of C4 on small streams: 5 records in pages of 2
    take 3 requests, 4 records in pages of 2 take 3 requests as well. *)
Example expected_requests_5_2 : expected_requests 5 2 = 3 /\ expected_requests 4 2 = 3.
Proof. split; reflexivity. Qed.

(* ===================================================================== *)
(** ** Terminal fetch failures *)
(* ===================================================================== *)

(** A page whose four attempts all fail ends the full-scale location loop
    with the locations accumulated so far, after a warning. *)
Lemma full_locations_loop_failure (server : nat -> Request -> Outcome)
      (fuel : nat) (country_id : Value) (limit page : nat) (locations : list Value)
      (w : World) :
  (forall k, k < 4 ->
     failed (server (calls w + k)
                    (mkRequest Locations [("countries_id", country_id);
                                          ("page", VNat page);
                                          ("limit", VNat limit)])) = true) ->
  exists w', Full.locations_loop server (S fuel) country_id limit page locations w
             = Ret locations w'
             /\ last (trace w') EvDelay = EvLog WARNING (FailedLocationsPage (Z.of_nat page)).
Proof.
  intros Hf.
  destruct (full_all_failed server _ 3 4 0 w Hf) as [w1 [He _]].
  cbn [Full.locations_loop]. unfold Full.make_request.
  rewrite (bind_Ret _ _ _ _ _ He).
  cbn [py_not truthy negb]. run_effects.
  eexists; split; [reflexivity|].
  cbn [trace record_event]. apply last_last.
Qed.

(** A page whose single attempt fails ends the basic measurement loop with
    the measurements accumulated so far. *)
Lemma basic_measurements_loop_failure (server : nat -> Request -> Outcome)
      (fuel : nat) (sensor_id sensor_info date_from date_to : Value)
      (limit page : nat) (measurements : list Value) (w : World) :
  failed (server (calls w)
                 (mkRequest (SensorMeasurements sensor_id)
                            [("date_from", date_from);
                             ("date_to", date_to);
                             ("page", VNat page);
                             ("limit", VNat limit)])) = true ->
  exists w', Basic.measurements_loop server (S fuel) sensor_id sensor_info date_from date_to
                                     limit page measurements w
             = Ret measurements w'.
Proof.
  intros Hf.
  destruct (basic_single_call server _ w Hf) as [w1 [He _]].
  cbn [Basic.measurements_loop].
  rewrite (bind_Ret _ _ _ _ _ He).
  cbn [py_not truthy negb]. run_effects.
  eexists; reflexivity.
Qed.

(** A country whose first page fails terminally contributes nothing and the
    Phase 1 loop goes on with the remaining countries. *)
Lemma full_run_continues (server : nat -> Request -> Outcome)
      (fuel : nat) (country_name : string) (country_id : Value)
      (rest : list (string * Value)) (r : Full.Run) :
  (forall k, k < 4 ->
     failed (server (calls (Full.world r) + k)
                    (mkRequest Locations [("countries_id", country_id);
                                          ("page", VNat 1);
                                          ("limit", VNat 1000)])) = true) ->
  exists r',
    Full.collect_countries server (S fuel) ((country_name, country_id) :: rest) r
    = Full.collect_countries server (S fuel) rest r'
    /\ Full.all_locations r' = Full.all_locations r
    /\ Full.all_sensors r' = Full.all_sensors r
    /\ Full.measurement_batches r' = Full.measurement_batches r
    /\ Full.current_batch r' = Full.current_batch r.
Proof.
  intros Hf.
  destruct (full_locations_loop_failure server fuel country_id 1000 1 [] _ Hf)
    as [w1 [He _]].
  cbn [Full.collect_countries].
  unfold bind at 1, Full.call, Full.get_all_locations_for_country.
  rewrite (bind_Ret _ _ _ _ _ He). run_effects.
  unfold Full.call, Full.extract_sensors_from_locations. cbn [Full.sensors_of_locations try_pure].
  run_effects. 
  eexists; split; [reflexivity|].
  cbn. rewrite !app_nil_r. repeat split; reflexivity.
Qed.

(** C8: when the fetch of a page fails terminally (every attempt the wrapper
    makes fails), the paginator stops and returns the records accumulated so
    far as an ordinary result, never an exception; and in the orchestrator a
    country whose fetch fails terminally leaves the collected data as it was
    while the run goes on with the remaining countries. *)
Theorem terminal_failure_gives_partial_result :
  forall (server : nat -> Request -> Outcome) (fuel : nat)
         (country_id : Value) (limit page : nat) (locations : list Value)
         (sensor_id sensor_info date_from date_to : Value) (measurements : list Value)
         (country_name : string) (rest : list (string * Value)) (r : Full.Run)
         (w : World),
    (forall k, k < 4 ->
       failed (server (calls w + k)
                      (mkRequest Locations [("countries_id", country_id);
                                            ("page", VNat page);
                                            ("limit", VNat limit)])) = true) ->
    failed (server (calls w)
                   (mkRequest (SensorMeasurements sensor_id)
                              [("date_from", date_from);
                               ("date_to", date_to);
                               ("page", VNat page);
                               ("limit", VNat limit)])) = true ->
    (forall k, k < 4 ->
       failed (server (calls (Full.world r) + k)
                      (mkRequest Locations [("countries_id", country_id);
                                            ("page", VNat 1);
                                            ("limit", VNat 1000)])) = true) ->
    (exists w', Full.locations_loop server (S fuel) country_id limit page locations w
                = Ret locations w'
                /\ last (trace w') EvDelay
                   = EvLog WARNING (FailedLocationsPage (Z.of_nat page)))
    /\ (exists w', Basic.measurements_loop server (S fuel) sensor_id sensor_info
                                           date_from date_to limit page measurements w
                   = Ret measurements w')
    /\ (exists r',
          Full.collect_countries server (S fuel) ((country_name, country_id) :: rest) r
          = Full.collect_countries server (S fuel) rest r'
          /\ Full.all_locations r' = Full.all_locations r
          /\ Full.all_sensors r' = Full.all_sensors r
          /\ Full.measurement_batches r' = Full.measurement_batches r
          /\ Full.current_batch r' = Full.current_batch r).
Proof.
  intros server fuel country_id limit page locations sensor_id sensor_info
         date_from date_to measurements country_name rest r w Hloc Hmeas Hrun.
  split; [|split].
  - apply full_locations_loop_failure; exact Hloc.
  - apply basic_measurements_loop_failure; exact Hmeas.
  - apply full_run_continues; exact Hrun.
Qed.

Lemma terminal_failure_gives_partial_result_witness :
  let server := script [Timeout; Response 503 None; ConnectionError; Response 429 None] in
  let first_page := [VDict [("id", VInt 1)]; VDict [("id", VInt 2)]] in
  (exists w', Full.locations_loop server 1 (VInt 145) 2 2 first_page world0
              = Ret first_page w'
              /\ last (trace w') EvDelay
                 = EvLog WARNING (FailedLocationsPage (Z.of_nat 2)))
  /\ (exists w', Basic.measurements_loop server 1 (VInt 7) (VDict []) (VStr "2015")
                                         (VStr "2025") 2 2 first_page world0
                 = Ret first_page w')
  /\ (exists r',
        Full.collect_countries server 1 [("Nepal", VInt 145); ("India", VInt 9)]
                               (Full.run0 world0)
        = Full.collect_countries server 1 [("India", VInt 9)] r'
        /\ Full.all_locations r' = Full.all_locations (Full.run0 world0)
        /\ Full.all_sensors r' = Full.all_sensors (Full.run0 world0)
        /\ Full.measurement_batches r' = Full.measurement_batches (Full.run0 world0)
        /\ Full.current_batch r' = Full.current_batch (Full.run0 world0)).
Proof.
  cbv zeta.
  apply (terminal_failure_gives_partial_result
           (script [Timeout; Response 503 None; ConnectionError; Response 429 None])
           0 (VInt 145) 2 2 [VDict [("id", VInt 1)]; VDict [("id", VInt 2)]]
           (VInt 7) (VDict []) (VStr "2015") (VStr "2025")
           [VDict [("id", VInt 1)]; VDict [("id", VInt 2)]]
           "Nepal" [("India", VInt 9)] (Full.run0 world0) world0).
  - intros k Hk. destruct k as [|[|[|[|k]]]]; try reflexivity. lia.
  - reflexivity.
  - intros k Hk. destruct k as [|[|[|[|k]]]]; try reflexivity. lia.
Defined.

(* ===================================================================== *)
(** ** Flattening and context injection *)
(* ===================================================================== *)

Lemma lookup_setitem {V} (k k' : string) (v : V) (d : list (string * V)) :
  lookup k (setitem k' v d) = if String.eqb k k' then Some v else lookup k d.
Proof.
  induction d as [|[k0 v0] d IH]; cbn [setitem lookup].
  - reflexivity.
  - destruct (String.eqb k' k0) eqn:E'.
    + apply String.eqb_eq in E'. subst k0. cbn [lookup].
      destruct (String.eqb k k'); reflexivity.
    + cbn [lookup]. destruct (String.eqb k k0) eqn:E0.
      * apply String.eqb_eq in E0. subst k0.
        rewrite String.eqb_sym in E'. now rewrite E'.
      * exact IH.
Qed.

Lemma get_setitem (k k' : string) (v default : Value) (d : Dict) :
  get (setitem k' v d) k default = if String.eqb k k' then v else get d k default.
Proof. unfold get. rewrite lookup_setitem. now destruct (String.eqb k k'). Qed.

Lemma get_mapping (d : Dict) (k : string) :
  mapping_or_absent d k = true -> exists m, get d k (VDict []) = VDict m.
Proof.
  unfold mapping_or_absent, get. destruct (lookup k d) as [[]|]; try discriminate; eauto.
Qed.

Lemma full_context_columns_defined (sensor_id : Value) (ctx : Dict) :
  mapping_or_absent ctx "country" = true ->
  mapping_or_absent ctx "coordinates" = true ->
  mapping_or_absent ctx "provider" = true ->
  exists country coordinates provider,
    get ctx "country" (VDict []) = VDict country
    /\ get ctx "coordinates" (VDict []) = VDict coordinates
    /\ get ctx "provider" (VDict []) = VDict provider
    /\ Full.context_columns sensor_id (VDict ctx)
       = inr [("sensor_id", sensor_id);
              ("sensor_name", get ctx "sensor_name" VNone);
              ("location_id", get ctx "location_id" VNone);
              ("location_name", get ctx "location_name" VNone);
              ("country_name", get country "name" VNone);
              ("country_code", get country "code" VNone);
              ("coordinates_lat", get coordinates "latitude" VNone);
              ("coordinates_lon", get coordinates "longitude" VNone);
              ("timezone", get ctx "timezone" VNone);
              ("provider_name", get provider "name" VNone)].
Proof.
  intros Hc Hx Hp.
  destruct (get_mapping _ _ Hc) as [country Ec].
  destruct (get_mapping _ _ Hx) as [coordinates Ex].
  destruct (get_mapping _ _ Hp) as [provider Ep].
  exists country, coordinates, provider. repeat split; try assumption.
  unfold Full.context_columns. cbn [py_get ebind]. rewrite Ec, Ex, Ep. reflexivity.
Qed.

Lemma full_update_measurement_fields (isoformat_now : nat -> Value)
  (sensor_id : Value) (ctx m : Dict) (w w' : World) (flat : Value) :
  Full.update_measurement isoformat_now sensor_id (VDict ctx) (VDict m) w = Ret flat w' ->
  exists d coordinates,
    flat = VDict d
    /\ get ctx "coordinates" (VDict []) = VDict coordinates
    /\ get d "sensor_id" VNone = sensor_id
    /\ get d "sensor_name" VNone = get ctx "sensor_name" VNone
    /\ get d "location_id" VNone = get ctx "location_id" VNone
    /\ get d "location_name" VNone = get ctx "location_name" VNone
    /\ get d "coordinates_lat" VNone = get coordinates "latitude" VNone
    /\ get d "coordinates_lon" VNone = get coordinates "longitude" VNone.
Proof.
  unfold Full.update_measurement, Full.context_columns.
  cbn [py_get ebind].
  destruct (get ctx "country" (VDict [])) as [| | | | | |country];
    try (cbn; discriminate).
  cbn [py_get ebind].
  destruct (get ctx "coordinates" (VDict [])) as [| | | | | |coordinates];
    try (cbn; discriminate).
  cbn [py_get ebind].
  destruct (get ctx "provider" (VDict [])) as [| | | | | |provider];
    try (cbn; discriminate).
  cbn [py_get ebind try_pure]. unfold bind, ret, utcnow, py_update, try_pure.
  intros H. inversion H; subst; clear H.
  eexists; exists coordinates. split; [reflexivity|]. split; [reflexivity|].
  cbn [update fold_left app fst snd].
  repeat split; rewrite !get_setitem; reflexivity.
Qed.

Lemma basic_update_measurement_fields (sensor_id : Value) (ctx m : Dict) (flat : Value) :
  Basic.update_measurement sensor_id (VDict ctx) (VDict m) = inr flat ->
  exists d,
    flat = VDict d
    /\ get d "sensor_id" VNone = sensor_id
    /\ get d "sensor_name" VNone = get ctx "sensor_name" VNone
    /\ get d "location_id" VNone = get ctx "location_id" VNone
    /\ get d "location_name" VNone = get ctx "location_name" VNone.
Proof.
  unfold Basic.update_measurement, Basic.context_columns.
  cbn [py_get ebind].
  destruct (get ctx "country" (VDict [])) as [| | | | | |country];
    try (cbn; discriminate).
  cbn [py_get ebind py_update].
  intros H. inversion H; subst; clear H.
  eexists. split; [reflexivity|].
  cbn [update fold_left app fst snd].
  repeat split; rewrite !get_setitem; reflexivity.
Qed.

(** C9 (as amended): the sensor record built from a location carries the
    location's id, name and coordinates unchanged ([location_id],
    [location_name], [coordinates]); a measurement flattened by the
    full-scale script carries its sensor's id and name, the location's id
    and name and the latitude and longitude of the sensor's coordinates
    ([coordinates_lat], [coordinates_lon]); a measurement flattened by the
    basic script carries the ids and names only. *)
Theorem injected_context_reads_back :
  forall (isoformat_now : nat -> Value) (location sensor ctx m : Dict)
         (sensor_id flat flat' : Value) (w w' : World),
    Full.update_measurement isoformat_now sensor_id (VDict ctx) (VDict m) w = Ret flat w' ->
    Basic.update_measurement sensor_id (VDict ctx) (VDict m) = inr flat' ->
    (exists info,
        Basic.sensor_info_of (VDict location) (VDict sensor) = inr (VDict info)
        /\ get info "location_id" VNone = get location "id" VNone
        /\ get info "location_name" VNone = get location "name" VNone
        /\ get info "coordinates" (VDict []) = get location "coordinates" (VDict []))
    /\ (exists info,
          Full.sensor_info_of (VDict location) (VDict sensor) = inr (VDict info)
          /\ get info "location_id" VNone = get location "id" VNone
          /\ get info "location_name" VNone = get location "name" VNone
          /\ get info "coordinates" (VDict []) = get location "coordinates" (VDict []))
    /\ (exists d coordinates,
          flat = VDict d
          /\ get ctx "coordinates" (VDict []) = VDict coordinates
          /\ get d "sensor_id" VNone = sensor_id
          /\ get d "sensor_name" VNone = get ctx "sensor_name" VNone
          /\ get d "location_id" VNone = get ctx "location_id" VNone
          /\ get d "location_name" VNone = get ctx "location_name" VNone
          /\ get d "coordinates_lat" VNone = get coordinates "latitude" VNone
          /\ get d "coordinates_lon" VNone = get coordinates "longitude" VNone)
    /\ (exists d,
          flat' = VDict d
          /\ get d "sensor_id" VNone = sensor_id
          /\ get d "sensor_name" VNone = get ctx "sensor_name" VNone
          /\ get d "location_id" VNone = get ctx "location_id" VNone
          /\ get d "location_name" VNone = get ctx "location_name" VNone).
Proof.
  intros isoformat_now location sensor ctx m sensor_id flat flat' w w' Hfull Hbasic.
  split; [|split; [|split]].
  - eexists. split; [reflexivity|]. repeat split; reflexivity.
  - eexists. split; [reflexivity|]. repeat split; reflexivity.
  - eapply full_update_measurement_fields; exact Hfull.
  - eapply basic_update_measurement_fields; exact Hbasic.
Qed.

Lemma injected_context_reads_back_witness :
  (exists info,
      Basic.sensor_info_of (VDict sample_location) (VDict sample_sensor) = inr (VDict info)
      /\ get info "location_id" VNone = get sample_location "id" VNone
      /\ get info "location_name" VNone = get sample_location "name" VNone
      /\ get info "coordinates" (VDict []) = get sample_location "coordinates" (VDict []))
  /\ (exists info,
        Full.sensor_info_of (VDict sample_location) (VDict sample_sensor) = inr (VDict info)
        /\ get info "location_id" VNone = get sample_location "id" VNone
        /\ get info "location_name" VNone = get sample_location "name" VNone
        /\ get info "coordinates" (VDict []) = get sample_location "coordinates" (VDict []))
  /\ (exists d coordinates,
        sample_flat_full = VDict d
        /\ get sample_sensor_info "coordinates" (VDict []) = VDict coordinates
        /\ get d "sensor_id" VNone = VInt 7
        /\ get d "sensor_name" VNone = get sample_sensor_info "sensor_name" VNone
        /\ get d "location_id" VNone = get sample_sensor_info "location_id" VNone
        /\ get d "location_name" VNone = get sample_sensor_info "location_name" VNone
        /\ get d "coordinates_lat" VNone = get coordinates "latitude" VNone
        /\ get d "coordinates_lon" VNone = get coordinates "longitude" VNone)
  /\ (exists d,
        sample_flat_basic = VDict d
        /\ get d "sensor_id" VNone = VInt 7
        /\ get d "sensor_name" VNone = get sample_sensor_info "sensor_name" VNone
        /\ get d "location_id" VNone = get sample_sensor_info "location_id" VNone
        /\ get d "location_name" VNone = get sample_sensor_info "location_name" VNone).
Proof.
  apply (injected_context_reads_back
           sample_now sample_location sample_sensor sample_sensor_info sample_measurement
           (VInt 7) sample_flat_full sample_flat_basic world0 (tick world0)).
  - reflexivity.
  - reflexivity.
Defined.

(** C9 as stated fails on the basic script's measurement flattening: it
    injects no coordinate column, so two sensors that differ in their
    coordinates only give the same flat record, from which the coordinates
    cannot be read back. *)
Lemma basic_measurement_loses_coordinates :
  let elsewhere :=
    setitem "coordinates"
            (VDict [("latitude", VFloat 1 0); ("longitude", VFloat 2 0)])
            sample_sensor_info in
  get elsewhere "coordinates" VNone <> get sample_sensor_info "coordinates" VNone
  /\ Basic.update_measurement (VInt 7) (VDict elsewhere) (VDict sample_measurement)
     = Basic.update_measurement (VInt 7) (VDict sample_sensor_info)
                                (VDict sample_measurement)
  /\ Basic.update_measurement (VInt 7) (VDict sample_sensor_info)
                              (VDict sample_measurement)
     = inr (VDict [("value", VInt 42);
                   ("sensor_id", VInt 7);
                   ("sensor_name", VStr "pm25");
                   ("location_id", VInt 8118);
                   ("location_name", VStr "Kathmandu");
                   ("country_name", VNone);
                   ("country_code", VNone)]).
Proof.
  cbv zeta. split; [|split].
  - cbv. discriminate.
  - reflexivity.
  - reflexivity.
Qed.

(** Sensor flattening is a total pure function on mappings: every missing
    field gets its default. *)
Lemma sensor_info_of_defaults :
  Full.sensor_info_of (VDict []) (VDict [])
  = inr (VDict [("sensor_id", VNone); ("sensor_name", VNone); ("parameter", VDict []);
                ("location_id", VNone); ("location_name", VNone);
                ("location_locality", VNone); ("timezone", VNone);
                ("country", VDict []); ("coordinates", VDict []); ("bounds", VList []);
                ("owner", VDict []); ("provider", VDict []); ("instruments", VList []);
                ("licenses", VList []); ("datetime_first", VNone);
                ("datetime_last", VNone); ("is_mobile", VBool false);
                ("is_monitor", VBool false)]).
Proof. reflexivity. Qed.

Lemma basic_context_columns_defined (sensor_id : Value) (ctx : Dict) :
  mapping_or_absent ctx "country" = true ->
  exists columns, Basic.context_columns sensor_id (VDict ctx) = inr columns.
Proof.
  intros Hc. destruct (get_mapping _ _ Hc) as [country Ec].
  unfold Basic.context_columns. cbn [py_get ebind]. rewrite Ec.
  eexists; reflexivity.
Qed.

(** C6 (as amended): sensor flattening is a pure function that builds a new
    record and returns for every location and sensor that are mappings,
    missing fields taking their defaults.  Measurement flattening returns
    whenever the measurement and its sensor record are mappings whose
    [country], [coordinates] and [provider] entries are absent or mappings;
    it changes nothing in the world but the clock it reads (the basic script
    does not even read the clock), and it updates the raw measurement in
    place: the flat record is the raw record's object, with the context
    columns set. *)
Theorem flattening_defaults_and_updates_in_place :
  forall (isoformat_now : nat -> Value) (location sensor ctx m : Dict)
         (sensor_id : Value) (w : World),
    mapping_or_absent ctx "country" = true ->
    mapping_or_absent ctx "coordinates" = true ->
    mapping_or_absent ctx "provider" = true ->
    (exists info, Full.sensor_info_of (VDict location) (VDict sensor) = inr (VDict info))
    /\ (exists info, Basic.sensor_info_of (VDict location) (VDict sensor) = inr (VDict info))
    /\ (exists columns,
          Full.context_columns sensor_id (VDict ctx) = inr columns
          /\ Full.update_measurement isoformat_now sensor_id (VDict ctx) (VDict m) w
             = Ret (VDict (update m (columns ++
                                     [("ingestion_timestamp", isoformat_now (clock w))])))
                   (tick w))
    /\ (exists columns,
          Basic.context_columns sensor_id (VDict ctx) = inr columns
          /\ Basic.update_measurement sensor_id (VDict ctx) (VDict m)
             = inr (VDict (update m columns))).
Proof.
  intros isoformat_now location sensor ctx m sensor_id w Hc Hx Hp.
  split; [|split; [|split]].
  - eexists; reflexivity.
  - eexists; reflexivity.
  - destruct (full_context_columns_defined sensor_id ctx Hc Hx Hp)
      as [country [coordinates [provider [_ [_ [_ Hcols]]]]]].
    eexists. split; [exact Hcols|].
    unfold Full.update_measurement. rewrite Hcols. reflexivity.
  - destruct (basic_context_columns_defined sensor_id ctx Hc) as [columns Hcols].
    exists columns. split; [exact Hcols|].
    unfold Basic.update_measurement. rewrite Hcols. reflexivity.
Qed.

Lemma flattening_defaults_and_updates_in_place_witness :
  (exists info,
      Full.sensor_info_of (VDict sample_location) (VDict sample_sensor) = inr (VDict info))
  /\ (exists info,
        Basic.sensor_info_of (VDict sample_location) (VDict sample_sensor) = inr (VDict info))
  /\ (exists columns,
        Full.context_columns (VInt 7) (VDict sample_sensor_info) = inr columns
        /\ Full.update_measurement sample_now (VInt 7) (VDict sample_sensor_info)
                                   (VDict sample_measurement) world0
           = Ret (VDict (update sample_measurement
                                (columns ++
                                 [("ingestion_timestamp", sample_now (clock world0))])))
                 (tick world0))
  /\ (exists columns,
        Basic.context_columns (VInt 7) (VDict sample_sensor_info) = inr columns
        /\ Basic.update_measurement (VInt 7) (VDict sample_sensor_info)
                                    (VDict sample_measurement)
           = inr (VDict (update sample_measurement columns))).
Proof.
  apply (flattening_defaults_and_updates_in_place
           sample_now sample_location sample_sensor sample_sensor_info sample_measurement
           (VInt 7) world0); reflexivity.
Defined.

(** C6 as stated fails: flattening a measurement changes the raw record (its
    contents after the call differ from those before: [sensor_id] is
    overwritten, columns are added), and it raises when a nested field of
    the context is present but null.  Sensor extraction raises when a
    location's [sensors] entry is null. *)
Lemma measurement_flattening_mutates_and_may_raise :
  (exists after w,
      Full.update_measurement sample_now (VInt 7) (VDict sample_sensor_info)
                              (VDict sample_measurement) world0
      = Ret after w
      /\ after <> VDict sample_measurement
      /\ get sample_measurement "sensor_id" VNone = VInt 0
      /\ py_get after "sensor_id" VNone = inr (VInt 7))
  /\ Full.update_measurement sample_now (VInt 7)
                             (VDict (setitem "country" VNone sample_sensor_info))
                             (VDict sample_measurement) world0
     = Raise AttributeError world0
  /\ Full.sensors_of_locations [VDict [("id", VInt 8118); ("sensors", VNone)]]
     = inl TypeError.
Proof.
  split; [|split].
  - eexists; eexists. split; [reflexivity|].
    split; [discriminate | split; reflexivity].
  - reflexivity.
  - reflexivity.
Qed.

(* ===================================================================== *)
(** ** Batch buffer and flushing *)
(* ===================================================================== *)

Lemma save_batch_nonempty (to_parquet : Filename -> list Value -> WriteResult)
      (data : list Value) (filename : Filename) (description : string) (w : World) :
  data <> [] ->
  Full.save_batch_to_parquet to_parquet data filename description w
  = Ret tt (after_save to_parquet data filename description w).
Proof.
  intros Hne. unfold Full.save_batch_to_parquet, after_save.
  destruct data as [|x data]; [contradiction|].
  destruct (to_parquet filename (x :: data)); reflexivity.
Qed.

Lemma counter_after_save (to_parquet : Filename -> list Value -> WriteResult)
      (data : list Value) (filename : Filename) (description : string) (w : World)
      (k : string) :
  counter k (after_save to_parquet data filename description w) = counter k w.
Proof.
  unfold after_save. destruct (to_parquet filename data) as [|[c|]]; reflexivity.
Qed.

Lemma buffer_below_threshold (to_parquet : Filename -> list Value -> WriteResult)
      (batch_size : Z) (batch_measurements : list Value) (r : Full.Run) :
  (Z.of_nat (List.length (Full.current_batch r ++ batch_measurements)) < batch_size)%Z ->
  Full.buffer_and_maybe_save to_parquet batch_size batch_measurements r
  = Ret tt (Full.set_current_batch (Full.current_batch r ++ batch_measurements) r).
Proof.
  intros Hlt. unfold Full.buffer_and_maybe_save.
  unfold bind at 1, modify. unfold bind at 1, gets.
  cbn [Full.current_batch Full.set_current_batch].
  destruct (Z.leb_spec batch_size
              (Z.of_nat (List.length (Full.current_batch r ++ batch_measurements))));
    [lia | reflexivity].
Qed.

Lemma buffer_at_threshold (to_parquet : Filename -> list Value -> WriteResult)
      (batch_size : Z) (batch_measurements : list Value) (r : Full.Run) :
  let buffered := Full.current_batch r ++ batch_measurements in
  let index := counter "batch_count" (Full.world r) in
  (batch_size <= Z.of_nat (List.length buffered))%Z ->
  buffered <> [] ->
  Full.buffer_and_maybe_save to_parquet batch_size batch_measurements r
  = Ret tt (Full.mkRun
              (set_counter "batch_count" (index + 1)
                 (after_save to_parquet buffered (MeasurementsBatch index)
                             "measurements (batch)" (Full.world r)))
              (Full.all_locations r) (Full.all_sensors r)
              (Full.measurement_batches r ++ [MeasurementsBatch index])
              []).
Proof.
  intros buffered index Hge Hne. unfold Full.buffer_and_maybe_save.
  unfold bind at 1, modify. unfold bind at 1, gets.
  cbn [Full.current_batch Full.set_current_batch].
  fold buffered.
  destruct (Z.leb_spec batch_size (Z.of_nat (List.length buffered))); [|lia].
  unfold bind at 1, gets. cbn [Full.world].
  unfold bind at 1, Full.call. cbn [Full.world].
  rewrite (save_batch_nonempty to_parquet buffered _ _ _ Hne).
  unfold bind, modify, Full.call, incr, modify.
  cbn [Full.world Full.set_world Full.set_current_batch Full.set_measurement_batches
       Full.all_locations Full.all_sensors Full.measurement_batches Full.current_batch].
  rewrite counter_after_save. reflexivity.
Qed.

Lemma counter_set_counter (k : string) (z : Z) (w : World) :
  counter k (set_counter k z w) = z.
Proof.
  unfold counter, set_counter. cbn [counters].
  rewrite lookup_setitem, String.eqb_refl. reflexivity.
Qed.

(** C1 (as amended): when the buffer, once a sensor batch's measurements
    have been appended, holds at least [batch_size] records, one file is
    written that holds the whole buffer (all of its records, not just
    [batch_size] of them), the buffer is left empty and the batch counter
    advances; below the threshold nothing is written and the records stay
    buffered. *)
Theorem flush_writes_the_whole_buffer :
  forall (to_parquet : Filename -> list Value -> WriteResult) (batch_size : Z)
         (batch_measurements : list Value) (r : Full.Run),
    let buffered := Full.current_batch r ++ batch_measurements in
    let index := counter "batch_count" (Full.world r) in
    (0 < batch_size)%Z ->
    to_parquet (MeasurementsBatch index) buffered = Written ->
    exists r',
      Full.buffer_and_maybe_save to_parquet batch_size batch_measurements r = Ret tt r'
      /\ if (batch_size <=? Z.of_nat (List.length buffered))%Z
         then disk (Full.world r')
              = disk (Full.world r) ++ [(MeasurementsBatch index, Parquet buffered)]
              /\ Full.current_batch r' = []
              /\ Full.measurement_batches r'
                 = Full.measurement_batches r ++ [MeasurementsBatch index]
              /\ counter "batch_count" (Full.world r') = (index + 1)%Z
         else disk (Full.world r') = disk (Full.world r)
              /\ Full.current_batch r' = buffered
              /\ Full.measurement_batches r' = Full.measurement_batches r.
Proof.
  intros to_parquet batch_size batch_measurements r buffered index Hpos Hok.
  destruct (Z.leb_spec batch_size (Z.of_nat (List.length buffered))) as [Hge | Hlt].
  - assert (Hne : buffered <> []).
    { intros E. rewrite E in Hge. cbn in Hge. lia. }
    eexists. split; [apply buffer_at_threshold; assumption|].
    cbn [Full.world Full.current_batch Full.measurement_batches].
    fold buffered index. unfold after_save. rewrite Hok.
    rewrite counter_set_counter. repeat split; reflexivity.
  - eexists. split; [apply buffer_below_threshold; exact Hlt|].
    repeat split; reflexivity.
Qed.

Lemma flush_writes_the_whole_buffer_witness :
  let to_parquet := fun (_ : Filename) (_ : list Value) => Written in
  let r := Full.set_current_batch [VDict sample_measurement] (Full.run0 world0) in
  let batch_measurements := [VDict sample_measurement; VDict sample_measurement] in
  let buffered := Full.current_batch r ++ batch_measurements in
  let index := counter "batch_count" (Full.world r) in
  exists r',
    Full.buffer_and_maybe_save to_parquet 2 batch_measurements r = Ret tt r'
    /\ if (2 <=? Z.of_nat (List.length buffered))%Z
       then disk (Full.world r')
            = disk (Full.world r) ++ [(MeasurementsBatch index, Parquet buffered)]
            /\ Full.current_batch r' = []
            /\ Full.measurement_batches r'
               = Full.measurement_batches r ++ [MeasurementsBatch index]
            /\ counter "batch_count" (Full.world r') = (index + 1)%Z
       else disk (Full.world r') = disk (Full.world r)
            /\ Full.current_batch r' = buffered
            /\ Full.measurement_batches r' = Full.measurement_batches r.
Proof.
  cbv zeta.
  apply (flush_writes_the_whole_buffer
           (fun (_ : Filename) (_ : list Value) => Written) 2
           [VDict sample_measurement; VDict sample_measurement]
           (Full.set_current_batch [VDict sample_measurement] (Full.run0 world0))).
  - lia.
  - reflexivity.
Defined.

(** C1 as stated fails: when 75,001 records have been added with threshold
    75,000, here by one sensor batch, the one flush that occurs writes all
    75,001 records and no record remains buffered. *)
Lemma one_flush_of_75001_leaves_nothing :
  let to_parquet := fun (_ : Filename) (_ : list Value) => Written in
  let batch_measurements := repeat (VDict sample_measurement) (Z.to_nat 75001) in
  Z.of_nat (List.length batch_measurements) = 75001%Z
  /\ Full.BATCH_SIZE = 75000%Z
  /\ exists r',
       Full.buffer_and_maybe_save to_parquet Full.BATCH_SIZE batch_measurements
                                  (Full.run0 world0) = Ret tt r'
       /\ disk (Full.world r') = [(MeasurementsBatch 0, Parquet batch_measurements)]
       /\ Full.current_batch r' = [].
Proof.
  intros to_parquet batch_measurements.
  assert (Hlen : Z.of_nat (List.length batch_measurements) = 75001%Z).
  { unfold batch_measurements. rewrite repeat_length. lia. }
  split; [exact Hlen | split; [reflexivity|]].
  eexists. split.
  - apply buffer_at_threshold.
    + cbn [Full.current_batch Full.run0 app]. rewrite Hlen. unfold Full.BATCH_SIZE. lia.
    + cbn [Full.current_batch Full.run0 app]. intros E. rewrite E in Hlen. discriminate Hlen.
  - split; reflexivity.
Qed.

(** When the 75,001 records arrive as 75,000 and then 1, the flush holds
    75,000 records and 1 record stays buffered. *)
Example flush_of_75000_then_1 :
  let to_parquet := fun (_ : Filename) (_ : list Value) => Written in
  let first := repeat (VDict sample_measurement) (Z.to_nat 75000) in
  exists r1 r2,
    Full.buffer_and_maybe_save to_parquet Full.BATCH_SIZE first (Full.run0 world0)
    = Ret tt r1
    /\ Full.buffer_and_maybe_save to_parquet Full.BATCH_SIZE [VDict sample_measurement] r1
       = Ret tt r2
    /\ disk (Full.world r2) = [(MeasurementsBatch 0, Parquet first)]
    /\ Z.of_nat (List.length first) = 75000%Z
    /\ Full.current_batch r2 = [VDict sample_measurement].
Proof.
  intros to_parquet first.
  assert (Hlen : Z.of_nat (List.length first) = 75000%Z).
  { unfold first. rewrite repeat_length. lia. }
  eexists. eexists. split; [|split].
  - apply buffer_at_threshold.
    + cbn [Full.current_batch Full.run0 app]. rewrite Hlen. unfold Full.BATCH_SIZE. lia.
    + cbn [Full.current_batch Full.run0 app]. intros E. rewrite E in Hlen. discriminate Hlen.
  - apply buffer_below_threshold. cbn. unfold Full.BATCH_SIZE. lia.
  - split; [reflexivity | split; [exact Hlen | reflexivity]].
Qed.

(** In the Nepal script a save that fails at the threshold is followed by
    the next sensor with an empty buffer. *)
Lemma nepal_failed_save_step (server : nat -> Request -> Outcome)
      (isoformat_now : nat -> Value) (to_parquet : Filename -> list Value -> WriteResult)
      (batch_size : Z) (fuel : nat) (sensor_info : Value) (rest : list Value)
      (all_measurements measurements : list Value) (batch_count : Z) (w w1 : World)
      (left_behind : option Content) :
  (0 < batch_size)%Z ->
  Nepal.get_sensor_measurements server isoformat_now fuel sensor_info None None w
  = Ret measurements w1 ->
  (batch_size <= Z.of_nat (List.length (all_measurements ++ measurements)))%Z ->
  to_parquet (NepalPartition "measurements" (Some (batch_count + 1)%Z))
             (all_measurements ++ measurements) = Failed left_behind ->
  Nepal.collect_measurements server isoformat_now to_parquet batch_size fuel
                             (sensor_info :: rest) all_measurements batch_count w
  = Nepal.collect_measurements server isoformat_now to_parquet batch_size fuel
                               rest [] (batch_count + 1)
                               (record_event
                                  (EvLog ERROR (FailedToSave "measurements"))
                                  (leave_file
                                     (NepalPartition "measurements"
                                                     (Some (batch_count + 1)%Z))
                                     left_behind w1)).
Proof.
  intros Hpos Hget Hge Hfail.
  cbn [Nepal.collect_measurements].
  rewrite (bind_Ret _ _ _ _ _ Hget).
  destruct (Z.leb_spec batch_size
              (Z.of_nat (List.length (all_measurements ++ measurements)))); [|lia].
  unfold bind at 1, Nepal.save_to_parquet_partitioned.
  destruct (all_measurements ++ measurements) as [|x l] eqn:E.
  - cbn in Hge. lia.
  - rewrite Hfail. reflexivity.
Qed.

(** C2 (as amended): a write that fails inside the save method is logged as
    an error and swallowed: the method returns normally, writes nothing
    more and removes nothing, so that what the failed write has left at the
    path, if anything, stays there.  The orchestrators do not look at the
    outcome: at the threshold they reset the buffer whether or not the write
    succeeded (the full-scale script also records the file name and advances
    its batch counter), so the records of a batch whose write failed are not
    retained for a later flush. *)
Theorem failed_flush_is_logged_and_buffer_cleared :
  forall (server : nat -> Request -> Outcome) (isoformat_now : nat -> Value)
         (to_parquet : Filename -> list Value -> WriteResult) (batch_size : Z)
         (data : list Value) (filename : Filename) (description : string)
         (batch_measurements : list Value) (r : Full.Run)
         (fuel : nat) (sensor_info : Value) (rest all_measurements measurements : list Value)
         (batch_count : Z) (w w1 : World)
         (left_behind left_full left_nepal : option Content),
    let buffered := Full.current_batch r ++ batch_measurements in
    let index := counter "batch_count" (Full.world r) in
    (0 < batch_size)%Z ->
    data <> [] ->
    to_parquet filename data = Failed left_behind ->
    (batch_size <= Z.of_nat (List.length buffered))%Z ->
    to_parquet (MeasurementsBatch index) buffered = Failed left_full ->
    Nepal.get_sensor_measurements server isoformat_now fuel sensor_info None None w
    = Ret measurements w1 ->
    (batch_size <= Z.of_nat (List.length (all_measurements ++ measurements)))%Z ->
    to_parquet (NepalPartition "measurements" (Some (batch_count + 1)%Z))
               (all_measurements ++ measurements) = Failed left_nepal ->
    Full.save_batch_to_parquet to_parquet data filename description w
    = Ret tt (record_event (EvLog ERROR (FailedToSave description))
                           (leave_file filename left_behind w))
    /\ (exists r',
          Full.buffer_and_maybe_save to_parquet batch_size batch_measurements r = Ret tt r'
          /\ Full.current_batch r' = []
          /\ disk (Full.world r')
             = disk (leave_file (MeasurementsBatch index) left_full (Full.world r))
          /\ trace (Full.world r')
             = trace (Full.world r) ++ [EvLog ERROR (FailedToSave "measurements (batch)")]
          /\ Full.measurement_batches r'
             = Full.measurement_batches r ++ [MeasurementsBatch index]
          /\ counter "batch_count" (Full.world r') = (index + 1)%Z)
    /\ Nepal.collect_measurements server isoformat_now to_parquet batch_size fuel
                                  (sensor_info :: rest) all_measurements batch_count w
       = Nepal.collect_measurements server isoformat_now to_parquet batch_size fuel
                                    rest [] (batch_count + 1)
                                    (record_event
                                       (EvLog ERROR (FailedToSave "measurements"))
                                       (leave_file
                                          (NepalPartition "measurements"
                                                          (Some (batch_count + 1)%Z))
                                          left_nepal w1)).
Proof.
  intros server isoformat_now to_parquet batch_size data filename description
         batch_measurements r fuel sensor_info rest all_measurements measurements
         batch_count w w1 left_behind left_full left_nepal buffered index
         Hpos Hne Hfail Hge Hfail' Hget Hge' Hfail''.
  split; [|split].
  - rewrite save_batch_nonempty by exact Hne. unfold after_save. now rewrite Hfail.
  - assert (Hne' : buffered <> []).
    { intros E. rewrite E in Hge. cbn in Hge. lia. }
    eexists. split; [apply buffer_at_threshold; assumption|].
    cbn [Full.world Full.current_batch Full.measurement_batches].
    fold buffered index. unfold after_save. rewrite Hfail'.
    rewrite counter_set_counter.
    split; [reflexivity|]. split; [reflexivity|]. split; [|split; reflexivity].
    destruct left_full; reflexivity.
  - eapply nepal_failed_save_step; eassumption.
Qed.

Lemma failed_flush_is_logged_and_buffer_cleared_witness :
  let server := script [] in
  let to_parquet := fun (_ : Filename) (_ : list Value) => Failed (Some Unreadable) in
  let data := [VDict sample_measurement; VDict sample_measurement] in
  let r := Full.run0 world0 in
  Full.save_batch_to_parquet to_parquet data MeasurementsFinal "measurements (final batch)"
                             world0
  = Ret tt (record_event (EvLog ERROR (FailedToSave "measurements (final batch)"))
                         (leave_file MeasurementsFinal (Some Unreadable) world0))
  /\ (exists r',
        Full.buffer_and_maybe_save to_parquet 2 data r = Ret tt r'
        /\ Full.current_batch r' = []
        /\ disk (Full.world r')
           = disk (leave_file (MeasurementsBatch (counter "batch_count" (Full.world r)))
                              (Some Unreadable) (Full.world r))
        /\ trace (Full.world r')
           = trace (Full.world r) ++ [EvLog ERROR (FailedToSave "measurements (batch)")]
        /\ Full.measurement_batches r'
           = Full.measurement_batches r
             ++ [MeasurementsBatch (counter "batch_count" (Full.world r))]
        /\ counter "batch_count" (Full.world r')
           = (counter "batch_count" (Full.world r) + 1)%Z)
  /\ Nepal.collect_measurements server sample_now to_parquet 2 1
                                [VDict [("sensor_id", VNone)]] data 0 world0
     = Nepal.collect_measurements server sample_now to_parquet 2 1 [] [] (0 + 1)
                                  (record_event
                                     (EvLog ERROR (FailedToSave "measurements"))
                                     (leave_file
                                        (NepalPartition "measurements" (Some (0 + 1)%Z))
                                        (Some Unreadable)
                                        (record_event (EvLog WARNING SkippingSensorNoId)
                                                      world0))).
Proof.
  cbv zeta.
  apply (failed_flush_is_logged_and_buffer_cleared
           (script []) sample_now
           (fun (_ : Filename) (_ : list Value) => Failed (Some Unreadable)) 2
           [VDict sample_measurement; VDict sample_measurement]
           MeasurementsFinal "measurements (final batch)"
           [VDict sample_measurement; VDict sample_measurement] (Full.run0 world0)
           1 (VDict [("sensor_id", VNone)]) []
           [VDict sample_measurement; VDict sample_measurement] [] 0 world0
           (record_event (EvLog WARNING SkippingSensorNoId) world0)
           (Some Unreadable) (Some Unreadable) (Some Unreadable)).
  - lia.
  - discriminate.
  - reflexivity.
  - cbn. lia.
  - reflexivity.
  - reflexivity.
  - cbn. lia.
  - reflexivity.
Defined.

(** C2 as stated fails: after a flush whose write fails, the buffer is empty
    and its two records are in no file, whether the failed write left
    nothing or an unusable file behind; the error record and, in the second
    case, that file are all that remains. *)
Lemma failed_flush_discards_the_buffer :
  let failing := fun (left_behind : option Content) (_ : Filename) (_ : list Value) =>
                   Failed left_behind in
  let data := [VDict sample_measurement; VDict sample_measurement] in
  (exists r',
      Full.buffer_and_maybe_save (failing None) 2 data (Full.run0 world0) = Ret tt r'
      /\ Full.current_batch r' = []
      /\ disk (Full.world r') = []
      /\ trace (Full.world r') = [EvLog ERROR (FailedToSave "measurements (batch)")])
  /\ (exists r',
        Full.buffer_and_maybe_save (failing (Some Unreadable)) 2 data (Full.run0 world0)
        = Ret tt r'
        /\ Full.current_batch r' = []
        /\ disk (Full.world r') = [(MeasurementsBatch 0, Unreadable)]
        /\ measurement_records (disk (Full.world r')) = []
        /\ trace (Full.world r') = [EvLog ERROR (FailedToSave "measurements (batch)")]).
Proof.
  cbv zeta. split;
    (eexists; split; [cbv; reflexivity|]; repeat split; reflexivity).
Qed.

(* ===================================================================== *)
(** ** Interruption *)
(* ===================================================================== *)




(* ===================================================================== *)
(** ** Further facts about the wrappers and the basic orchestrator *)
(* ===================================================================== *)

(** In the full-scale wrapper an HTTP 404 is logged as an error and the loop
    goes on to the next attempt, without waiting: four calls are made with
    [retries = 3]. *)
Example full_wrapper_on_404 :
  exists w,
    Full.make_request
      (script [Response 404 None; Response 404 None; Response 404 None; Response 404 None])
      a_request 3 world0 = Ret VNone w
    /\ calls w = 4
    /\ trace w = [EvGet a_request; EvLog ERROR (HTTPErrorFor 404);
                  EvGet a_request; EvLog ERROR (HTTPErrorFor 404);
                  EvGet a_request; EvLog ERROR (HTTPErrorFor 404);
                  EvGet a_request; EvLog ERROR (HTTPErrorFor 404)].
Proof. eexists. split; [cbv; reflexivity | split; reflexivity]. Qed.

(** The basic orchestrator saves its whole buffer once it holds 100,000
    records and goes on with an empty buffer, whatever the save did. *)
Lemma basic_flush_step (server : nat -> Request -> Outcome)
      (isoformat_now : nat -> Value) (to_parquet : Filename -> list Value -> WriteResult)
      (fuel : nat) (sensor_info : Dict) (rest : list Value) (i : nat)
      (all_measurements measurements : list Value) (w w1 : World) :
  truthy (get sensor_info "sensor_id" VNone) = true ->
  Basic.get_sensor_measurements server isoformat_now fuel
                                (get sensor_info "sensor_id" VNone) (VDict sensor_info)
                                None None w
  = Ret measurements w1 ->
  (100000 <= Z.of_nat (List.length (all_measurements ++ measurements)))%Z ->
  Basic.collect_measurements server isoformat_now to_parquet fuel
                             (VDict sensor_info :: rest) i all_measurements w
  = (Basic.save_to_parquet to_parquet (all_measurements ++ measurements)
                           (MeasurementsBatch (Z.of_nat i)) "measurements (batch)" ;;
     Basic.collect_measurements server isoformat_now to_parquet fuel rest (S i) []) w1.
Proof.
  intros Hid Hget Hge.
  cbn [Basic.collect_measurements].
  unfold bind at 1, try_pure, py_get, ret, py_not. rewrite Hid. cbn [negb].
  rewrite (bind_Ret _ _ _ _ _ Hget).
  destruct (Z.leb_spec 100000 (Z.of_nat (List.length (all_measurements ++ measurements))));
    [reflexivity | lia].
Qed.

(* ===================================================================== *)
(** ** Call budgets of the wrappers *)
(* ===================================================================== *)

(** Whatever the server does, the retry loop of the full-scale wrapper ends
    with a value or with the interrupt, within its remaining attempts. *)
Lemma full_make_request_from_bounded (server : nat -> Request -> Outcome) (r : Request)
      (retries : nat) :
  forall remaining attempt w,
    match Full.make_request_from server retries r remaining attempt w with
    | Ret _ w' | Raise KeyboardInterrupt w' =>
        only_calls remaining w w'
        /\ (0 < remaining -> calls w < calls w')
        /\ counters w' = counters w
    | _ => False
    end.
Proof.
  induction remaining as [|n IH]; intros attempt w.
  - cbn. unfold only_calls. repeat split; lia.
  - assert (Hcont : forall w1,
              calls w1 = S (calls w) -> disk w1 = disk w -> clock w1 = clock w ->
              counters w1 = counters w ->
              match Full.make_request_from server retries r n (S attempt) w1 with
              | Ret _ w' | Raise KeyboardInterrupt w' =>
                  only_calls (S n) w w'
                  /\ (0 < S n -> calls w < calls w')
                  /\ counters w' = counters w
              | _ => False
              end).
    { intros w1 Hc Hd Hk Hn. specialize (IH (S attempt) w1).
      destruct (Full.make_request_from server retries r n (S attempt) w1)
        as [v w'|e w'|]; [|destruct e|]; try exact IH;
        unfold only_calls in *; repeat split; try lia; intuition congruence. }
    assert (Hstop : forall w1,
              calls w1 = S (calls w) -> disk w1 = disk w -> clock w1 = clock w ->
              counters w1 = counters w ->
              only_calls (S n) w w1 /\ (0 < S n -> calls w < calls w1)
              /\ counters w1 = counters w).
    { intros w1 Hc Hd Hk Hn. unfold only_calls. repeat split; try lia; assumption. }
    cbn [Full.make_request_from]. unfold bind at 1, requests_get.
    destruct (server (calls w) r) as [sc j| | | |].
    + destruct (raise_for_status sc).
      * destruct (sc =? 429)%Z; [|destruct (500 <=? sc)%Z];
          destruct (attempt <? retries); run_effects; apply Hcont; reflexivity.
      * destruct j; [run_effects; apply Hstop; reflexivity|].
        destruct (attempt <? retries); run_effects; apply Hcont; reflexivity.
    + destruct (attempt <? retries); run_effects; apply Hcont; reflexivity.
    + destruct (attempt <? retries); run_effects; apply Hcont; reflexivity.
    + destruct (attempt <? retries); run_effects; apply Hcont; reflexivity.
    + apply Hstop; reflexivity.
Qed.

(** [make_request] ends after at most [retries + 1] calls. *)
Lemma full_make_request_ends :
  forall (server : nat -> Request -> Outcome) (r : Request) (retries : nat) (w : World),
    match Full.make_request server r retries w with
    | Ret _ w' | Raise KeyboardInterrupt w' =>
        calls w < calls w' <= calls w + retries + 1
        /\ disk w' = disk w /\ clock w' = clock w /\ counters w' = counters w
    | _ => False
    end.
Proof.
  intros server r retries w. unfold Full.make_request.
  pose proof (full_make_request_from_bounded server r retries (S retries) 0 w) as H.
  destruct (Full.make_request_from server retries r (S retries) 0 w)
    as [v w'|e w'|]; [|destruct e|]; try exact H;
    destruct H as [[Hb [Hd Hk]] [Hlt Hn]];
    assert (Hlt' : calls w < calls w') by (apply Hlt; lia);
    repeat split; try lia; assumption.
Qed.

(** X1: whatever the API answers, [make_request] of the full-scale script
    ends, with a value or with the KeyboardInterrupt delivered to it; it
    makes at least one and at most [retries + 1] calls and touches neither
    the disk, the clock nor the counters. *)
Theorem full_make_request_call_budget :
  forall (server : nat -> Request -> Outcome) (r : Request) (retries : nat) (w : World),
    match Full.make_request server r retries w with
    | Ret _ w' | Raise KeyboardInterrupt w' =>
        calls w < calls w' <= calls w + retries + 1
        /\ disk w' = disk w /\ clock w' = clock w /\ counters w' = counters w
    | _ => False
    end.
Proof. exact full_make_request_ends. Qed.

Lemma nepal_make_request_from_bounded (server : nat -> Request -> Outcome) (r : Request)
      (retries : nat) :
  forall remaining attempt w,
    match Nepal.make_request_from server retries r remaining attempt w with
    | Ret _ w' | Raise KeyboardInterrupt w' =>
        only_calls remaining w w' /\ (0 < remaining -> calls w < calls w')
    | _ => False
    end.
Proof.
  induction remaining as [|n IH]; intros attempt w.
  - cbn [Nepal.make_request_from]. run_effects.
    unfold only_calls. cbn [calls disk clock record_event]. repeat split; lia.
  - assert (Hshift : forall w1,
              calls w1 = S (calls w) -> disk w1 = disk w -> clock w1 = clock w ->
              match Nepal.make_request_from server retries r n (S attempt) w1 with
              | Ret _ w' | Raise KeyboardInterrupt w' =>
                  only_calls (S n) w w' /\ (0 < S n -> calls w < calls w')
              | _ => False
              end).
    { intros w1 Hc Hd Hk. specialize (IH (S attempt) w1).
      destruct (Nepal.make_request_from server retries r n (S attempt) w1)
        as [v w'|e w'|]; [|destruct e|]; try exact IH;
        unfold only_calls in *; repeat split; try lia; intuition congruence. }
    assert (Hcont : forall w1,
              calls w1 = S (calls w) -> disk w1 = disk w -> clock w1 = clock w ->
              match ((if attempt <? retries - 1
                      then sleep ((Z.of_nat attempt + 1) * 2)
                      else ret tt) ;;
                     Nepal.make_request_from server retries r n (S attempt)) w1 with
              | Ret _ w' | Raise KeyboardInterrupt w' =>
                  only_calls (S n) w w' /\ (0 < S n -> calls w < calls w')
              | _ => False
              end).
    { intros w1 Hc Hd Hk.
      destruct (attempt <? retries - 1); run_effects; apply Hshift; assumption. }
    assert (Hstop : forall w1,
              calls w1 = S (calls w) -> disk w1 = disk w -> clock w1 = clock w ->
              only_calls (S n) w w1 /\ (0 < S n -> calls w < calls w1)).
    { intros w1 Hc Hd Hk. unfold only_calls. repeat split; try lia; assumption. }
    cbn [Nepal.make_request_from]. unfold bind at 1, requests_get.
    destruct (server (calls w) r) as [sc j| | | |].
    + destruct (raise_for_status sc).
      * destruct (sc =? 429)%Z; run_effects; apply Hcont; reflexivity.
      * destruct j; run_effects; [apply Hstop | apply Hcont]; reflexivity.
    + run_effects. apply Hcont; reflexivity.
    + run_effects. apply Hcont; reflexivity.
    + run_effects. apply Hcont; reflexivity.
    + apply Hstop; reflexivity.
Qed.

(** [make_request_with_retry] ends after at most [max_retries] calls. *)
Lemma nepal_make_request_ends :
  forall (server : nat -> Request -> Outcome) (r : Request) (w : World),
    match Nepal.make_request_with_retry server r w with
    | Ret _ w' | Raise KeyboardInterrupt w' =>
        calls w < calls w' <= calls w + Nepal.max_retries
        /\ disk w' = disk w /\ clock w' = clock w
    | _ => False
    end.
Proof.
  intros server r w. unfold Nepal.make_request_with_retry.
  pose proof (nepal_make_request_from_bounded server r Nepal.max_retries
                                              Nepal.max_retries 0 w) as H.
  destruct (Nepal.make_request_from server Nepal.max_retries r Nepal.max_retries 0 w)
    as [v w'|e w'|]; [|destruct e|]; try exact H;
    destruct H as [[Hb [Hd Hk]] Hlt]; unfold Nepal.max_retries in *;
    assert (Hlt' : calls w < calls w') by (apply Hlt; lia);
    repeat split; try lia; assumption.
Qed.

(** X2: whatever the API answers, [make_request_with_retry] of the Nepal
    script ends, with a value or with the KeyboardInterrupt delivered to it;
    it makes at least one and at most [max_retries] calls and touches
    neither the disk nor the clock. *)
Theorem nepal_make_request_call_budget :
  forall (server : nat -> Request -> Outcome) (r : Request) (w : World),
    match Nepal.make_request_with_retry server r w with
    | Ret _ w' | Raise KeyboardInterrupt w' =>
        calls w < calls w' <= calls w + Nepal.max_retries
        /\ disk w' = disk w /\ clock w' = clock w
    | _ => False
    end.
Proof. exact nepal_make_request_ends. Qed.

(** X3: [make_request] of the basic script makes exactly one call whatever
    the API answers, never waits besides the inter-request delay, and
    touches neither the disk, the clock nor the counters. *)
Theorem basic_make_request_single_call :
  forall (server : nat -> Request -> Outcome) (r : Request) (w : World),
    match Basic.make_request server r w with
    | Ret _ w' | Raise KeyboardInterrupt w' =>
        calls w' = S (calls w)
        /\ slept (trace w') = slept (trace w)
        /\ disk w' = disk w /\ clock w' = clock w /\ counters w' = counters w
    | _ => False
    end.
Proof.
  intros server r w. unfold Basic.make_request, bind at 1, requests_get.
  assert (Hs : forall e, slept (trace w ++ [EvGet r; e]) = slept (trace w ++ [e])).
  { intros e. unfold slept. rewrite !flat_map_app. reflexivity. }
  destruct (server (calls w) r) as [sc j| | | |].
  - destruct (raise_for_status sc); [|destruct j]; run_effects;
      cbn [calls trace disk clock counters record_event record_call];
      rewrite <- ?app_assoc; cbn [app]; unfold slept; rewrite ?flat_map_app; cbn;
        rewrite ?app_nil_r; repeat split; reflexivity.
  - run_effects; cbn [calls trace disk clock counters record_event record_call];
      rewrite <- ?app_assoc; cbn [app]; unfold slept; rewrite ?flat_map_app; cbn;
        rewrite ?app_nil_r; repeat split; reflexivity.
  - run_effects; cbn [calls trace disk clock counters record_event record_call];
      rewrite <- ?app_assoc; cbn [app]; unfold slept; rewrite ?flat_map_app; cbn;
        rewrite ?app_nil_r; repeat split; reflexivity.
  - run_effects; cbn [calls trace disk clock counters record_event record_call];
      rewrite <- ?app_assoc; cbn [app]; unfold slept; rewrite ?flat_map_app; cbn;
        rewrite ?app_nil_r; repeat split; reflexivity.
  - cbn [calls trace disk clock counters record_event record_call].
    unfold slept; rewrite ?flat_map_app; cbn; rewrite ?app_nil_r; repeat split; reflexivity.
Qed.

(* ===================================================================== *)
(** ** Retry schedules *)
(* ===================================================================== *)

Lemma slept_app (t u : list Event) : slept (t ++ u) = slept t ++ slept u.
Proof. unfold slept. apply flat_map_app. Qed.

(** Retryable failures followed by a success, from any point of the retry
    loop. *)
Lemma full_retries_then_success (server : nat -> Request -> Outcome) (r : Request)
      (retries : nat) (status_code : Z) (body : Value) :
  raise_for_status status_code = false ->
  forall failures remaining attempt w,
    attempt + List.length failures <= retries ->
    List.length failures < remaining ->
    (forall k, k < List.length failures ->
               server (calls w + k) r = nth k failures Timeout) ->
    forallb retryable failures = true ->
    server (calls w + List.length failures) r = Response status_code (Some body) ->
    exists w',
      Full.make_request_from server retries r remaining attempt w = Ret body w'
      /\ calls w' = calls w + List.length failures + 1
      /\ slept (trace w') = slept (trace w) ++ schedule failures attempt.
Proof.
  intros Hok. induction failures as [|o failures IH];
    intros remaining attempt w Hretries Hremaining Hfail Hretryable Hsuccess.
  - destruct remaining as [|n]; [cbn in Hremaining; lia|].
    cbn [List.length] in Hsuccess. rewrite Nat.add_0_r in Hsuccess.
    cbn [Full.make_request_from]. unfold bind at 1, requests_get.
    rewrite Hsuccess, Hok. run_effects.
    eexists. split; [reflexivity|].
    cbn [calls trace record_event record_call List.length schedule].
    split; [lia|].
    rewrite <- app_assoc, slept_app. cbn. now rewrite !app_nil_r.
  - destruct remaining as [|n]; [cbn in Hremaining; lia|].
    cbn [List.length] in *.
    pose proof (Hfail 0 ltac:(lia)) as H0. rewrite Nat.add_0_r in H0. cbn [nth] in H0.
    cbn [forallb] in Hretryable. apply andb_prop in Hretryable.
    destruct Hretryable as [Ho Hrest].
    assert (Hlt : (attempt <? retries) = true) by (apply Nat.ltb_lt; lia).
    assert (Hcont : forall w1,
              calls w1 = S (calls w) ->
              slept (trace w1) = slept (trace w) ++ [backoff_seconds o attempt] ->
              exists w',
                Full.make_request_from server retries r n (S attempt) w1 = Ret body w'
                /\ calls w' = calls w + S (List.length failures) + 1
                /\ slept (trace w')
                   = slept (trace w)
                     ++ (backoff_seconds o attempt :: schedule failures (S attempt))).
    { intros w1 Hc Hs.
      destruct (IH n (S attempt) w1) as [w' [He [Hcalls Hslept]]]; try lia; try assumption.
      - intros k Hk. rewrite Hc.
        replace (S (calls w) + k) with (calls w + S k) by lia.
        rewrite (Hfail (S k)) by lia. reflexivity.
      - rewrite Hc. replace (S (calls w) + List.length failures)
          with (calls w + S (List.length failures)) by lia. exact Hsuccess.
      - exists w'. split; [exact He|]. split; [lia|].
        rewrite Hslept, Hs, <- app_assoc. reflexivity. }
    cbn [Full.make_request_from schedule]. unfold bind at 1, requests_get.
    rewrite H0. unfold retryable, backoff_seconds, classify in *.
    destruct o as [sc j| | | |]; try discriminate Ho.
    + destruct (raise_for_status sc); [|destruct j; discriminate Ho].
      destruct (sc =? 429)%Z; [|destruct (500 <=? sc)%Z; [|discriminate Ho]];
        rewrite Hlt; run_effects; apply Hcont; try reflexivity;
        cbn [trace record_event record_call]; rewrite <- !app_assoc, slept_app;
        reflexivity.
    + rewrite Hlt; run_effects; apply Hcont; try reflexivity;
        cbn [trace record_event record_call]; rewrite <- !app_assoc, slept_app;
        reflexivity.
    + rewrite Hlt; run_effects; apply Hcont; try reflexivity;
        cbn [trace record_event record_call]; rewrite <- !app_assoc, slept_app;
        reflexivity.
    + rewrite Hlt; run_effects; apply Hcont; try reflexivity;
        cbn [trace record_event record_call]; rewrite <- !app_assoc, slept_app;
        reflexivity.
Qed.

(** X4: when the first attempts of [make_request] (at most [retries] of
    them) fail with timeouts, connection errors, rate limiting or server
    errors and the next attempt succeeds, the body of that attempt is
    returned after exactly one call per failure plus one, and the waits are,
    in order, [2^attempt] seconds after a timeout or connection error,
    [60 * (attempt + 1)] after a 429 and [5 * (attempt + 1)] after a 5xx. *)
Theorem full_make_request_backoff_schedule :
  forall (server : nat -> Request -> Outcome) (r : Request) (retries : nat)
         (failures : list Outcome) (status_code : Z) (body : Value) (w : World),
    List.length failures <= retries ->
    forallb retryable failures = true ->
    (forall k, k < List.length failures ->
               server (calls w + k) r = nth k failures Timeout) ->
    server (calls w + List.length failures) r = Response status_code (Some body) ->
    raise_for_status status_code = false ->
    exists w',
      Full.make_request server r retries w = Ret body w'
      /\ calls w' = calls w + List.length failures + 1
      /\ slept (trace w') = slept (trace w) ++ schedule failures 0.
Proof.
  intros server r retries failures status_code body w Hlen Hretryable Hfail Hsuccess Hok.
  unfold Full.make_request.
  apply (full_retries_then_success server r retries status_code body Hok);
    try assumption; lia.
Qed.

Lemma full_make_request_backoff_schedule_witness :
  let failures := [Timeout; Response 429 None; Response 503 None] in
  let body := VDict [("results", VList [])] in
  exists w',
    Full.make_request (script (failures ++ [Response 200 (Some body)])) a_request 3 world0
    = Ret body w'
    /\ calls w' = calls world0 + List.length failures + 1
    /\ slept (trace w') = slept (trace world0) ++ schedule failures 0.
Proof.
  cbv zeta.
  apply (full_make_request_backoff_schedule
           (script ([Timeout; Response 429 None; Response 503 None]
                      ++ [Response 200 (Some (VDict [("results", VList [])]))]))
           a_request 3 [Timeout; Response 429 None; Response 503 None]
           200 (VDict [("results", VList [])]) world0).
  - cbn. lia.
  - reflexivity.
  - intros k Hk. destruct k as [|[|[|k]]]; try reflexivity. cbn in Hk. lia.
  - reflexivity.
  - reflexivity.
Defined.

(** A timeout, a 429 and a 503 in a row are followed by waits of 1, 120 and
    15 seconds. *)
Example schedule_example :
  schedule [Timeout; Response 429 None; Response 503 None] 0 = [1; 120; 15]%Z.
Proof. reflexivity. Qed.

Lemma counter_record_event (k : string) (e : Event) (w : World) :
  counter k (record_event e w) = counter k w.
Proof. reflexivity. Qed.

Lemma counter_record_call (k : string) (r : Request) (w : World) :
  counter k (record_call r w) = counter k w.
Proof. reflexivity. Qed.

Ltac count_errors :=
  repeat (rewrite counter_set_counter || rewrite counter_record_event
          || rewrite counter_record_call);
  cbn [List.length]; lia.

Lemma nepal_failures_then_success (server : nat -> Request -> Outcome) (r : Request)
      (retries : nat) (status_code : Z) (body : Value) :
  raise_for_status status_code = false ->
  forall failures remaining attempt w,
    List.length failures < remaining ->
    (forall k, k < List.length failures ->
               server (calls w + k) r = nth k failures Timeout) ->
    forallb failed failures = true ->
    server (calls w + List.length failures) r = Response status_code (Some body) ->
    exists w',
      Nepal.make_request_from server retries r remaining attempt w = Ret body w'
      /\ calls w' = calls w + List.length failures + 1
      /\ counter "errors_encountered" w'
         = (counter "errors_encountered" w + Z.of_nat (counted_errors failures))%Z.
Proof.
  intros Hok. induction failures as [|o failures IH];
    intros remaining attempt w Hremaining Hfail Hfailed Hsuccess.
  - destruct remaining as [|n]; [cbn in Hremaining; lia|].
    cbn [List.length] in Hsuccess. rewrite Nat.add_0_r in Hsuccess.
    cbn [Nepal.make_request_from]. unfold bind at 1, requests_get.
    rewrite Hsuccess, Hok. run_effects.
    eexists. split; [reflexivity|].
    cbn [calls record_event record_call List.length]. split; [lia|].
    unfold counted_errors. cbn [filter]. count_errors.
  - destruct remaining as [|n]; [cbn in Hremaining; lia|].
    cbn [List.length] in *.
    pose proof (Hfail 0 ltac:(lia)) as H0. rewrite Nat.add_0_r in H0. cbn [nth] in H0.
    cbn [forallb] in Hfailed. apply andb_prop in Hfailed.
    destruct Hfailed as [Ho Hrest].
    assert (Hshift : forall w1,
              calls w1 = S (calls w) ->
              counter "errors_encountered" w1
              = (counter "errors_encountered" w + Z.of_nat (counted_errors [o]))%Z ->
              exists w',
                Nepal.make_request_from server retries r n (S attempt) w1 = Ret body w'
                /\ calls w' = calls w + S (List.length failures) + 1
                /\ counter "errors_encountered" w'
                   = (counter "errors_encountered" w
                      + Z.of_nat (counted_errors (o :: failures)))%Z).
    { intros w1 Hc Hs.
      destruct (IH n (S attempt) w1) as [w' [He [Hcalls Hcount]]]; try lia; try assumption.
      - intros k Hk. rewrite Hc.
        replace (S (calls w) + k) with (calls w + S k) by lia.
        rewrite (Hfail (S k)) by lia. reflexivity.
      - rewrite Hc. replace (S (calls w) + List.length failures)
          with (calls w + S (List.length failures)) by lia. exact Hsuccess.
      - exists w'. split; [exact He|]. split; [lia|].
        rewrite Hcount, Hs. unfold counted_errors. cbn [filter].
        destruct (match classify o with KRateLimited => false | _ => true end);
          cbn [List.length]; lia. }
    assert (Hcont : forall w1,
              calls w1 = S (calls w) ->
              counter "errors_encountered" w1
              = (counter "errors_encountered" w + Z.of_nat (counted_errors [o]))%Z ->
              exists w',
                ((if attempt <? retries - 1
                  then sleep ((Z.of_nat attempt + 1) * 2)
                  else ret tt) ;;
                 Nepal.make_request_from server retries r n (S attempt)) w1 = Ret body w'
                /\ calls w' = calls w + S (List.length failures) + 1
                /\ counter "errors_encountered" w'
                   = (counter "errors_encountered" w
                      + Z.of_nat (counted_errors (o :: failures)))%Z).
    { intros w1 Hc Hs.
      destruct (attempt <? retries - 1); run_effects; apply Hshift; assumption. }
    cbn [Nepal.make_request_from]. unfold bind at 1, requests_get.
    rewrite H0. unfold failed, classify in Ho.
    destruct o as [sc j| | | |]; try discriminate Ho.
    + destruct (raise_for_status sc) eqn:R.
      * destruct (sc =? 429)%Z eqn:E; run_effects; apply Hcont; try reflexivity;
          unfold counted_errors, classify; cbn [filter]; rewrite R, E;
          destruct (500 <=? sc)%Z; count_errors.
      * destruct j; [discriminate Ho|]. run_effects. apply Hcont; try reflexivity.
        unfold counted_errors, classify; cbn [filter]; rewrite R.
        count_errors.
    + run_effects. apply Hcont; try reflexivity.
      unfold counted_errors; cbn [filter classify]; count_errors.
    + run_effects. apply Hcont; try reflexivity.
      unfold counted_errors; cbn [filter classify]; count_errors.
    + run_effects. apply Hcont; try reflexivity.
      unfold counted_errors; cbn [filter classify]; count_errors.
Qed.

(** X5: when the first attempts of [make_request_with_retry] (fewer than
    [max_retries] of them) fail, in whatever way, and the next attempt
    succeeds, the body of that attempt is returned after exactly one call
    per failure plus one, and [errors_encountered] has grown by the number
    of failures that were not rate limiting. *)
Theorem nepal_first_success_is_returned :
  forall (server : nat -> Request -> Outcome) (r : Request)
         (failures : list Outcome) (status_code : Z) (body : Value) (w : World),
    List.length failures < Nepal.max_retries ->
    forallb failed failures = true ->
    (forall k, k < List.length failures ->
               server (calls w + k) r = nth k failures Timeout) ->
    server (calls w + List.length failures) r = Response status_code (Some body) ->
    raise_for_status status_code = false ->
    exists w',
      Nepal.make_request_with_retry server r w = Ret body w'
      /\ calls w' = calls w + List.length failures + 1
      /\ counter "errors_encountered" w'
         = (counter "errors_encountered" w + Z.of_nat (counted_errors failures))%Z.
Proof.
  intros server r failures status_code body w Hlen Hfailed Hfail Hsuccess Hok.
  unfold Nepal.make_request_with_retry.
  apply (nepal_failures_then_success server r Nepal.max_retries status_code body Hok);
    assumption.
Qed.

Lemma nepal_first_success_is_returned_witness :
  let failures := [Response 429 None; Response 404 None] in
  let body := VDict [("results", VList [])] in
  exists w',
    Nepal.make_request_with_retry (script (failures ++ [Response 200 (Some body)]))
                                  a_request world0 = Ret body w'
    /\ calls w' = calls world0 + List.length failures + 1
    /\ counter "errors_encountered" w'
       = (counter "errors_encountered" world0 + Z.of_nat (counted_errors failures))%Z.
Proof.
  cbv zeta.
  apply (nepal_first_success_is_returned
           (script ([Response 429 None; Response 404 None]
                      ++ [Response 200 (Some (VDict [("results", VList [])]))]))
           a_request [Response 429 None; Response 404 None]
           200 (VDict [("results", VList [])]) world0).
  - cbn. unfold Nepal.max_retries. lia.
  - reflexivity.
  - intros k Hk. destruct k as [|[|k]]; try reflexivity. cbn in Hk. lia.
  - reflexivity.
  - reflexivity.
Defined.

(* ===================================================================== *)
(** ** Pages with an unusable body *)
(* ===================================================================== *)

(** X6: what the location loops do with a 2xx page whose body is not a
    non-empty object holding results.  A falsy body (an empty object or
    array, null, 0, ...) is taken for a failed fetch: the loop stops with the
    locations gathered so far, after a warning in the full-scale script.  A
    truthy body that is not an object (a non-empty array, a string, a
    number) raises AttributeError out of the loop.  An object without a
    [results] entry ends the loop with the locations gathered so far and no
    log record.  Each case costs exactly the one call. *)
Theorem location_page_with_unusable_body :
  forall (server_falsy server_scalar server_bare : nat -> Request -> Outcome)
         (fuel : nat) (country_id : Value) (limit page : nat) (locations : list Value)
         (falsy scalar : Value) (bare : Dict) (w : World),
    let r := mkRequest Locations [("countries_id", country_id);
                                  ("page", VNat page);
                                  ("limit", VNat limit)] in
    let fetched := record_event EvDelay (record_call r w) in
    server_falsy (calls w) r = Response 200 (Some falsy) ->
    truthy falsy = false ->
    server_scalar (calls w) r = Response 200 (Some scalar) ->
    truthy scalar = true ->
    (forall d, scalar <> VDict d) ->
    server_bare (calls w) r = Response 200 (Some (VDict bare)) ->
    bare <> [] ->
    lookup "results" bare = None ->
    Full.locations_loop server_falsy (S fuel) country_id limit page locations w
    = Ret locations (record_event (EvLog WARNING (FailedLocationsPage (Z.of_nat page)))
                                  fetched)
    /\ Basic.locations_loop server_falsy (S fuel) country_id limit page locations w
       = Ret locations fetched
    /\ Full.locations_loop server_scalar (S fuel) country_id limit page locations w
       = Raise AttributeError fetched
    /\ Basic.locations_loop server_scalar (S fuel) country_id limit page locations w
       = Raise AttributeError fetched
    /\ Full.locations_loop server_bare (S fuel) country_id limit page locations w
       = Ret locations fetched
    /\ Basic.locations_loop server_bare (S fuel) country_id limit page locations w
       = Ret locations fetched.
Proof.
  intros server_falsy server_scalar server_bare fuel country_id limit page locations
         falsy scalar bare w r fetched Hfalsy Hf Hscalar Hs Hnd Hbare Hne Hnone.
  assert (Hbt : truthy (VDict bare) = true) by (destruct bare; [contradiction | reflexivity]).
  repeat split.
  - cbn [Full.locations_loop]. fold r.
    rewrite (bind_Ret _ _ _ _ _ (full_make_request_success _ _ _ _ _ _ Hfalsy eq_refl)).
    unfold py_not. rewrite Hf. reflexivity.
  - cbn [Basic.locations_loop]. fold r.
    rewrite (bind_Ret _ _ _ _ _ (basic_make_request_success _ _ _ _ _ Hfalsy eq_refl)).
    unfold py_not. rewrite Hf. reflexivity.
  - cbn [Full.locations_loop]. fold r.
    rewrite (bind_Ret _ _ _ _ _ (full_make_request_success _ _ _ _ _ _ Hscalar eq_refl)).
    unfold py_not. rewrite Hs. cbn [negb].
    destruct scalar; try reflexivity. exfalso. eapply Hnd. reflexivity.
  - cbn [Basic.locations_loop]. fold r.
    rewrite (bind_Ret _ _ _ _ _ (basic_make_request_success _ _ _ _ _ Hscalar eq_refl)).
    unfold py_not. rewrite Hs. cbn [negb].
    destruct scalar; try reflexivity. exfalso. eapply Hnd. reflexivity.
  - cbn [Full.locations_loop]. fold r.
    rewrite (bind_Ret _ _ _ _ _ (full_make_request_success _ _ _ _ _ _ Hbare eq_refl)).
    unfold py_not. rewrite Hbt. cbn [negb].
    unfold bind at 1, try_pure, py_get, get, ret. rewrite Hnone. reflexivity.
  - cbn [Basic.locations_loop]. fold r.
    rewrite (bind_Ret _ _ _ _ _ (basic_make_request_success _ _ _ _ _ Hbare eq_refl)).
    unfold py_not. rewrite Hbt. cbn [negb].
    unfold bind at 1, try_pure, py_get, get, ret. rewrite Hnone. reflexivity.
Qed.

Lemma location_page_with_unusable_body_witness :
  let r := mkRequest Locations [("countries_id", VInt 145);
                                ("page", VNat 2);
                                ("limit", VNat 1000)] in
  let fetched := record_event EvDelay (record_call r world0) in
  let server_falsy := script [Response 200 (Some (VDict []))] in
  let server_scalar := script [Response 200 (Some (VList [VInt 1]))] in
  let server_bare := script [Response 200 (Some (VDict [("meta", VDict [])]))] in
  Full.locations_loop server_falsy 1 (VInt 145) 1000 2 [VDict sample_location] world0
  = Ret [VDict sample_location]
        (record_event (EvLog WARNING (FailedLocationsPage (Z.of_nat 2))) fetched)
  /\ Basic.locations_loop server_falsy 1 (VInt 145) 1000 2 [VDict sample_location] world0
     = Ret [VDict sample_location] fetched
  /\ Full.locations_loop server_scalar 1 (VInt 145) 1000 2 [VDict sample_location] world0
     = Raise AttributeError fetched
  /\ Basic.locations_loop server_scalar 1 (VInt 145) 1000 2 [VDict sample_location] world0
     = Raise AttributeError fetched
  /\ Full.locations_loop server_bare 1 (VInt 145) 1000 2 [VDict sample_location] world0
     = Ret [VDict sample_location] fetched
  /\ Basic.locations_loop server_bare 1 (VInt 145) 1000 2 [VDict sample_location] world0
     = Ret [VDict sample_location] fetched.
Proof.
  cbv zeta.
  apply (location_page_with_unusable_body
           (script [Response 200 (Some (VDict []))])
           (script [Response 200 (Some (VList [VInt 1]))])
           (script [Response 200 (Some (VDict [("meta", VDict [])]))])
           0 (VInt 145) 1000 2 [VDict sample_location]
           (VDict []) (VList [VInt 1]) [("meta", VDict [])] world0).
  - reflexivity.
  - reflexivity.
  - reflexivity.
  - reflexivity.
  - intros d H. discriminate H.
  - reflexivity.
  - discriminate.
  - reflexivity.
Defined.

(* ===================================================================== *)
(** ** The thread pool as seen by the main thread *)
(* ===================================================================== *)

Lemma counter_set_counter_other (k k' : string) (z : Z) (w : World) :
  String.eqb k k' = false -> counter k (set_counter k' z w) = counter k w.
Proof.
  intros H. unfold counter, set_counter. cbn [counters].
  rewrite lookup_setitem, H. reflexivity.
Qed.

(** X7: when the main thread consumes the futures of a pool run, a sensor
    whose worker raised is logged and skipped while the measurements of the
    other sensors are all kept, in completion order; [current_sensor] grows
    by the number of sensors that returned and [total_measurements] by the
    number of their measurements.  (The futures must be tame: no
    KeyboardInterrupt, and a failed sensor's record is a mapping.) *)
Theorem worker_failures_are_skipped :
  forall (futures : list (Value * (Exn + list Value))) (all_measurements : list Value)
         (w : World),
    forallb tame futures = true ->
    exists w',
      Full.consume_futures futures all_measurements w
      = Ret (all_measurements ++ List.concat (returned futures)) w'
      /\ counter "current_sensor" w'
         = (counter "current_sensor" w + Z.of_nat (List.length (returned futures)))%Z
      /\ counter "total_measurements" w'
         = (counter "total_measurements" w
            + Z.of_nat (List.length (List.concat (returned futures))))%Z
      /\ disk w' = disk w
      /\ calls w' = calls w.
Proof.
  induction futures as [|[sensor_info result] futures IH];
    intros all_measurements w Htame.
  - exists w. cbn. rewrite app_nil_r. repeat split; lia.
  - cbn [forallb] in Htame. apply andb_prop in Htame. destruct Htame as [Ht Hrest].
    cbn [Full.consume_futures].
    destruct result as [e | measurements].
    + destruct e; try discriminate Ht;
        (destruct sensor_info; try discriminate Ht);
        unfold bind at 1, try_pure, py_get, ret; run_effects;
        (edestruct IH as [w' [He [Hs [Hm [Hd Hc]]]]]; [exact Hrest|]);
        exists w'; (split; [exact He|]);
        rewrite Hs, Hm, Hd, Hc; repeat split; reflexivity.
    + run_effects.
      edestruct IH as [w' [He [Hs [Hm [Hd Hc]]]]]; [exact Hrest|].
      exists w'. split.
      * rewrite He. cbn [returned flat_map snd List.concat app]. f_equal.
        fold (returned futures). now rewrite app_assoc.
      * rewrite Hs, Hm, Hd, Hc.
        cbn [returned flat_map snd List.concat app List.length]. fold (returned futures).
        rewrite length_app.
        rewrite counter_set_counter_other by reflexivity.
        repeat (rewrite counter_set_counter || rewrite counter_set_counter_other by reflexivity).
        repeat split; try reflexivity; lia.
Qed.

Lemma worker_failures_are_skipped_witness :
  let futures := [(VDict sample_sensor_info, inr [VDict sample_measurement]);
                  (VDict sample_sensor_info, inl AttributeError);
                  (VNone, inr [VDict sample_measurement; VDict sample_measurement])] in
  exists w',
    Full.consume_futures futures [] world0
    = Ret ([] ++ List.concat (returned futures)) w'
    /\ counter "current_sensor" w'
       = (counter "current_sensor" world0 + Z.of_nat (List.length (returned futures)))%Z
    /\ counter "total_measurements" w'
       = (counter "total_measurements" world0
          + Z.of_nat (List.length (List.concat (returned futures))))%Z
    /\ disk w' = disk world0
    /\ calls w' = calls world0.
Proof.
  cbv zeta.
  apply (worker_failures_are_skipped
           [(VDict sample_sensor_info, inr [VDict sample_measurement]);
            (VDict sample_sensor_info, inl AttributeError);
            (VNone, inr [VDict sample_measurement; VDict sample_measurement])]
           [] world0).
  reflexivity.
Defined.

(* ===================================================================== *)
(** ** Invariants of Phase 2 *)
(* ===================================================================== *)

Section Inversion.
Context {S A B : Type}.

Lemma bind_Ret_inv (m : M S A) (k : A -> M S B) (s s'' : S) (b : B) :
  bind m k s = Ret b s'' ->
  exists a s', m s = Ret a s' /\ k a s' = Ret b s''.
Proof.
  unfold bind. destruct (m s) as [a s'| |]; try discriminate. eauto.
Qed.
End Inversion.

Lemma call_Ret_inv {A} (m : M World A) (r r' : Full.Run) (a : A) :
  Full.call m r = Ret a r' ->
  exists w', m (Full.world r) = Ret a w' /\ r' = Full.set_world w' r.
Proof.
  unfold Full.call. destruct (m (Full.world r)) as [a' w'| |]; try discriminate.
  intros H. inversion H; subst. eauto.
Qed.

(** What a pool run that returns has done to the world. *)
Lemma consume_futures_Ret (futures : list (Value * (Exn + list Value))) :
  forall all_measurements w result w',
    Full.consume_futures futures all_measurements w = Ret result w' ->
    exists more,
      result = all_measurements ++ more
      /\ counter "total_measurements" w'
         = (counter "total_measurements" w + Z.of_nat (List.length more))%Z
      /\ disk w' = disk w.
Proof.
  induction futures as [|[sensor_info outcome] futures IH];
    intros all_measurements w result w' H.
  - cbn in H. inversion H; subst. exists []. rewrite app_nil_r. cbn. repeat split; lia.
  - cbn [Full.consume_futures] in H. destruct outcome as [e | measurements].
    + destruct e; try discriminate H;
        (destruct sensor_info; try discriminate H);
        unfold bind at 1, try_pure, py_get, ret in H;
        revert H; run_effects; intros H;
        apply IH in H; destruct H as [more [Hr [Hm Hd]]];
        exists more; (split; [exact Hr|]); rewrite Hm, Hd; split; reflexivity.
    + revert H. run_effects. intros H.
      apply IH in H. destruct H as [more [Hr [Hm Hd]]].
      exists (measurements ++ more). split; [now rewrite Hr, app_assoc|].
      rewrite Hm, Hd, length_app.
      repeat (rewrite counter_set_counter || rewrite counter_set_counter_other by reflexivity).
      split; [lia | reflexivity].
Qed.

Lemma pool_run_Ret (pool : nat -> list Value -> Full.PoolRun) (n : nat)
      (sensor_batch batch_measurements : list Value) (w w' : World) :
  Full.get_sensor_measurements_batch pool n sensor_batch w = Ret batch_measurements w' ->
  counter "total_measurements" w'
  = (counter "total_measurements" w + Z.of_nat (List.length batch_measurements))%Z
  /\ disk w' = disk w.
Proof.
  unfold Full.get_sensor_measurements_batch. intros H.
  apply bind_Ret_inv in H. destruct H as [all [w1 [Hc H]]].
  destruct (Full.interrupted (pool n sensor_batch)); [discriminate H|].
  inversion H; subst.
  apply consume_futures_Ret in Hc. destruct Hc as [more [Hr [Hm Hd]]].
  cbn [app] in Hr. subst. split; assumption.
Qed.

Lemma measurement_records_app (d d' : list (Filename * Content)) :
  measurement_records (d ++ d') = measurement_records d ++ measurement_records d'.
Proof. unfold measurement_records. apply flat_map_app. Qed.

(** The state after the buffer statements of one iteration. *)
Lemma buffer_and_maybe_save_Ret (to_parquet : Filename -> list Value -> WriteResult)
      (batch_size : Z) (batch_measurements : list Value) (r : Full.Run) :
  (0 < batch_size)%Z ->
  exists r',
    Full.buffer_and_maybe_save to_parquet batch_size batch_measurements r = Ret tt r'
    /\ (Z.of_nat (List.length (Full.current_batch r')) < batch_size)%Z
    /\ counter "total_measurements" (Full.world r')
       = counter "total_measurements" (Full.world r)
    /\ ((forall f d, to_parquet f d = Written) ->
        measurement_records (disk (Full.world r')) ++ Full.current_batch r'
        = measurement_records (disk (Full.world r))
          ++ Full.current_batch r ++ batch_measurements).
Proof.
  intros Hpos.
  destruct (Z.leb_spec batch_size
              (Z.of_nat (List.length (Full.current_batch r ++ batch_measurements))))
    as [Hge | Hlt].
  - assert (Hne : Full.current_batch r ++ batch_measurements <> []).
    { intros E. rewrite E in Hge. cbn in Hge. lia. }
    eexists. split; [apply buffer_at_threshold; assumption|].
    cbn [Full.world Full.current_batch List.length].
    split; [lia|]. split.
    + rewrite counter_set_counter_other by reflexivity. apply counter_after_save.
    + intros Hok. unfold after_save. rewrite Hok.
      cbn [disk set_counter write_file]. rewrite measurement_records_app.
      cbn. now rewrite !app_nil_r.
  - eexists. split; [apply buffer_below_threshold; exact Hlt|].
    cbn [Full.world Full.current_batch Full.set_current_batch].
    split; [exact Hlt|]. split; [reflexivity|]. intros _. reflexivity.
Qed.

(** What the Phase 2 loop keeps when it returns. *)
Lemma collect_measurements_Ret (to_parquet : Filename -> list Value -> WriteResult)
      (pool : nat -> list Value -> Full.PoolRun) (batch_size : Z) (sensors : list Value) :
  (0 < batch_size)%Z ->
  forall iterations i r r',
    Full.collect_measurements to_parquet pool batch_size sensors iterations i r
    = Ret tt r' ->
    ((Z.of_nat (List.length (Full.current_batch r)) < batch_size)%Z ->
     (Z.of_nat (List.length (Full.current_batch r')) < batch_size)%Z)
    /\ ((forall f d, to_parquet f d = Written) ->
        (counter "total_measurements" (Full.world r')
         - Z.of_nat (List.length (measurement_records (disk (Full.world r'))
                                  ++ Full.current_batch r'))
         = counter "total_measurements" (Full.world r)
           - Z.of_nat (List.length (measurement_records (disk (Full.world r))
                                    ++ Full.current_batch r)))%Z).
Proof.
  intros Hpos. induction iterations as [|n IH]; intros i r r' H.
  - cbn in H. inversion H; subst. split; [tauto | reflexivity].
  - cbn [Full.collect_measurements] in H.
    apply bind_Ret_inv in H. destruct H as [ms [r1 [Hpool H]]].
    apply call_Ret_inv in Hpool. destruct Hpool as [w1 [Hpool Hr1]].
    apply pool_run_Ret in Hpool. destruct Hpool as [Hm Hd].
    apply bind_Ret_inv in H. destruct H as [[] [r2 [Hbuf H]]].
    destruct (buffer_and_maybe_save_Ret to_parquet batch_size ms r1 Hpos)
      as [r2' [Hbuf' [Hbound [Hcount Hrecords]]]].
    rewrite Hbuf' in Hbuf. inversion Hbuf; subst r2'. clear Hbuf.
    apply IH in H. destruct H as [IHbound IHcount].
    split.
    + intros _. apply IHbound. exact Hbound.
    + intros Hok. rewrite (IHcount Hok), Hcount. rewrite (Hrecords Hok).
      subst r1. cbn [Full.world Full.set_world Full.current_batch].
      rewrite Hm, Hd. rewrite !length_app. lia.
Qed.

(** X8: the buffer statements of an iteration of Phase 2 always return and
    leave fewer than [batch_size] records buffered, whether or not the write
    succeeded; hence a Phase 2 loop that starts below the threshold and
    returns ends below the threshold. *)
Theorem buffer_stays_below_threshold :
  forall (to_parquet : Filename -> list Value -> WriteResult)
         (pool : nat -> list Value -> Full.PoolRun) (batch_size : Z)
         (batch_measurements sensors : list Value) (iterations i : nat)
         (r r0 r' : Full.Run),
    (0 < batch_size)%Z ->
    (Z.of_nat (List.length (Full.current_batch r0)) < batch_size)%Z ->
    Full.collect_measurements to_parquet pool batch_size sensors iterations i r0
    = Ret tt r' ->
    (exists r1,
        Full.buffer_and_maybe_save to_parquet batch_size batch_measurements r = Ret tt r1
        /\ (Z.of_nat (List.length (Full.current_batch r1)) < batch_size)%Z)
    /\ (Z.of_nat (List.length (Full.current_batch r')) < batch_size)%Z.
Proof.
  intros to_parquet pool batch_size batch_measurements sensors iterations i r r0 r'
         Hpos Hstart Hloop.
  split.
  - destruct (buffer_and_maybe_save_Ret to_parquet batch_size batch_measurements r Hpos)
      as [r1 [He [Hb _]]].
    exists r1. split; assumption.
  - apply (collect_measurements_Ret to_parquet pool batch_size sensors Hpos) in Hloop.
    apply Hloop. exact Hstart.
Qed.

(** X9: when every parquet write succeeds, a Phase 2 loop that returns keeps
    the difference between the [total_measurements] counter and the number
    of records that are in the measurement files or still buffered: no
    record counted is lost and none is written twice. *)
Theorem counted_measurements_are_written_or_buffered :
  forall (to_parquet : Filename -> list Value -> WriteResult)
         (pool : nat -> list Value -> Full.PoolRun) (batch_size : Z)
         (sensors : list Value) (iterations i : nat) (r r' : Full.Run),
    (0 < batch_size)%Z ->
    (forall f d, to_parquet f d = Written) ->
    counter "total_measurements" (Full.world r)
    = Z.of_nat (List.length (measurement_records (disk (Full.world r))
                             ++ Full.current_batch r)) ->
    Full.collect_measurements to_parquet pool batch_size sensors iterations i r
    = Ret tt r' ->
    counter "total_measurements" (Full.world r')
    = Z.of_nat (List.length (measurement_records (disk (Full.world r'))
                             ++ Full.current_batch r')).
Proof.
  intros to_parquet pool batch_size sensors iterations i r r' Hpos Hok Hstart Hloop.
  apply (collect_measurements_Ret to_parquet pool batch_size sensors Hpos) in Hloop.
  destruct Hloop as [_ Hcount]. specialize (Hcount Hok). lia.
Qed.

Lemma buffer_stays_below_threshold_witness :
  (exists r1,
      Full.buffer_and_maybe_save always_written 150 [VDict sample_measurement] after_phase2
      = Ret tt r1
      /\ (Z.of_nat (List.length (Full.current_batch r1)) < 150)%Z)
  /\ (Z.of_nat (List.length (Full.current_batch after_phase2)) < 150)%Z.
Proof.
  apply (buffer_stays_below_threshold
           always_written steady_pool 150 [VDict sample_measurement] sample_sensors 3 0
           after_phase2 (Full.run0 world0) after_phase2).
  - lia.
  - cbn. lia.
  - vm_compute. reflexivity.
Defined.

Lemma counted_measurements_are_written_or_buffered_witness :
  counter "total_measurements" (Full.world after_phase2)
  = Z.of_nat (List.length (measurement_records (disk (Full.world after_phase2))
                           ++ Full.current_batch after_phase2)).
Proof.
  apply (counted_measurements_are_written_or_buffered
           always_written steady_pool 150 sample_sensors 3 0
           (Full.run0 world0) after_phase2).
  - lia.
  - reflexivity.
  - reflexivity.
  - vm_compute. reflexivity.
Defined.

(** In [after_phase2] 240 measurements were counted: 200 are in the one
    batch file and 40 are buffered. *)
Example after_phase2_counts :
  counter "total_measurements" (Full.world after_phase2) = 240%Z
  /\ List.length (measurement_records (disk (Full.world after_phase2))) = 200
  /\ List.length (Full.current_batch after_phase2) = 40
  /\ Full.measurement_batches after_phase2 = [MeasurementsBatch 0].
Proof. repeat split; reflexivity. Qed.

(* ===================================================================== *)
(** ** Phase 1 and the completed run *)
(* ===================================================================== *)

Lemma try_pure_Ret_inv {S A} (x : Exn + A) (s s' : S) (a : A) :
  try_pure x s = Ret a s' -> x = inr a /\ s' = s.
Proof.
  destruct x as [e | a']; cbn; intros H; inversion H; subst. split; reflexivity.
Qed.

Lemma full_make_request_Ret (server : nat -> Request -> Outcome) (r : Request)
      (retries : nat) (w w' : World) (v : Value) :
  Full.make_request server r retries w = Ret v w' ->
  disk w' = disk w /\ clock w' = clock w /\ counters w' = counters w.
Proof.
  intros H. pose proof (full_make_request_ends server r retries w) as B.
  rewrite H in B. tauto.
Qed.

(** What the location loop of the full-scale script keeps when it returns. *)
Lemma full_locations_loop_Ret (server : nat -> Request -> Outcome) (country_id : Value)
      (limit : nat) :
  forall fuel page locations w result w',
    Full.locations_loop server fuel country_id limit page locations w = Ret result w' ->
    disk w' = disk w /\ clock w' = clock w /\ counters w' = counters w.
Proof.
  induction fuel as [|fuel IH]; intros page locations w result w' H; [discriminate H|].
  cbn [Full.locations_loop] in H.
  apply bind_Ret_inv in H. destruct H as [response [w1 [Hreq H]]].
  apply full_make_request_Ret in Hreq. destruct Hreq as [Hd [Hk Hn]].
  destruct (py_not response).
  - revert H. run_effects. intros H. inversion H; subst.
    cbn [disk clock counters record_event]. repeat split; assumption.
  - apply bind_Ret_inv in H. destruct H as [results [w2 [Hres H]]].
    apply try_pure_Ret_inv in Hres. destruct Hres as [_ ->].
    destruct (py_not results).
    + inversion H; subst. repeat split; assumption.
    + apply bind_Ret_inv in H. destruct H as [items [w3 [Hit H]]].
      apply try_pure_Ret_inv in Hit. destruct Hit as [_ ->].
      apply bind_Ret_inv in H. destruct H as [n [w4 [Hlen H]]].
      apply try_pure_Ret_inv in Hlen. destruct Hlen as [_ ->].
      destruct (n <? limit).
      * inversion H; subst. repeat split; assumption.
      * apply IH in H. destruct H as [Hd' [Hk' Hn']].
        repeat split; congruence.
Qed.

Lemma counter_same (k : string) (w w' : World) :
  counters w' = counters w -> counter k w' = counter k w.
Proof. unfold counter. now intros ->. Qed.

Lemma get_all_locations_for_country_Ret (server : nat -> Request -> Outcome) (fuel : nat)
      (country_id : Value) (w w' : World) (locations : list Value) :
  Full.get_all_locations_for_country server fuel country_id w = Ret locations w' ->
  disk w' = disk w
  /\ counter "total_locations" w'
     = (counter "total_locations" w + Z.of_nat (List.length locations))%Z
  /\ (forall k, String.eqb k "total_locations" = false -> counter k w' = counter k w).
Proof.
  unfold Full.get_all_locations_for_country. intros H.
  apply bind_Ret_inv in H. destruct H as [locs [w1 [Hloop H]]].
  apply full_locations_loop_Ret in Hloop. destruct Hloop as [Hd [_ Hn]].
  revert H. run_effects. intros H. inversion H; subst.
  cbn [disk set_counter]. split; [exact Hd|]. split.
  - rewrite counter_set_counter. now rewrite (counter_same _ _ _ Hn).
  - intros k Hk. rewrite counter_set_counter_other by exact Hk.
    apply counter_same. exact Hn.
Qed.

Lemma extract_sensors_Ret (locations sensors : list Value) (w w' : World) :
  Full.extract_sensors_from_locations locations w = Ret sensors w' ->
  Full.sensors_of_locations locations = inr sensors
  /\ disk w' = disk w
  /\ counter "total_sensors" w'
     = (counter "total_sensors" w + Z.of_nat (List.length sensors))%Z
  /\ (forall k, String.eqb k "total_sensors" = false -> counter k w' = counter k w).
Proof.
  unfold Full.extract_sensors_from_locations. intros H.
  apply bind_Ret_inv in H. destruct H as [sens [w1 [Hs H]]].
  apply try_pure_Ret_inv in Hs. destruct Hs as [Hs ->].
  revert H. run_effects. intros H. inversion H; subst.
  split; [exact Hs|]. cbn [disk set_counter]. split; [reflexivity|]. split.
  - now rewrite counter_set_counter.
  - intros k Hk. now rewrite counter_set_counter_other by exact Hk.
Qed.

Lemma sensors_of_locations_app (a b x y : list Value) :
  Full.sensors_of_locations a = inr x ->
  Full.sensors_of_locations b = inr y ->
  Full.sensors_of_locations (a ++ b) = inr (x ++ y).
Proof.
  revert x. induction a as [|location a IH]; intros x Ha Hb.
  - cbn in Ha. inversion Ha; subst. exact Hb.
  - cbn [app Full.sensors_of_locations] in *.
    destruct (py_get location "sensors" (VList [])) as [e|location_sensors];
      [discriminate Ha|]. cbn [ebind] in *.
    destruct (py_iter location_sensors) as [e|sensor_list]; [discriminate Ha|].
    cbn [ebind] in *.
    destruct (Full.sensors_of_location location sensor_list) as [e|here];
      [discriminate Ha|]. cbn [ebind] in *.
    destruct (Full.sensors_of_locations a) as [e|more]; [discriminate Ha|].
    cbn [ebind] in Ha. inversion Ha; subst.
    rewrite (IH more eq_refl Hb). cbn [ebind]. now rewrite app_assoc.
Qed.

(** What Phase 1 keeps when it returns. *)
Lemma collect_countries_Ret (server : nat -> Request -> Outcome) (fuel : nat) :
  forall countries r r',
    Full.collect_countries server fuel countries r = Ret tt r' ->
    disk (Full.world r') = disk (Full.world r)
    /\ Full.current_batch r' = Full.current_batch r
    /\ Full.measurement_batches r' = Full.measurement_batches r
    /\ counter "total_measurements" (Full.world r')
       = counter "total_measurements" (Full.world r)
    /\ counter "batch_count" (Full.world r') = counter "batch_count" (Full.world r)
    /\ counter "countries_processed" (Full.world r')
       = (counter "countries_processed" (Full.world r)
          + Z.of_nat (List.length countries))%Z
    /\ exists locations sensors,
         Full.all_locations r' = Full.all_locations r ++ locations
         /\ Full.all_sensors r' = Full.all_sensors r ++ sensors
         /\ Full.sensors_of_locations locations = inr sensors
         /\ counter "total_locations" (Full.world r')
            = (counter "total_locations" (Full.world r)
               + Z.of_nat (List.length locations))%Z
         /\ counter "total_sensors" (Full.world r')
            = (counter "total_sensors" (Full.world r)
               + Z.of_nat (List.length sensors))%Z.
Proof.
  induction countries as [|[country_name country_id] countries IH]; intros r r' H.
  - cbn in H. inversion H; subst. repeat split; try (cbn; lia).
    exists [], []. rewrite !app_nil_r. cbn. repeat split; lia.
  - cbn [Full.collect_countries] in H.
    apply bind_Ret_inv in H. destruct H as [locations [r1 [Hloc H]]].
    apply call_Ret_inv in Hloc. destruct Hloc as [w1 [Hloc ->]].
    apply get_all_locations_for_country_Ret in Hloc. destruct Hloc as [Hd1 [Hl1 Ho1]].
    apply bind_Ret_inv in H. destruct H as [[] [r2 [Hm H]]].
    cbn in Hm. inversion Hm; subst r2; clear Hm.
    apply bind_Ret_inv in H. destruct H as [sensors [r3 [Hsen H]]].
    apply call_Ret_inv in Hsen. destruct Hsen as [w2 [Hsen ->]].
    cbn [Full.world Full.set_world Full.set_all_locations] in Hsen.
    apply extract_sensors_Ret in Hsen. destruct Hsen as [Hs [Hd2 [Hl2 Ho2]]].
    apply bind_Ret_inv in H. destruct H as [[] [r4 [Hm H]]].
    cbn in Hm. inversion Hm; subst r4; clear Hm.
    apply bind_Ret_inv in H. destruct H as [[] [r5 [Hinc H]]].
    cbn in Hinc. inversion Hinc; subst r5; clear Hinc.
    apply IH in H. clear IH.
    cbn [Full.world Full.set_world Full.set_all_locations Full.set_all_sensors
         Full.current_batch Full.measurement_batches Full.all_locations
         Full.all_sensors] in H.
    destruct H as [Hd [Hcb [Hmb [Htm [Hbc [Hcp [locs [sens [Hal [Has [Hsol [Htl Hts]]]]]]]]]]]].
    rewrite Hd, Hcb, Hmb, Htm, Hbc, Hcp. cbn [disk set_counter].
    rewrite Hd2, Hd1.
    repeat (rewrite counter_set_counter || rewrite counter_set_counter_other by reflexivity).
    rewrite ?(Ho2 "total_measurements" eq_refl), ?(Ho2 "batch_count" eq_refl),
      ?(Ho2 "countries_processed" eq_refl), ?(Ho2 "total_locations" eq_refl), ?Hl2,
      ?(Ho1 "total_measurements" eq_refl), ?(Ho1 "batch_count" eq_refl),
      ?(Ho1 "countries_processed" eq_refl), ?(Ho1 "total_sensors" eq_refl), ?Hl1.
    repeat split; try reflexivity.
    + cbn [List.length]. lia.
    + exists (locations ++ locs), (sensors ++ sens).
      rewrite Hal, Has, <- !app_assoc.
      split; [reflexivity|]. split; [reflexivity|].
      split; [apply sensors_of_locations_app; assumption|].
      rewrite Htl, Hts.
      repeat (rewrite counter_set_counter || rewrite counter_set_counter_other by reflexivity).
      rewrite ?(Ho2 "total_measurements" eq_refl), ?(Ho2 "batch_count" eq_refl),
      ?(Ho2 "countries_processed" eq_refl), ?(Ho2 "total_locations" eq_refl), ?Hl2,
      ?(Ho1 "total_measurements" eq_refl), ?(Ho1 "batch_count" eq_refl),
      ?(Ho1 "countries_processed" eq_refl), ?(Ho1 "total_sensors" eq_refl), ?Hl1.
      rewrite !length_app. split; lia.
Qed.

(** What Phase 1 has gathered and counted when it returns. *)
Lemma collect_countries_agree :
  forall (server : nat -> Request -> Outcome) (fuel : nat)
         (countries : list (string * Value)) (w : World) (r' : Full.Run),
    Full.collect_countries server fuel countries (Full.run0 w) = Ret tt r' ->
    Full.sensors_of_locations (Full.all_locations r') = inr (Full.all_sensors r')
    /\ counter "total_locations" (Full.world r')
       = (counter "total_locations" w + Z.of_nat (List.length (Full.all_locations r')))%Z
    /\ counter "total_sensors" (Full.world r')
       = (counter "total_sensors" w + Z.of_nat (List.length (Full.all_sensors r')))%Z
    /\ counter "countries_processed" (Full.world r')
       = (counter "countries_processed" w + Z.of_nat (List.length countries))%Z
    /\ disk (Full.world r') = disk w.
Proof.
  intros server fuel countries w r' H.
  apply collect_countries_Ret in H.
  destruct H as [Hd [_ [_ [_ [_ [Hcp [locs [sens [Hal [Has [Hsol [Htl Hts]]]]]]]]]]]].
  cbn [Full.run0 Full.all_locations Full.all_sensors Full.world app] in *.
  subst. repeat split; assumption.
Qed.

(** X10: when Phase 1 returns, the sensors it has gathered are exactly the
    sensors extracted from the locations it has gathered, in order;
    [total_locations] and [total_sensors] have grown by the numbers of
    locations and sensors gathered, [countries_processed] by the number of
    countries; and nothing has been written. *)
Theorem phase1_sensors_and_counters_agree :
  forall (server : nat -> Request -> Outcome) (fuel : nat)
         (countries : list (string * Value)) (w : World) (r' : Full.Run),
    Full.collect_countries server fuel countries (Full.run0 w) = Ret tt r' ->
    Full.sensors_of_locations (Full.all_locations r') = inr (Full.all_sensors r')
    /\ counter "total_locations" (Full.world r')
       = (counter "total_locations" w + Z.of_nat (List.length (Full.all_locations r')))%Z
    /\ counter "total_sensors" (Full.world r')
       = (counter "total_sensors" w + Z.of_nat (List.length (Full.all_sensors r')))%Z
    /\ counter "countries_processed" (Full.world r')
       = (counter "countries_processed" w + Z.of_nat (List.length countries))%Z
    /\ disk (Full.world r') = disk w.
Proof. exact collect_countries_agree. Qed.

Lemma gets_Ret_inv {S A} (f : S -> A) (s s' : S) (a : A) :
  gets f s = Ret a s' -> a = f s /\ s' = s.
Proof. unfold gets. intros H. inversion H; subst. split; reflexivity. Qed.

Lemma save_batch_Ret (to_parquet : Filename -> list Value -> WriteResult)
      (data : list Value) (filename : Filename) (description : string) (w : World) :
  exists w',
    Full.save_batch_to_parquet to_parquet data filename description w = Ret tt w'
    /\ counters w' = counters w
    /\ (disk w' = disk w \/ exists c, disk w' = disk w ++ [(filename, c)]).
Proof.
  unfold Full.save_batch_to_parquet. destruct data as [|x data].
  - eexists. split; [reflexivity|]. split; [reflexivity | left; reflexivity].
  - destruct (to_parquet filename (x :: data)) as [|[c|]]; eexists;
      (split; [reflexivity|]); (split; [reflexivity|]);
      [right; eexists | right; eexists | left]; reflexivity.
Qed.

Lemma call_save_Ret (to_parquet : Filename -> list Value -> WriteResult)
      (data : list Value) (filename : Filename) (description : string)
      (r r' : Full.Run) :
  Full.call (Full.save_batch_to_parquet to_parquet data filename description) r
  = Ret tt r' ->
  exists w',
    r' = Full.set_world w' r
    /\ counters w' = counters (Full.world r)
    /\ (disk w' = disk (Full.world r)
        \/ exists c, disk w' = disk (Full.world r) ++ [(filename, c)]).
Proof.
  intros H. apply call_Ret_inv in H. destruct H as [w' [H ->]].
  destruct (save_batch_Ret to_parquet data filename description (Full.world r))
    as [w'' [E [Hn Hd]]].
  rewrite E in H. inversion H; subst w''. exists w'. repeat split; assumption.
Qed.

Lemma measurement_records_other (d : list (Filename * Content)) (f : Filename)
      (d' : list (Filename * Content)) :
  is_measurement_file f = false ->
  d' = d \/ (exists c, d' = d ++ [(f, c)]) ->
  measurement_records d' = measurement_records d.
Proof.
  intros Hf [-> | [c ->]]; [reflexivity|].
  rewrite measurement_records_app. destruct c; cbn; rewrite ?Hf; now rewrite app_nil_r.
Qed.

Lemma consume_futures_frame (futures : list (Value * (Exn + list Value))) :
  forall all_measurements w result w' k,
    Full.consume_futures futures all_measurements w = Ret result w' ->
    String.eqb k "current_sensor" = false ->
    String.eqb k "total_measurements" = false ->
    counter k w' = counter k w.
Proof.
  induction futures as [|[sensor_info outcome] futures IH];
    intros all_measurements w result w' k H Hk1 Hk2.
  - cbn in H. inversion H; subst. reflexivity.
  - cbn [Full.consume_futures] in H. destruct outcome as [e | measurements].
    + destruct e; try discriminate H;
        (destruct sensor_info; try discriminate H);
        unfold bind at 1, try_pure, py_get, ret in H;
        revert H; run_effects; intros H;
        rewrite (IH _ _ _ _ k H Hk1 Hk2); reflexivity.
    + revert H. run_effects. intros H.
      rewrite (IH _ _ _ _ k H Hk1 Hk2).
      now rewrite !counter_set_counter_other by assumption.
Qed.

Lemma buffer_and_maybe_save_frame (to_parquet : Filename -> list Value -> WriteResult)
      (batch_size : Z) (batch_measurements : list Value) (r r' : Full.Run) (k : string) :
  (0 < batch_size)%Z ->
  Full.buffer_and_maybe_save to_parquet batch_size batch_measurements r = Ret tt r' ->
  Full.all_locations r' = Full.all_locations r
  /\ Full.all_sensors r' = Full.all_sensors r
  /\ (String.eqb k "batch_count" = false ->
      counter k (Full.world r') = counter k (Full.world r)).
Proof.
  intros Hpos H.
  destruct (Z.leb_spec batch_size
              (Z.of_nat (List.length (Full.current_batch r ++ batch_measurements))))
    as [Hge | Hlt].
  - assert (Hne : Full.current_batch r ++ batch_measurements <> []).
    { intros E. rewrite E in Hge. cbn in Hge. lia. }
    rewrite (buffer_at_threshold to_parquet batch_size batch_measurements r Hge Hne) in H.
    inversion H; subst. cbn [Full.all_locations Full.all_sensors Full.world].
    repeat split. intros Hk. rewrite counter_set_counter_other by exact Hk.
    apply counter_after_save.
  - rewrite (buffer_below_threshold to_parquet batch_size batch_measurements r Hlt) in H.
    inversion H; subst. repeat split.
Qed.

Lemma collect_measurements_frame (to_parquet : Filename -> list Value -> WriteResult)
      (pool : nat -> list Value -> Full.PoolRun) (batch_size : Z) (sensors : list Value)
      (k : string) :
  (0 < batch_size)%Z ->
  String.eqb k "current_sensor" = false ->
  String.eqb k "total_measurements" = false ->
  String.eqb k "batch_count" = false ->
  forall iterations i r r',
    Full.collect_measurements to_parquet pool batch_size sensors iterations i r
    = Ret tt r' ->
    Full.all_locations r' = Full.all_locations r
    /\ Full.all_sensors r' = Full.all_sensors r
    /\ counter k (Full.world r') = counter k (Full.world r).
Proof.
  intros Hpos Hk1 Hk2 Hk3. induction iterations as [|n IH]; intros i r r' H.
  - cbn in H. inversion H; subst. repeat split.
  - cbn [Full.collect_measurements] in H.
    apply bind_Ret_inv in H. destruct H as [ms [r1 [Hpool H]]].
    apply call_Ret_inv in Hpool. destruct Hpool as [w1 [Hpool ->]].
    unfold Full.get_sensor_measurements_batch in Hpool.
    apply bind_Ret_inv in Hpool. destruct Hpool as [all [w1' [Hc Hpool]]].
    destruct (Full.interrupted _); [discriminate Hpool|].
    inversion Hpool; subst; clear Hpool.
    apply (consume_futures_frame _ _ _ _ _ k) in Hc; try assumption.
    apply bind_Ret_inv in H. destruct H as [[] [r2 [Hbuf H]]].
    apply (buffer_and_maybe_save_frame _ _ _ _ _ k Hpos) in Hbuf.
    destruct Hbuf as [Hal [Has Hcount]].
    apply IH in H. destruct H as [Hal' [Has' Hcount']].
    rewrite Hal', Has', Hcount', Hal, Has, (Hcount Hk3).
    cbn [Full.all_locations Full.all_sensors Full.world Full.set_world].
    repeat split. exact Hc.
Qed.

Lemma counter_write_file (k : string) (f : Filename) (c : Content) (w : World) :
  counter k (write_file f c w) = counter k w.
Proof. reflexivity. Qed.

(** X11: when the [try] body of [run_full_ingestion] runs to its end and
    every parquet write succeeds, the last file written is the summary, its
    status is "completed", its [total_measurements] is the number of records
    in the measurement files, its [total_locations] and [total_sensors] are
    the numbers of locations and sensors gathered, and it lists the
    measurement files of the run. *)
Theorem completed_run_summary_matches_files :
  forall (server : nat -> Request -> Outcome)
         (to_parquet : Filename -> list Value -> WriteResult)
         (pool : nat -> list Value -> Full.PoolRun) (batch_size : Z)
         (target_countries : list (string * Value)) (fuel : nat)
         (w : World) (r' : Full.Run),
    (0 < batch_size)%Z ->
    (forall f d, to_parquet f d = Written) ->
    counter "total_measurements" w
    = Z.of_nat (List.length (measurement_records (disk w))) ->
    Full.try_body server to_parquet pool batch_size target_countries fuel (Full.run0 w)
    = Ret tt r' ->
    Full.run_full_ingestion server to_parquet pool batch_size target_countries fuel
                            (Full.run0 w) = Ret tt r'
    /\ exists summary,
         last (disk (Full.world r')) (AllLocations, Parquet [])
         = (IngestionSummary, Json summary)
         /\ status summary = "completed"
         /\ sum_total_measurements summary
            = Z.of_nat (List.length (measurement_records (disk (Full.world r'))))
         /\ sum_total_locations summary
            = (counter "total_locations" w
               + Z.of_nat (List.length (Full.all_locations r')))%Z
         /\ sum_total_sensors summary
            = (counter "total_sensors" w
               + Z.of_nat (List.length (Full.all_sensors r')))%Z
         /\ sum_measurement_batches summary = Full.measurement_batches r'.
Proof.
  intros server to_parquet pool batch_size target_countries fuel w r' Hpos Hok Hfresh H.
  split; [unfold Full.run_full_ingestion; now rewrite H|].
  unfold Full.try_body in H.
  apply bind_Ret_inv in H. destruct H as [[] [r1 [Hphase1 H]]].
  pose proof (collect_countries_Ret _ _ _ _ _ Hphase1) as K1.
  apply collect_countries_agree in Hphase1.
  destruct Hphase1 as [_ [Htl [Hts [_ Hd1]]]].
  destruct K1 as [_ [Hcb1 [Hmb1 [Htm1 _]]]].
  cbn [Full.run0 Full.world Full.current_batch Full.measurement_batches] in *.
  apply bind_Ret_inv in H. destruct H as [locations [r1' [Hg H]]].
  apply gets_Ret_inv in Hg. destruct Hg as [-> ->].
  apply bind_Ret_inv in H. destruct H as [[] [r2 [Hsave H]]].
  apply call_save_Ret in Hsave. destruct Hsave as [w2 [-> [Hn2 Hd2]]].
  apply bind_Ret_inv in H. destruct H as [sensors [r2' [Hg H]]].
  apply gets_Ret_inv in Hg. destruct Hg as [-> ->].
  apply bind_Ret_inv in H. destruct H as [[] [r3 [Hsave H]]].
  apply call_save_Ret in Hsave. destruct Hsave as [w3 [-> [Hn3 Hd3]]].
  cbn [Full.world Full.set_world Full.all_sensors Full.all_locations] in *.
  apply bind_Ret_inv in H. destruct H as [[] [r4 [Hphase2 H]]].
  pose proof (collect_measurements_Ret to_parquet pool batch_size _ Hpos _ _ _ _ Hphase2)
    as [_ Hcount].
  specialize (Hcount Hok).
  cbn [Full.world Full.set_world Full.current_batch] in Hcount.
  rewrite Hcb1 in Hcount. cbn [app] in Hcount. rewrite app_nil_r in Hcount.
  rewrite (measurement_records_other _ AllSensors _ eq_refl Hd3) in Hcount.
  rewrite (measurement_records_other _ AllLocations _ eq_refl Hd2) in Hcount.
  rewrite Hd1 in Hcount.
  rewrite (counter_same _ _ _ Hn3), (counter_same _ _ _ Hn2), Htm1 in Hcount.
  destruct (collect_measurements_frame to_parquet pool batch_size _ "total_locations"
              Hpos eq_refl eq_refl eq_refl _ _ _ _ Hphase2) as [Hal4 [Has4 Htl4]].
  destruct (collect_measurements_frame to_parquet pool batch_size _ "total_sensors"
              Hpos eq_refl eq_refl eq_refl _ _ _ _ Hphase2) as [_ [_ Hts4]].
  cbn [Full.world Full.set_world Full.all_sensors Full.all_locations] in *.
  rewrite (counter_same _ _ _ Hn3), (counter_same _ _ _ Hn2) in Htl4.
  rewrite (counter_same _ _ _ Hn3), (counter_same _ _ _ Hn2) in Hts4.
  clear Hphase2.
  apply bind_Ret_inv in H. destruct H as [buffered [r4' [Hg H]]].
  apply gets_Ret_inv in Hg. destruct Hg as [-> ->].
  apply bind_Ret_inv in H. destruct H as [[] [r5 [Hfinal H]]].
  apply bind_Ret_inv in H. destruct H as [files [r5' [Hg H]]].
  apply gets_Ret_inv in Hg. destruct Hg as [-> ->].
  apply call_Ret_inv in H. destruct H as [w6 [H ->]].
  unfold Full.create_ingestion_summary, modify in H. inversion H; subst w6; clear H.
  cbn [Full.world Full.set_world Full.all_locations Full.all_sensors
       Full.measurement_batches disk write_file].
  eexists. split; [apply last_last|]. cbn [status sum_total_measurements
    sum_total_locations sum_total_sensors sum_measurement_batches].
  rewrite measurement_records_app. cbn [measurement_records flat_map]. rewrite !app_nil_r.
  destruct (Full.current_batch r4) as [|x buffered] eqn:Ebuf.
  - cbn in Hfinal. inversion Hfinal; subst r5; clear Hfinal.
    rewrite app_nil_r in Hcount.
    rewrite Hal4, Has4, Htl4, Hts4, Htl, Hts.
    repeat split; try reflexivity. lia.
  - apply bind_Ret_inv in Hfinal. destruct Hfinal as [[] [r6 [Hsave Hfinal]]].
    apply call_Ret_inv in Hsave. destruct Hsave as [w6 [Hsave ->]].
    unfold Full.save_batch_to_parquet in Hsave. rewrite Hok in Hsave.
    unfold modify in Hsave. inversion Hsave; subst w6; clear Hsave.
    revert Hfinal. unfold bind, modify, Full.call, incr, modify. intros Hfinal.
    inversion Hfinal; subst r5; clear Hfinal.
    cbn [Full.world Full.set_world Full.all_locations Full.all_sensors
         Full.set_measurement_batches Full.measurement_batches disk set_counter
         write_file].
    rewrite measurement_records_app. cbn [measurement_records flat_map is_measurement_file].
    rewrite !app_nil_r.
    repeat (rewrite counter_set_counter_other by reflexivity).
    rewrite !counter_write_file.
    rewrite length_app in *.
    rewrite Hal4, Has4, Htl4, Hts4, Htl, Hts.
    repeat split; try reflexivity. lia.
Qed.

Lemma phase1_sensors_and_counters_agree_witness :
  Full.sensors_of_locations (Full.all_locations after_phase1)
  = inr (Full.all_sensors after_phase1)
  /\ counter "total_locations" (Full.world after_phase1)
     = (counter "total_locations" world0
        + Z.of_nat (List.length (Full.all_locations after_phase1)))%Z
  /\ counter "total_sensors" (Full.world after_phase1)
     = (counter "total_sensors" world0
        + Z.of_nat (List.length (Full.all_sensors after_phase1)))%Z
  /\ counter "countries_processed" (Full.world after_phase1)
     = (counter "countries_processed" world0 + Z.of_nat (List.length two_countries))%Z
  /\ disk (Full.world after_phase1) = disk world0.
Proof.
  apply (phase1_sensors_and_counters_agree
           (paged_api [busy_location]) 5 two_countries world0 after_phase1).
  vm_compute. reflexivity.
Defined.

Lemma completed_run_summary_matches_files_witness :
  Full.run_full_ingestion (paged_api [busy_location]) always_written steady_pool 150
                          two_countries 5 (Full.run0 world0) = Ret tt completed_run
  /\ exists summary,
       last (disk (Full.world completed_run)) (AllLocations, Parquet [])
       = (IngestionSummary, Json summary)
       /\ status summary = "completed"
       /\ sum_total_measurements summary
          = Z.of_nat (List.length (measurement_records (disk (Full.world completed_run))))
       /\ sum_total_locations summary
          = (counter "total_locations" world0
             + Z.of_nat (List.length (Full.all_locations completed_run)))%Z
       /\ sum_total_sensors summary
          = (counter "total_sensors" world0
             + Z.of_nat (List.length (Full.all_sensors completed_run)))%Z
       /\ sum_measurement_batches summary = Full.measurement_batches completed_run.
Proof.
  apply (completed_run_summary_matches_files
           (paged_api [busy_location]) always_written steady_pool 150
           two_countries 5 world0 completed_run).
  - lia.
  - reflexivity.
  - reflexivity.
  - vm_compute. reflexivity.
Defined.

(** The summary of [completed_run]: 2 locations, 102 sensors, 204
    measurements in a batch file of 200 records and a final file of 4. *)
Example completed_run_summary :
  last (disk (Full.world completed_run)) (AllLocations, Parquet [])
  = (IngestionSummary,
     Json (mkSummary "completed" 2 102 204 2 [MeasurementsBatch 0; MeasurementsFinal])).
Proof. reflexivity. Qed.

(* ===================================================================== *)
(** ** Failures during Phase 1 *)
(* ===================================================================== *)

Section Keeps.
Context {S D : Type} (d : S -> D).

Lemma keeps_bind {A B} (m : M S A) (k : A -> M S B) :
  keeps d m -> (forall a, keeps d (k a)) -> keeps d (bind m k).
Proof.
  intros Hm Hk s. unfold bind. specialize (Hm s).
  destruct (m s) as [a s'|e s'|]; try assumption.
  specialize (Hk a s'). destruct (k a s'); try assumption; congruence.
Qed.

Lemma keeps_ret {A} (a : A) : keeps d (ret a).
Proof. intros s. reflexivity. Qed.

Lemma keeps_raise {A} (e : Exn) : keeps d (@raise S A e).
Proof. intros s. reflexivity. Qed.

Lemma keeps_try_pure {A} (x : Exn + A) : keeps d (try_pure x).
Proof. destruct x; [apply keeps_raise | apply keeps_ret]. Qed.

Lemma keeps_modify (f : S -> S) : (forall s, d (f s) = d s) -> keeps d (modify f).
Proof. intros H s. apply H. Qed.

Lemma keeps_gets {A} (f : S -> A) : keeps d (gets f).
Proof. intros s. reflexivity. Qed.
End Keeps.

Lemma keeps_call {D A} (d : World -> D) (m : M World A) :
  keeps d m -> keeps (fun r => d (Full.world r)) (Full.call m).
Proof.
  intros H r. unfold Full.call. specialize (H (Full.world r)).
  destruct (m (Full.world r)); exact H.
Qed.

Lemma keeps_disk_make_request (server : nat -> Request -> Outcome) (r : Request)
      (retries : nat) :
  keeps disk (Full.make_request server r retries).
Proof.
  intros w. pose proof (full_make_request_ends server r retries w) as B.
  destruct (Full.make_request server r retries w) as [v w'|e w'|]; [tauto| |exact I].
  destruct e; try contradiction. tauto.
Qed.

Lemma keeps_disk_locations_loop (server : nat -> Request -> Outcome) (country_id : Value)
      (limit : nat) :
  forall fuel page locations,
    keeps disk (Full.locations_loop server fuel country_id limit page locations).
Proof.
  induction fuel as [|fuel IH]; intros page locations; [intros w; exact I|].
  cbn [Full.locations_loop].
  apply keeps_bind; [apply keeps_disk_make_request|]. intros response.
  destruct (py_not response).
  - apply keeps_bind; [apply keeps_modify; reflexivity | intros; apply keeps_ret].
  - apply keeps_bind; [apply keeps_try_pure|]. intros results.
    destruct (py_not results); [apply keeps_ret|].
    apply keeps_bind; [apply keeps_try_pure|]. intros items.
    apply keeps_bind; [apply keeps_try_pure|]. intros n.
    destruct (n <? limit); [apply keeps_ret | apply IH].
Qed.

Lemma keeps_disk_collect_countries (server : nat -> Request -> Outcome) (fuel : nat) :
  forall countries,
    keeps (fun r => disk (Full.world r)) (Full.collect_countries server fuel countries).
Proof.
  induction countries as [|[country_name country_id] countries IH];
    [apply keeps_ret|].
  cbn [Full.collect_countries].
  apply keeps_bind.
  { apply keeps_call. unfold Full.get_all_locations_for_country.
    apply keeps_bind; [apply keeps_disk_locations_loop|]. intros locations.
    apply keeps_bind; [apply keeps_modify; reflexivity | intros; apply keeps_ret]. }
  intros locations.
  apply keeps_bind; [apply keeps_modify; reflexivity|]. intros _.
  apply keeps_bind.
  { apply keeps_call. unfold Full.extract_sensors_from_locations.
    apply keeps_bind; [apply keeps_try_pure|]. intros sensors.
    apply keeps_bind; [apply keeps_modify; reflexivity | intros; apply keeps_ret]. }
  intros sensors.
  apply keeps_bind; [apply keeps_modify; reflexivity|]. intros _.
  apply keeps_bind; [apply keeps_call, keeps_modify; reflexivity|]. intros _.
  exact IH.
Qed.

(** X12: when Phase 1 of [run_full_ingestion] raises (a location that is
    not a mapping, a null [sensors] entry, a page body that is not an
    object, ...), the error is logged as fatal and raised again, and the run
    ends without having written any file: neither the locations already
    fetched nor a summary. *)
Theorem failure_in_phase1_saves_nothing :
  forall (server : nat -> Request -> Outcome)
         (to_parquet : Filename -> list Value -> WriteResult)
         (pool : nat -> list Value -> Full.PoolRun) (batch_size : Z)
         (target_countries : list (string * Value)) (fuel : nat)
         (w : World) (e : Exn) (r1 : Full.Run),
    Full.collect_countries server fuel target_countries (Full.run0 w) = Raise e r1 ->
    e <> KeyboardInterrupt ->
    exists r',
      Full.run_full_ingestion server to_parquet pool batch_size target_countries fuel
                              (Full.run0 w) = Raise e r'
      /\ disk (Full.world r') = disk w
      /\ trace (Full.world r') = trace (Full.world r1) ++ [EvLog ERROR (FatalError e)].
Proof.
  intros server to_parquet pool batch_size target_countries fuel w e r1 Hphase1 Hne.
  pose proof (keeps_disk_collect_countries server fuel target_countries (Full.run0 w))
    as Hdisk.
  rewrite Hphase1 in Hdisk. cbn [Full.run0 Full.world] in Hdisk.
  unfold Full.run_full_ingestion, Full.try_body.
  rewrite (bind_Raise _ _ _ _ _ Hphase1).
  destruct e; try contradiction; eexists; (split; [reflexivity|]);
    cbn; split; try assumption; reflexivity.
Qed.

Lemma failure_in_phase1_saves_nothing_witness :
  exists r',
    Full.run_full_ingestion (paged_api [busy_location; broken_location]) always_written
                            steady_pool 150 two_countries 5 (Full.run0 world0)
    = Raise TypeError r'
    /\ disk (Full.world r') = disk world0
    /\ trace (Full.world r')
       = trace (Full.world broken_phase1) ++ [EvLog ERROR (FatalError TypeError)].
Proof.
  apply (failure_in_phase1_saves_nothing
           (paged_api [busy_location; broken_location]) always_written steady_pool 150
           two_countries 5 world0 TypeError broken_phase1).
  - vm_compute. reflexivity.
  - discriminate.
Defined.

(** [broken_run] fetches both locations, fails on the second one while it
    extracts the sensors of the first country, and leaves an empty disk. *)
Example broken_run_result :
  exists r, broken_run = Raise TypeError r
            /\ disk (Full.world r) = []
            /\ calls (Full.world r) = 1
            /\ counter "total_locations" (Full.world r) = 2%Z.
Proof. eexists. split; [vm_compute; reflexivity|]. repeat split; reflexivity. Qed.

(* ===================================================================== *)
(** ** The Nepal run *)
(* ===================================================================== *)

(** X13: how [run_nepal_ingestion] ends early.  When every attempt at the
    first page of locations fails, the run ends normally after exactly
    [max_retries] calls with the error "no locations" logged and no file
    written.  When locations were fetched but hold no sensor at all, the run
    ends normally with the error "no sensors" logged, having written at most
    the locations file and made no further call. *)
Theorem nepal_run_stops_without_locations_or_sensors :
  forall (server server' : nat -> Request -> Outcome) (isoformat_now : nat -> Value)
         (to_parquet : Filename -> list Value -> WriteResult) (batch_size : Z) (fuel : nat)
         (locations : list Value) (w w1 : World),
    (forall k, k < Nepal.max_retries ->
       failed (server (calls w + k)
                      (mkRequest Locations [("countries_id", Nepal.nepal_country_id);
                                            ("page", VNat 1);
                                            ("limit", VNat 1000)])) = true) ->
    Nepal.get_nepal_locations server' fuel w = Ret locations w1 ->
    locations <> [] ->
    Nepal.sensors_of_locations locations = inr [] ->
    (exists w',
        Nepal.run_nepal_ingestion server isoformat_now to_parquet batch_size (S fuel) w
        = Ret tt w'
        /\ calls w' = calls w + Nepal.max_retries
        /\ disk w' = disk w
        /\ last (trace w') EvDelay = EvLog ERROR NoLocationsAborting)
    /\ (exists w',
          Nepal.run_nepal_ingestion server' isoformat_now to_parquet batch_size fuel w
          = Ret tt w'
          /\ calls w' = calls w1
          /\ disk w'
             = match to_parquet (NepalPartition "locations" None) locations with
               | Written =>
                   disk w1 ++ [(NepalPartition "locations" None, Parquet locations)]
               | Failed left_behind =>
                   disk (leave_file (NepalPartition "locations" None) left_behind w1)
               end
          /\ last (trace w') EvDelay = EvLog ERROR NoSensorsAborting).
Proof.
  intros server server' isoformat_now to_parquet batch_size fuel locations w w1
         Hfail Hloc Hne Hsens.
  split.
  - destruct (nepal_all_failed server _ Nepal.max_retries Nepal.max_retries 0 w Hfail)
      as [w2 [He Hc]].
    pose proof (nepal_make_request_ends server
                  (mkRequest Locations [("countries_id", Nepal.nepal_country_id);
                                        ("page", VNat 1);
                                        ("limit", VNat 1000)]) w) as B.
    unfold Nepal.make_request_with_retry in B. rewrite He in B.
    destruct B as [_ [Hd _]].
    assert (Hloop : Nepal.get_nepal_locations server (S fuel) w
                    = Ret [] (record_event (EvLog ERROR (FailedLocationsPage 1)) w2)).
    { unfold Nepal.get_nepal_locations. cbn [Nepal.locations_loop].
      unfold Nepal.make_request_with_retry. rewrite (bind_Ret _ _ _ _ _ He).
      reflexivity. }
    unfold Nepal.run_nepal_ingestion, Nepal.try_body.
    rewrite (bind_Ret _ _ _ _ _ Hloop). run_effects.
    eexists. split; [reflexivity|].
    cbn [calls disk trace record_event]. repeat split; try assumption.
    apply last_last.
  - unfold Nepal.run_nepal_ingestion, Nepal.try_body.
    rewrite (bind_Ret _ _ _ _ _ Hloc).
    destruct locations as [|location locations]; [contradiction|].
    unfold Nepal.extract_sensors_from_locations, Nepal.save_to_parquet_partitioned.
    destruct (to_parquet (NepalPartition "locations" None) (location :: locations))
      as [|[c|]];
      run_effects; rewrite Hsens; cbn [try_pure]; run_effects;
      (eexists; split; [reflexivity|]);
      cbn [calls disk trace record_event set_counter write_file leave_file];
      (split; [reflexivity|]); (split; [reflexivity | apply last_last]).
Qed.

Lemma nepal_run_stops_without_locations_or_sensors_witness :
  (exists w',
      Nepal.run_nepal_ingestion (script []) sample_now always_written
                                Nepal.initial_batch_size 5 world0
      = Ret tt w'
      /\ calls w' = calls world0 + Nepal.max_retries
      /\ disk w' = disk world0
      /\ last (trace w') EvDelay = EvLog ERROR NoLocationsAborting)
  /\ (exists w',
        Nepal.run_nepal_ingestion (paged_api [bare_location]) sample_now always_written
                                  Nepal.initial_batch_size 4 world0
        = Ret tt w'
        /\ calls w' = calls nepal_after_locations
        /\ disk w'
           = match always_written (NepalPartition "locations" None) [bare_location] with
             | Written =>
                 disk nepal_after_locations
                   ++ [(NepalPartition "locations" None, Parquet [bare_location])]
             | Failed left_behind =>
                 disk (leave_file (NepalPartition "locations" None) left_behind
                                  nepal_after_locations)
             end
        /\ last (trace w') EvDelay = EvLog ERROR NoSensorsAborting).
Proof.
  apply (nepal_run_stops_without_locations_or_sensors
           (script []) (paged_api [bare_location]) sample_now always_written
           Nepal.initial_batch_size 4 [bare_location] world0 nepal_after_locations).
  - intros k Hk. unfold script. destruct k; reflexivity.
  - vm_compute. reflexivity.
  - discriminate.
  - reflexivity.
Defined.

Lemma nepal_make_request_success (server : nat -> Request -> Outcome) (r : Request)
      (w : World) (status_code : Z) (body : Value) :
  server (calls w) r = Response status_code (Some body) ->
  raise_for_status status_code = false ->
  Nepal.make_request_with_retry server r w
  = Ret body (record_event EvDelay (record_call r w)).
Proof.
  intros Hs Hok. unfold Nepal.make_request_with_retry, Nepal.max_retries.
  cbn [Nepal.make_request_from].
  unfold bind at 1, requests_get. rewrite Hs, Hok. reflexivity.
Qed.

Lemma describe_sized_locations (locations : list Value) :
  forallb sized_location locations = true ->
  Nepal.describe_locations locations = inr tt.
Proof.
  induction locations as [|location locations IH]; [reflexivity|].
  cbn [forallb]. intros H. apply andb_prop in H. destruct H as [Hl Hrest].
  cbn [Nepal.describe_locations]. rewrite (IH Hrest).
  unfold sized_location in Hl. destruct location; try discriminate Hl.
  unfold Nepal.describe_location. cbn [py_get ebind].
  destruct (get d "sensors" (VList [])); try discriminate Hl; reflexivity.
Qed.

Lemma forallb_firstn {A} (f : A -> bool) (n : nat) (l : list A) :
  forallb f l = true -> forallb f (firstn n l) = true.
Proof.
  revert n. induction l as [|x l IH]; intros n H; destruct n; try reflexivity.
  cbn in *. apply andb_prop in H. destruct H as [-> H]. now apply IH.
Qed.

Lemma forallb_skipn {A} (f : A -> bool) (n : nat) (l : list A) :
  forallb f l = true -> forallb f (skipn n l) = true.
Proof.
  revert n. induction l as [|x l IH]; intros n H; destruct n; try assumption;
    try reflexivity.
  cbn in *. apply andb_prop in H. destruct H as [_ H]. now apply IH.
Qed.

Lemma nepal_paged_api_locations (stream : list Value) (n : nat) (limit page : nat) :
  paged_api stream n (mkRequest Locations [("countries_id", Nepal.nepal_country_id);
                                          ("page", VNat page);
                                          ("limit", VNat limit)])
  = Response 200 (Some (VDict [("meta", VDict [("page", VNat page); ("limit", VNat limit)]);
                               ("results", VList (page_of stream limit page))])).
Proof. apply paged_api_locations. Qed.

Lemma nepal_locations_loop_paged (stream : list Value) (L : nat) :
  1 <= L ->
  forallb sized_location stream = true ->
  forall fuel page locations w,
    1 <= page ->
    List.length (skipn ((page - 1) * L) stream) / L + 1 <= fuel ->
    exists w',
      Nepal.locations_loop (paged_api stream) fuel L page locations w
      = Ret (locations ++ skipn ((page - 1) * L) stream) w'
      /\ calls w' = calls w + (List.length (skipn ((page - 1) * L) stream) / L + 1)
      /\ counter "locations_processed" w'
         = (counter "locations_processed" w
            + Z.of_nat (List.length (skipn ((page - 1) * L) stream)))%Z
      /\ disk w' = disk w.
Proof.
  intros HL Hsized. induction fuel as [|fuel IH]; intros page locations w Hp Hfuel; [lia|].
  cbn [Nepal.locations_loop].
  unfold bind at 1.
  erewrite nepal_make_request_success; [| apply nepal_paged_api_locations | reflexivity].
  cbn [py_not truthy negb].
  unfold bind at 1, try_pure, py_get, get, ret at 1. cbn [lookup String.eqb Ascii.eqb Bool.eqb].
  unfold page_of.
  assert (Hrest : forallb sized_location (skipn ((page - 1) * L) stream) = true)
    by (apply forallb_skipn; exact Hsized).
  set (rest := skipn ((page - 1) * L) stream) in *.
  destruct (firstn L rest) as [|x items] eqn:Efirst.
  - apply firstn_nil_inv in Efirst; [|exact HL].
    rewrite Efirst. cbn [py_not truthy negb]. unfold ret.
    eexists; split; [now rewrite app_nil_r |].
    cbn [List.length calls disk record_event record_call]. rewrite Nat.Div0.div_0_l.
    rewrite !counter_record_event, counter_record_call. repeat split; lia.
  - cbn [py_not truthy negb]. rewrite <- Efirst.
    unfold bind at 1, try_pure, py_iter, ret at 1.
    unfold bind at 1, try_pure, py_len, ret at 1.
    unfold bind at 1, incr, modify.
    rewrite (describe_sized_locations (firstn L rest))
      by (apply forallb_firstn; exact Hrest).
    unfold bind at 1, try_pure, ret at 1.
    rewrite length_firstn.
    destruct (Nat.min L (List.length rest) <? L) eqn:Eshort.
    + apply Nat.ltb_lt in Eshort.
      rewrite firstn_all2 by lia. unfold ret.
      eexists; split; [reflexivity|].
      rewrite Nat.div_small by lia.
      cbn [calls disk record_event record_call set_counter].
      rewrite counter_set_counter, !counter_record_event, counter_record_call.
      repeat split; lia.
    + apply Nat.ltb_ge in Eshort.
      assert (Hlen : L <= List.length rest) by lia.
      assert (Hskip : skipn ((S page - 1) * L) stream = skipn L rest).
      { unfold rest. rewrite skipn_skipn. f_equal. nia. }
      assert (Hdiv : List.length rest / L = List.length (skipn L rest) / L + 1).
      { rewrite length_skipn.
        replace (List.length rest) with ((List.length rest - L) + 1 * L) at 1 by lia.
        now rewrite Nat.div_add by lia. }
      match goal with
      | |- exists w', Nepal.locations_loop _ _ _ _ _ ?w1 = _ /\ _ =>
          destruct (IH (S page) (locations ++ firstn L rest) w1) as [w' [He [Hc [Hn Hd]]]];
            [lia | rewrite Hskip; lia |]
      end.
      exists w'. split.
      * rewrite He, Hskip, <- app_assoc, firstn_skipn. reflexivity.
      * rewrite Hc, Hn, Hd, Hskip.
        cbn [calls disk record_event record_call set_counter].
        rewrite counter_set_counter, !counter_record_event, counter_record_call.
        pose proof (length_skipn L rest) as Hlen2.
        repeat split; lia.
Qed.

(** X14: on an API that serves a stream of locations consistently,
    [get_nepal_locations] (run with enough fuel) returns the whole stream
    after [n / 1000 + 1] requests and adds [n] to [locations_processed],
    provided the script can describe every location in its log (each is a
    mapping whose [sensors] entry, if any, has a length).  If the first
    location fetched cannot be described (its [sensors] entry is null, say),
    the exception raised while the log record is formatted leaves
    [get_nepal_locations] after the one call. *)
Theorem nepal_locations_are_fetched_and_counted :
  forall (stream stream' : list Value) (location : Value) (e : Exn) (fuel : nat)
         (w : World),
    forallb sized_location stream = true ->
    List.length stream / 1000 + 1 <= fuel ->
    Nepal.describe_location location = inl e ->
    (exists w',
        Nepal.get_nepal_locations (paged_api stream) fuel w = Ret stream w'
        /\ calls w' = calls w + expected_requests (List.length stream) 1000
        /\ counter "locations_processed" w'
           = (counter "locations_processed" w + Z.of_nat (List.length stream))%Z
        /\ disk w' = disk w)
    /\ (exists w',
          Nepal.get_nepal_locations (paged_api (location :: stream')) (S fuel) w
          = Raise e w'
          /\ calls w' = S (calls w)).
Proof.
  intros stream stream' location e fuel w Hsized Hfuel Hbad.
  split.
  - rewrite expected_requests_floor by lia.
    destruct (nepal_locations_loop_paged stream 1000 ltac:(lia) Hsized fuel 1 [] w)
      as [w' [He [Hc [Hn Hd]]]]; [lia | exact Hfuel |].
    exists w'. cbn [Nat.sub Nat.mul skipn app] in *.
    unfold Nepal.get_nepal_locations. repeat split; assumption.
  - unfold Nepal.get_nepal_locations. cbn [Nepal.locations_loop].
    unfold bind at 1.
    erewrite nepal_make_request_success; [| apply nepal_paged_api_locations | reflexivity].
    cbn [py_not truthy negb].
    unfold bind at 1, try_pure, py_get, get, ret at 1.
    cbn [lookup String.eqb Ascii.eqb Bool.eqb].
    unfold page_of. cbn [Nat.sub Nat.mul skipn].
    change (firstn 1000 (location :: stream')) with (location :: firstn 999 stream').
    cbn [py_not truthy negb].
    unfold bind at 1, try_pure, py_iter, ret at 1.
    unfold bind at 1, try_pure, py_len, ret at 1.
    unfold bind at 1, incr, modify.
    cbn [Nepal.describe_locations]. rewrite Hbad. cbn [ebind].
    unfold bind at 1, try_pure, raise.
    eexists. split; reflexivity.
Qed.

Lemma nepal_locations_are_fetched_and_counted_witness :
  (exists w',
      Nepal.get_nepal_locations (paged_api [bare_location; busy_location]) 1 world0
      = Ret [bare_location; busy_location] w'
      /\ calls w' = calls world0
                    + expected_requests (List.length [bare_location; busy_location]) 1000
      /\ counter "locations_processed" w'
         = (counter "locations_processed" world0
            + Z.of_nat (List.length [bare_location; busy_location]))%Z
      /\ disk w' = disk world0)
  /\ (exists w',
        Nepal.get_nepal_locations (paged_api (broken_location :: [busy_location])) 2 world0
        = Raise TypeError w'
        /\ calls w' = S (calls world0)).
Proof.
  apply (nepal_locations_are_fetched_and_counted
           [bare_location; busy_location] [busy_location] broken_location TypeError
           1 world0).
  - reflexivity.
  - cbn. lia.
  - reflexivity.
Defined.

(** ** The fields flattening leaves alone *)

Lemma get_update_other (kvs d : Dict) (k : string) (default : Value) :
  not_among (map fst kvs) k = true ->
  get (update d kvs) k default = get d k default.
Proof.
  unfold update, not_among. revert d.
  induction kvs as [|[k' v] kvs IH]; intros d H; [reflexivity|].
  cbn [map fst existsb] in H. rewrite negb_orb in H. apply andb_prop in H.
  destruct H as [Hk Hrest]. cbn [fold_left fst snd].
  rewrite (IH _ Hrest). rewrite get_setitem.
  apply negb_true_iff in Hk. now rewrite Hk.
Qed.

Lemma full_context_columns_keys (sensor_id sensor_info : Value) (columns : Dict) :
  Full.context_columns sensor_id sensor_info = inr columns ->
  map fst columns ++ ["ingestion_timestamp"] = full_columns.
Proof.
  unfold Full.context_columns.
  repeat match goal with
         | |- context [ebind ?x _] => destruct x as [?e|?v]; cbn [ebind];
                                      [discriminate|]
         end.
  intros H. inversion H; subst. reflexivity.
Qed.

Lemma basic_context_columns_keys (sensor_id sensor_info : Value) (columns : Dict) :
  Basic.context_columns sensor_id sensor_info = inr columns ->
  map fst columns = basic_columns.
Proof.
  unfold Basic.context_columns.
  repeat match goal with
         | |- context [ebind ?x _] => destruct x as [?e|?v]; cbn [ebind];
                                      [discriminate|]
         end.
  intros H. inversion H; subst. reflexivity.
Qed.

Lemma nepal_context_columns_keys (sensor_id sensor_name parameter_name location_name
                                  sensor_info : Value) (columns : Dict) :
  Nepal.context_columns sensor_id sensor_name parameter_name location_name sensor_info
  = inr columns ->
  map fst columns = nepal_columns.
Proof.
  unfold Nepal.context_columns.
  repeat match goal with
         | |- context [ebind ?x _] => destruct x as [?e|?v]; cbn [ebind];
                                      [discriminate|]
         end.
  intros H. inversion H; subst. reflexivity.
Qed.

(** X15: flattening a measurement changes no field of the raw record other
    than the columns it sets: under any key that is none of those columns
    (11 in the full-scale script, 6 in the basic one, 8 in the Nepal one)
    the flat record reads what the raw record read. *)
Theorem flattening_keeps_the_other_fields :
  forall (isoformat_now : nat -> Value)
         (sensor_id sensor_name parameter_name location_name sensor_info : Value)
         (m : Dict) (w w' : World) (flat_full flat_basic flat_nepal : Value)
         (k_full k_basic k_nepal : string) (default : Value),
    Full.update_measurement isoformat_now sensor_id sensor_info (VDict m) w
    = Ret flat_full w' ->
    Basic.update_measurement sensor_id sensor_info (VDict m) = inr flat_basic ->
    Nepal.update_measurement sensor_id sensor_name parameter_name location_name
                             sensor_info (VDict m) = inr flat_nepal ->
    not_among full_columns k_full = true ->
    not_among basic_columns k_basic = true ->
    not_among nepal_columns k_nepal = true ->
    py_get flat_full k_full default = inr (get m k_full default)
    /\ py_get flat_basic k_basic default = inr (get m k_basic default)
    /\ py_get flat_nepal k_nepal default = inr (get m k_nepal default).
Proof.
  intros isoformat_now sensor_id sensor_name parameter_name location_name sensor_info
         m w w' flat_full flat_basic flat_nepal k_full k_basic k_nepal default
         Hfull Hbasic Hnepal Hkf Hkb Hkn.
  split; [|split].
  - unfold Full.update_measurement in Hfull.
    destruct (Full.context_columns sensor_id sensor_info) as [e|columns] eqn:Ec;
      [discriminate Hfull|].
    cbn in Hfull. inversion Hfull; subst.
    cbn [py_get]. f_equal. apply get_update_other.
    rewrite map_app. cbn [map fst].
    now rewrite (full_context_columns_keys _ _ _ Ec).
  - unfold Basic.update_measurement in Hbasic.
    destruct (Basic.context_columns sensor_id sensor_info) as [e|columns] eqn:Ec;
      [discriminate Hbasic|].
    cbn in Hbasic. inversion Hbasic; subst.
    cbn [py_get]. f_equal. apply get_update_other.
    now rewrite (basic_context_columns_keys _ _ _ Ec).
  - unfold Nepal.update_measurement in Hnepal.
    destruct (Nepal.context_columns sensor_id sensor_name parameter_name location_name
                                    sensor_info) as [e|columns] eqn:Ec;
      [discriminate Hnepal|].
    cbn in Hnepal. inversion Hnepal; subst.
    cbn [py_get]. f_equal. apply get_update_other.
    now rewrite (nepal_context_columns_keys _ _ _ _ _ _ Ec).
Qed.

Lemma flattening_keeps_the_other_fields_witness :
  py_get sample_flat_full "value" VNone = inr (get sample_measurement "value" VNone)
  /\ py_get sample_flat_basic "timezone" VNone
     = inr (get sample_measurement "timezone" VNone)
  /\ py_get sample_flat_nepal "value" VNone = inr (get sample_measurement "value" VNone).
Proof.
  apply (flattening_keeps_the_other_fields
           sample_now (VInt 7) (VStr "pm25") (VStr "Unknown") (VStr "Kathmandu")
           (VDict sample_sensor_info) sample_measurement world0 (tick world0)
           sample_flat_full sample_flat_basic sample_flat_nepal
           "value" "timezone" "value" VNone); reflexivity.
Defined.

(** ** Sensor extraction *)

Lemma full_sensors_of_location_proper (d : Dict) (sensors : list Value) :
  forallb is_mapping sensors = true ->
  exists records,
    Full.sensors_of_location (VDict d) sensors = inr records
    /\ record_pairs records
       = map (fun sensor => (get d "id" VNone, field "id" sensor)) sensors.
Proof.
  induction sensors as [|sensor rest IH]; intros H.
  - exists []. split; reflexivity.
  - cbn [forallb] in H. apply andb_prop in H. destruct H as [Hs Hrest].
    destruct (IH Hrest) as [records [He Hp]].
    destruct sensor; try discriminate Hs.
    cbn [Full.sensors_of_location]. unfold Full.sensor_info_of.
    cbn [py_get ebind]. rewrite He. cbn [ebind].
    eexists; split; [reflexivity|].
    unfold record_pairs in *. cbn [map]. rewrite Hp. reflexivity.
Qed.

Lemma basic_sensors_of_location_proper (d : Dict) (sensors : list Value) :
  forallb is_mapping sensors = true ->
  exists records,
    Basic.sensors_of_location (VDict d) sensors = inr records
    /\ record_pairs records
       = map (fun sensor => (get d "id" VNone, field "id" sensor)) sensors.
Proof.
  induction sensors as [|sensor rest IH]; intros H.
  - exists []. split; reflexivity.
  - cbn [forallb] in H. apply andb_prop in H. destruct H as [Hs Hrest].
    destruct (IH Hrest) as [records [He Hp]].
    destruct sensor; try discriminate Hs.
    cbn [Basic.sensors_of_location]. unfold Basic.sensor_info_of.
    cbn [py_get ebind]. rewrite He. cbn [ebind].
    eexists; split; [reflexivity|].
    unfold record_pairs in *. cbn [map]. rewrite Hp. reflexivity.
Qed.

Lemma record_pairs_length (sensors : list Value) :
  List.length (record_pairs sensors) = List.length sensors.
Proof. apply length_map. Qed.

Lemma listed_pairs_length (locations : list Value) :
  List.length (listed_pairs locations) = list_sum (map sensor_count locations).
Proof.
  induction locations as [|location rest IH]; [reflexivity|].
  unfold listed_pairs in *. cbn [flat_map map list_sum].
  rewrite length_app, length_map, IH. f_equal.
  unfold listed_sensors, sensor_count.
  destruct location; try reflexivity.
  now destruct (get d "sensors" (VList [])).
Qed.

Lemma full_sensors_of_locations_proper (locations : list Value) :
  forallb proper_location locations = true ->
  exists records,
    Full.sensors_of_locations locations = inr records
    /\ record_pairs records = listed_pairs locations.
Proof.
  induction locations as [|location rest IH]; intros H.
  - exists []. split; reflexivity.
  - cbn [forallb] in H. apply andb_prop in H. destruct H as [Hl Hrest].
    destruct (IH Hrest) as [more [He Hp]].
    destruct location as [| | | | | |d]; try discriminate Hl.
    cbn [proper_location] in Hl.
    cbn [Full.sensors_of_locations py_get].
    unfold listed_pairs in *. cbn [flat_map listed_sensors field].
    destruct (get d "sensors" (VList [])) as [| | | | |sensors|]; try discriminate Hl.
    destruct (full_sensors_of_location_proper d sensors Hl) as [here [Hh Hq]].
    cbn [py_iter ebind]. rewrite Hh. cbn [ebind]. rewrite He. cbn [ebind].
    eexists; split; [reflexivity|].
    unfold record_pairs in *. rewrite map_app, Hq, Hp. reflexivity.
Qed.

Lemma basic_extract_sensors_proper (locations : list Value) :
  forallb proper_location locations = true ->
  exists records,
    Basic.extract_sensors_from_locations locations = inr records
    /\ record_pairs records = listed_pairs locations.
Proof.
  induction locations as [|location rest IH]; intros H.
  - exists []. split; reflexivity.
  - cbn [forallb] in H. apply andb_prop in H. destruct H as [Hl Hrest].
    destruct (IH Hrest) as [more [He Hp]].
    destruct location as [| | | | | |d]; try discriminate Hl.
    cbn [proper_location] in Hl.
    cbn [Basic.extract_sensors_from_locations py_get].
    unfold listed_pairs in *. cbn [flat_map listed_sensors field].
    destruct (get d "sensors" (VList [])) as [| | | | |sensors|]; try discriminate Hl.
    destruct (basic_sensors_of_location_proper d sensors Hl) as [here [Hh Hq]].
    cbn [py_iter ebind]. rewrite Hh. cbn [ebind]. rewrite He. cbn [ebind].
    eexists; split; [reflexivity|].
    unfold record_pairs in *. rewrite map_app, Hq, Hp. reflexivity.
Qed.

(** X16: from locations each of which is a mapping whose [sensors] entry is
    a list of mappings (or is missing), [extract_sensors_from_locations] of
    the full-scale and of the basic script return one record per listed
    sensor, in the order of the locations and of their sensors, each
    carrying the id of its sensor and of its location; the full-scale one
    adds their number to [stats['total_sensors']] and changes nothing else. *)
Theorem extraction_gives_one_record_per_sensor :
  forall (locations : list Value) (w : World),
    forallb proper_location locations = true ->
    exists full_sensors basic_sensors : list Value,
      Full.extract_sensors_from_locations locations w
      = Ret full_sensors
            (set_counter "total_sensors"
                         (counter "total_sensors" w
                          + Z.of_nat (list_sum (map sensor_count locations)))%Z w)
      /\ Basic.extract_sensors_from_locations locations = inr basic_sensors
      /\ record_pairs full_sensors = listed_pairs locations
      /\ record_pairs basic_sensors = listed_pairs locations.
Proof.
  intros locations w H.
  destruct (full_sensors_of_locations_proper locations H) as [fs [Hf Hfp]].
  destruct (basic_extract_sensors_proper locations H) as [bs [Hb Hbp]].
  exists fs, bs. repeat split; try assumption.
  unfold Full.extract_sensors_from_locations. rewrite Hf.
  cbn [try_pure]. unfold bind, ret, incr, modify.
  rewrite <- listed_pairs_length, <- Hfp, record_pairs_length. reflexivity.
Qed.

Lemma extraction_gives_one_record_per_sensor_witness :
  exists full_sensors basic_sensors : list Value,
    Full.extract_sensors_from_locations [VDict sample_location; bare_location] world0
    = Ret full_sensors
          (set_counter "total_sensors"
                       (counter "total_sensors" world0
                        + Z.of_nat (list_sum (map sensor_count
                                                  [VDict sample_location; bare_location])))%Z
                       world0)
    /\ Basic.extract_sensors_from_locations [VDict sample_location; bare_location]
       = inr basic_sensors
    /\ record_pairs full_sensors = listed_pairs [VDict sample_location; bare_location]
    /\ record_pairs basic_sensors = listed_pairs [VDict sample_location; bare_location].
Proof.
  apply (extraction_gives_one_record_per_sensor
           [VDict sample_location; bare_location] world0).
  reflexivity.
Defined.

(** ** Batch file names *)

Lemma batch_names_S (first : Z) (n : nat) :
  batch_names first (S n) = MeasurementsBatch first :: batch_names (first + 1) n.
Proof.
  unfold batch_names. cbn [seq map]. rewrite <- seq_shift, map_map.
  f_equal; [f_equal; lia|].
  apply map_ext. intros j. f_equal. lia.
Qed.

Lemma buffer_and_maybe_save_names (to_parquet : Filename -> list Value -> WriteResult)
      (batch_size : Z) (batch_measurements : list Value) (r r' : Full.Run) :
  Full.buffer_and_maybe_save to_parquet batch_size batch_measurements r = Ret tt r' ->
  let index := counter "batch_count" (Full.world r) in
  (counter "batch_count" (Full.world r') = index
   /\ Full.measurement_batches r' = Full.measurement_batches r)
  \/ (counter "batch_count" (Full.world r') = (index + 1)%Z
      /\ Full.measurement_batches r'
         = Full.measurement_batches r ++ [MeasurementsBatch index]).
Proof.
  unfold Full.buffer_and_maybe_save.
  unfold bind at 1, modify. unfold bind at 1, gets.
  cbn [Full.current_batch Full.set_current_batch].
  destruct (batch_size <=? _)%Z.
  - unfold bind at 1, gets. cbn [Full.world].
    unfold bind at 1, Full.call. cbn [Full.world].
    destruct (save_batch_Ret to_parquet (Full.current_batch r ++ batch_measurements)
                (MeasurementsBatch (counter "batch_count" (Full.world r)))
                "measurements (batch)" (Full.world r)) as [w1 [E [Hn _]]].
    cbn [Full.world Full.set_current_batch]. rewrite E.
    unfold bind, modify, Full.call, incr, modify.
    cbn [Full.world Full.set_world Full.set_current_batch Full.set_measurement_batches
         Full.all_locations Full.all_sensors Full.measurement_batches Full.current_batch].
    intros H. inversion H; subst. right.
    cbn [Full.world Full.set_world Full.set_current_batch Full.set_measurement_batches
         Full.all_locations Full.all_sensors Full.measurement_batches Full.current_batch].
    rewrite counter_set_counter, (counter_same _ _ _ Hn). split; reflexivity.
  - intros H. inversion H; subst. left. split; reflexivity.
Qed.

(** X17: however the pool runs and the parquet writes of Phase 2 turn out,
    the batch file names the loop records for the summary are numbered
    consecutively from the batch counter it started with, one per flush and
    at most one per iteration, and the counter ends that many higher: no
    two flushes of a run share a file name, and a name is recorded even
    when its write failed. *)
Theorem batch_files_are_numbered_consecutively :
  forall (to_parquet : Filename -> list Value -> WriteResult)
         (pool : nat -> list Value -> Full.PoolRun) (batch_size : Z)
         (sensors : list Value) (iterations i : nat) (r r' : Full.Run),
    Full.collect_measurements to_parquet pool batch_size sensors iterations i r
    = Ret tt r' ->
    exists flushes : nat,
      flushes <= iterations
      /\ counter "batch_count" (Full.world r')
         = (counter "batch_count" (Full.world r) + Z.of_nat flushes)%Z
      /\ Full.measurement_batches r'
         = Full.measurement_batches r
           ++ batch_names (counter "batch_count" (Full.world r)) flushes.
Proof.
  intros to_parquet pool batch_size sensors iterations.
  induction iterations as [|n IH]; intros i r r' H.
  - cbn in H. inversion H; subst. exists 0.
    split; [lia|]. split; [cbn [Z.of_nat]; lia|].
    unfold batch_names. cbn [seq map]. now rewrite app_nil_r.
  - cbn [Full.collect_measurements] in H.
    apply bind_Ret_inv in H. destruct H as [ms [r1 [Hpool H]]].
    apply call_Ret_inv in Hpool. destruct Hpool as [w1 [Hpool ->]].
    unfold Full.get_sensor_measurements_batch in Hpool.
    apply bind_Ret_inv in Hpool. destruct Hpool as [all [w1' [Hc Hpool]]].
    destruct (Full.interrupted _); [discriminate Hpool|].
    inversion Hpool; subst; clear Hpool.
    pose proof (consume_futures_frame _ _ _ _ _ "batch_count" Hc eq_refl eq_refl) as Hb.
    apply bind_Ret_inv in H. destruct H as [[] [r2 [Hbuf H]]].
    apply buffer_and_maybe_save_names in Hbuf.
    cbn [Full.world Full.set_world Full.measurement_batches] in Hbuf.
    apply IH in H. destruct H as [flushes [Hle [Hcnt Hnames]]].
    destruct Hbuf as [[Hc2 Hn2] | [Hc2 Hn2]].
    + exists flushes. split; [lia|].
      rewrite Hcnt, Hnames, Hc2, Hn2, Hb. split; reflexivity.
    + exists (S flushes). split; [lia|].
      rewrite Hcnt, Hnames, Hc2, Hn2, Hb, batch_names_S, <- app_assoc.
      split; [lia | reflexivity].
Qed.

Lemma batch_files_are_numbered_consecutively_witness :
  exists flushes : nat,
    flushes <= 3
    /\ counter "batch_count" (Full.world after_phase2)
       = (counter "batch_count" (Full.world (Full.run0 world0)) + Z.of_nat flushes)%Z
    /\ Full.measurement_batches after_phase2
       = Full.measurement_batches (Full.run0 world0)
         ++ batch_names (counter "batch_count" (Full.world (Full.run0 world0))) flushes.
Proof.
  apply (batch_files_are_numbered_consecutively
           always_written steady_pool 150 sample_sensors 3 0
           (Full.run0 world0) after_phase2).
  vm_compute. reflexivity.
Defined.

(** ** Paging through the measurements of a sensor *)

Lemma paged_api_measurements (stream : list Value) (n : nat)
      (sensor_id date_from date_to : Value) (limit page : nat) :
  paged_api stream n (mkRequest (SensorMeasurements sensor_id)
                                [("date_from", date_from);
                                 ("date_to", date_to);
                                 ("page", VNat page);
                                 ("limit", VNat limit)])
  = Response 200 (Some (VDict [("meta", VDict [("page", VNat page); ("limit", VNat limit)]);
                               ("results", VList (page_of stream limit page))])).
Proof.
  unfold paged_api, nat_param, get. cbn. now rewrite !Nat2Z.id.
Qed.

Lemma basic_update_measurements_map (sensor_id sensor_info : Value) (columns : Dict)
      (records : list Dict) :
  Basic.context_columns sensor_id sensor_info = inr columns ->
  Basic.update_measurements sensor_id sensor_info (map VDict records)
  = inr (map (fun m => VDict (update m columns)) records).
Proof.
  intros Hc. induction records as [|m rest IH]; [reflexivity|].
  cbn [map Basic.update_measurements]. unfold Basic.update_measurement at 1.
  rewrite Hc. cbn [ebind py_update]. rewrite IH. reflexivity.
Qed.

Lemma basic_measurements_loop_paged (isoformat_now : nat -> Value) (records : list Dict)
      (sensor_id sensor_info date_from date_to : Value) (columns : Dict) (L : nat) :
  1 <= L ->
  Basic.context_columns sensor_id sensor_info = inr columns ->
  forall fuel page measurements w,
    1 <= page ->
    List.length (skipn ((page - 1) * L) records) / L + 1 <= fuel ->
    exists w',
      Basic.measurements_loop (paged_api (map VDict records)) fuel sensor_id sensor_info
                              date_from date_to L page measurements w
      = Ret (measurements
               ++ map (fun m => VDict (update m columns))
                      (skipn ((page - 1) * L) records)) w'
      /\ calls w' = calls w + (List.length (skipn ((page - 1) * L) records) / L + 1)
      /\ disk w' = disk w
      /\ clock w' = clock w.
Proof.
  intros HL Hc. induction fuel as [|fuel IH]; intros page measurements w Hp Hfuel; [lia|].
  cbn [Basic.measurements_loop].
  unfold bind at 1.
  erewrite basic_make_request_success; [| apply paged_api_measurements | reflexivity].
  cbn [py_not truthy negb].
  unfold bind at 1, try_pure, py_get, get, ret at 1. cbn [lookup String.eqb Ascii.eqb Bool.eqb].
  unfold page_of. rewrite skipn_map, firstn_map.
  unfold Dict in *.
  set (rest := skipn ((page - 1) * L) records) in *.
  destruct (firstn L rest) as [|x items] eqn:Efirst.
  - apply firstn_nil_inv in Efirst; [|exact HL].
    rewrite Efirst. cbn [map py_not truthy negb]. unfold ret.
    eexists; split; [cbn [map]; now rewrite app_nil_r |].
    cbn [List.length calls disk clock record_event record_call].
    rewrite Nat.Div0.div_0_l. repeat split; lia.
  - cbn [map py_not truthy negb]. change (VDict x :: map VDict items) with (map VDict (x :: items)).
    rewrite <- Efirst.
    unfold bind at 1, try_pure, py_iter, ret at 1.
    rewrite (basic_update_measurements_map _ _ _ _ Hc).
    unfold bind at 1, try_pure, ret at 1.
    unfold bind at 1, try_pure, py_len, ret at 1.
    rewrite length_map, length_firstn.
    destruct (Nat.min L (List.length rest) <? L) eqn:Eshort.
    + apply Nat.ltb_lt in Eshort.
      rewrite firstn_all2 by lia. unfold ret.
      eexists; split; [reflexivity|].
      rewrite Nat.div_small by lia. cbn [calls disk clock record_event record_call].
      repeat split; lia.
    + apply Nat.ltb_ge in Eshort.
      assert (Hlen : L <= List.length rest) by lia.
      assert (Hskip : skipn ((S page - 1) * L) records = skipn L rest).
      { unfold rest. rewrite skipn_skipn. f_equal. nia. }
      assert (Hdiv : List.length rest / L = List.length (skipn L rest) / L + 1).
      { rewrite length_skipn.
        replace (List.length rest) with ((List.length rest - L) + 1 * L) at 1 by lia.
        now rewrite Nat.div_add by lia. }
      destruct (IH (S page)
                   (measurements ++ map (fun m => VDict (update m columns)) (firstn L rest))
                   (record_event EvDelay
                      (record_call
                         (mkRequest (SensorMeasurements sensor_id)
                                    [("date_from", date_from);
                                     ("date_to", date_to);
                                     ("page", VNat page);
                                     ("limit", VNat L)]) w)))
        as [w' [He [Hcalls [Hdisk Hclock]]]]; [lia | rewrite Hskip; lia |].
      exists w'. split; [|split; [|split]].
      * rewrite He, Hskip, <- app_assoc, <- map_app, firstn_skipn. reflexivity.
      * rewrite Hcalls, Hskip. cbn [calls record_event record_call]. lia.
      * rewrite Hdisk. reflexivity.
      * rewrite Hclock. reflexivity.
Qed.

(** X18: [get_sensor_measurements] of the basic script, on an API that
    serves a sensor's measurements consistently in pages, returns every
    record of the stream, in order, each updated with the six context
    columns; it makes [ceil(n/1000)] requests ([ceil(n/1000) + 1] when [n]
    is a multiple of 1000) and writes no file. *)
Theorem basic_measurements_are_paged_and_flattened :
  forall (isoformat_now : nat -> Value) (records : list Dict)
         (sensor_id sensor_info : Value) (date_from date_to : option Value)
         (columns : Dict) (fuel : nat) (w : World),
    Basic.context_columns sensor_id sensor_info = inr columns ->
    List.length records / 1000 + 1 <= fuel ->
    exists w' : World,
      Basic.get_sensor_measurements (paged_api (map VDict records)) isoformat_now fuel
                                    sensor_id sensor_info date_from date_to w
      = Ret (map (fun m => VDict (update m columns)) records) w'
      /\ calls w' = calls w + expected_requests (List.length records) 1000
      /\ disk w' = disk w.
Proof.
  intros isoformat_now records sensor_id sensor_info date_from date_to columns fuel w
         Hc Hfuel.
  assert (Hinfo : exists d, sensor_info = VDict d).
  { destruct sensor_info; try discriminate Hc. eauto. }
  destruct Hinfo as [d ->].
  rewrite expected_requests_floor by lia.
  unfold Basic.get_sensor_measurements.
  set (w1 := match date_to with Some _ => w | None => tick w end).
  destruct (basic_measurements_loop_paged
              isoformat_now records sensor_id (VDict d)
              (match date_from with Some v => v | None => Basic.default_date_from end)
              (match date_to with Some v => v | None => isoformat_now (clock w) end)
              columns 1000 ltac:(lia) Hc fuel 1 [] w1 ltac:(lia))
    as [w' [He [Hcalls [Hdisk _]]]]; [cbn [Nat.sub Nat.mul skipn]; exact Hfuel|].
  cbn [Nat.sub Nat.mul skipn app] in He, Hcalls.
  exists w'. split; [|split].
  - destruct date_to.
    + unfold bind at 1, ret at 1. unfold bind at 1, try_pure, py_get, ret at 1.
      exact He.
    + unfold bind at 1, utcnow. unfold bind at 1, try_pure, py_get, ret at 1.
      exact He.
  - rewrite Hcalls. unfold w1. destruct date_to; reflexivity.
  - rewrite Hdisk. unfold w1. destruct date_to; reflexivity.
Qed.

Lemma basic_measurements_are_paged_and_flattened_witness :
  exists w' : World,
    Basic.get_sensor_measurements
      (paged_api (map VDict (repeat sample_measurement (Z.to_nat 2000))))
      sample_now 3 (VInt 7) (VDict sample_sensor_info) None None world0
    = Ret (map (fun m => VDict (update m sample_basic_columns))
               (repeat sample_measurement (Z.to_nat 2000))) w'
    /\ calls w'
       = calls world0
         + expected_requests (List.length (repeat sample_measurement (Z.to_nat 2000))) 1000
    /\ disk w' = disk world0.
Proof.
  apply (basic_measurements_are_paged_and_flattened
           sample_now (repeat sample_measurement (Z.to_nat 2000))
           (VInt 7) (VDict sample_sensor_info) None None sample_basic_columns 3 world0).
  - reflexivity.
  - rewrite repeat_length. vm_compute. lia.
Defined.

(** ** The measurement counter of the Nepal script *)

Section NepalRequestsKeep.
Context {D : Type} (d : World -> D).
Hypothesis d_record_call : forall r w, d (record_call r w) = d w.
Hypothesis d_record_event : forall e w, d (record_event e w) = d w.
Hypothesis d_errors : forall z w, d (set_counter "errors_encountered" z w) = d w.

Lemma keeps_requests_get (server : nat -> Request -> Outcome) (r : Request) :
  keeps d (requests_get server r).
Proof.
  intros w. unfold requests_get. destruct (server (calls w) r); apply d_record_call.
Qed.

Lemma keeps_log (l : Level) (m : Msg) : keeps d (log l m).
Proof. apply keeps_modify. intros w. apply d_record_event. Qed.

Lemma keeps_sleep (seconds : Z) : keeps d (sleep seconds).
Proof. apply keeps_modify. intros w. apply d_record_event. Qed.

Lemma keeps_delay : keeps d delay.
Proof. apply keeps_modify. intros w. apply d_record_event. Qed.

Lemma keeps_incr_errors (n : Z) : keeps d (incr "errors_encountered" n).
Proof. apply keeps_modify. intros w. apply d_errors. Qed.

Lemma keeps_nepal_make_request_from (server : nat -> Request -> Outcome) (retries : nat)
      (r : Request) :
  forall remaining attempt,
    keeps d (Nepal.make_request_from server retries r remaining attempt).
Proof.
  induction remaining as [|remaining IH]; intros attempt; cbn [Nepal.make_request_from].
  - apply keeps_bind; [apply keeps_log | intros; apply keeps_ret].
  - assert (Hcont : keeps d ((if attempt <? retries - 1
                              then sleep ((Z.of_nat attempt + 1) * 2)
                              else ret tt) ;;
                             Nepal.make_request_from server retries r remaining (S attempt))).
    { apply keeps_bind; [|intros; apply IH].
      destruct (attempt <? retries - 1); [apply keeps_sleep | apply keeps_ret]. }
    apply keeps_bind; [apply keeps_requests_get|]. intros o.
    destruct o as [status_code json| | | |].
    + destruct (raise_for_status status_code).
      * destruct (status_code =? 429)%Z;
          repeat (apply keeps_bind;
                  [first [apply keeps_log | apply keeps_sleep | apply keeps_incr_errors]
                  | intros _]); exact Hcont.
      * apply keeps_bind; [apply keeps_delay | intros _].
        destruct json; [apply keeps_ret|].
        repeat (apply keeps_bind;
                [first [apply keeps_log | apply keeps_sleep | apply keeps_incr_errors]
                | intros _]); exact Hcont.
    + repeat (apply keeps_bind;
              [first [apply keeps_log | apply keeps_sleep | apply keeps_incr_errors]
              | intros _]); exact Hcont.
    + repeat (apply keeps_bind;
              [first [apply keeps_log | apply keeps_sleep | apply keeps_incr_errors]
              | intros _]); exact Hcont.
    + repeat (apply keeps_bind;
              [first [apply keeps_log | apply keeps_sleep | apply keeps_incr_errors]
              | intros _]); exact Hcont.
    + apply keeps_raise.
Qed.
End NepalRequestsKeep.

(** [len] and iteration of a [str] go by code points: the two bytes of a
    two-byte character count once. *)
Example code_points_of_a_two_byte_character :
  let s := String (Ascii.ascii_of_nat 194) (String (Ascii.ascii_of_nat 181) "g/m3") in
  String.length s = 6
  /\ py_len (VStr s) = inr 5
  /\ py_iter (VStr s)
     = inr [VStr (String (Ascii.ascii_of_nat 194) (String (Ascii.ascii_of_nat 181) ""));
            VStr "g"; VStr "/"; VStr "m"; VStr "3"].
Proof. cbv zeta. repeat split; reflexivity. Qed.

Lemma chars_length (s : string) : List.length (chars s) = List.length (code_points s).
Proof. unfold chars. apply length_map. Qed.

Lemma py_iter_len (v : Value) (items : list Value) (n : nat) :
  py_iter v = inr items -> py_len v = inr n -> List.length items = n.
Proof.
  destruct v; cbn; intros Hi Hn; try discriminate;
    inversion Hi; inversion Hn; subst.
  - apply chars_length.
  - reflexivity.
  - apply length_map.
Qed.

Lemma nepal_update_measurements_length
      (sensor_id sensor_name parameter_name location_name sensor_info : Value) :
  forall objects objects',
    Nepal.update_measurements sensor_id sensor_name parameter_name location_name
                              sensor_info objects = inr objects' ->
    List.length objects' = List.length objects.
Proof.
  induction objects as [|measurement rest IH]; intros objects' H.
  - cbn in H. inversion H. reflexivity.
  - cbn [Nepal.update_measurements] in H.
    destruct (Nepal.update_measurement sensor_id sensor_name parameter_name
                                       location_name sensor_info measurement)
      as [e|measurement']; [discriminate H|].
    cbn [ebind] in H.
    destruct (Nepal.update_measurements sensor_id sensor_name parameter_name
                                        location_name sensor_info rest)
      as [e|rest']; [discriminate H|].
    cbn [ebind] in H. inversion H; subst. cbn [List.length].
    now rewrite (IH rest' eq_refl).
Qed.

Lemma keeps_Ret {S D A} (d : S -> D) (m : M S A) (s s' : S) (a : A) :
  keeps d m -> m s = Ret a s' -> d s' = d s.
Proof. intros K H. specialize (K s). now rewrite H in K. Qed.

(** What the measurement loop of the Nepal script has done when it returns. *)
Lemma nepal_measurements_loop_Ret (server : nat -> Request -> Outcome)
      (sensor_id sensor_name parameter_name location_name sensor_info
       date_from date_to : Value) (limit : nat) :
  forall fuel page measurements w result w',
    Nepal.measurements_loop server fuel sensor_id sensor_name parameter_name
                            location_name sensor_info date_from date_to
                            limit page measurements w = Ret result w' ->
    exists more,
      result = measurements ++ more
      /\ counter "measurements_collected" w'
         = (counter "measurements_collected" w + Z.of_nat (List.length more))%Z
      /\ disk w' = disk w.
Proof.
  induction fuel as [|fuel IH]; intros page measurements w result w' H;
    [discriminate H|].
  cbn [Nepal.measurements_loop] in H.
  apply bind_Ret_inv in H. destruct H as [response [w1 [Hreq H]]].
  assert (Hc1 : counter "measurements_collected" w1 = counter "measurements_collected" w).
  { apply (keeps_Ret (counter "measurements_collected") _ _ _ _
             (keeps_nepal_make_request_from
                (counter "measurements_collected")
                (fun _ _ => eq_refl) (fun _ _ => eq_refl)
                (fun z w0 => counter_set_counter_other "measurements_collected"
                                                      "errors_encountered" z w0 eq_refl)
                server Nepal.max_retries _ Nepal.max_retries 0) Hreq). }
  assert (Hd1 : disk w1 = disk w).
  { apply (keeps_Ret disk _ _ _ _
             (keeps_nepal_make_request_from
                disk (fun _ _ => eq_refl) (fun _ _ => eq_refl) (fun _ _ => eq_refl)
                server Nepal.max_retries _ Nepal.max_retries 0) Hreq). }
  destruct (py_not response).
  - revert H. run_effects. intros H. inversion H; subst.
    exists []. rewrite app_nil_r. cbn [List.length Z.of_nat].
    rewrite counter_record_event, Hc1. cbn [disk record_event].
    repeat split; [lia | exact Hd1].
  - apply bind_Ret_inv in H. destruct H as [results [w2 [Hres H]]].
    apply try_pure_Ret_inv in Hres. destruct Hres as [Hres ->].
    destruct (py_not results).
    + inversion H; subst. exists []. rewrite app_nil_r. cbn [List.length Z.of_nat].
      repeat split; [lia | exact Hd1].
    + apply bind_Ret_inv in H. destruct H as [objects [w2 [Hit H]]].
      apply try_pure_Ret_inv in Hit. destruct Hit as [Hit ->].
      apply bind_Ret_inv in H. destruct H as [objects' [w2 [Hup H]]].
      apply try_pure_Ret_inv in Hup. destruct Hup as [Hup ->].
      apply bind_Ret_inv in H. destruct H as [n [w2 [Hlen H]]].
      apply try_pure_Ret_inv in Hlen. destruct Hlen as [Hlen ->].
      pose proof (py_iter_len _ _ _ Hit Hlen) as Hn.
      pose proof (nepal_update_measurements_length _ _ _ _ _ _ _ Hup) as Hn'.
      revert H. run_effects. intros H.
      destruct (n <? limit).
      * inversion H; subst. exists objects'.
        rewrite counter_set_counter, Hc1. cbn [disk set_counter].
        repeat split; [lia | exact Hd1].
      * apply IH in H. destruct H as [more [Hr [Hm Hd]]].
        exists (objects' ++ more). rewrite Hr, app_assoc, Hm, Hd, length_app.
        rewrite counter_set_counter, Hc1. cbn [disk set_counter].
        repeat split; [lia | exact Hd1].
Qed.

(** What [get_sensor_measurements] has counted when it returns. *)
Lemma nepal_get_sensor_measurements_Ret :
  forall (server : nat -> Request -> Outcome) (isoformat_now : nat -> Value)
         (fuel : nat) (sensor_info : Value) (date_from date_to : option Value)
         (w w' : World) (measurements : list Value),
    Nepal.get_sensor_measurements server isoformat_now fuel sensor_info
                                  date_from date_to w = Ret measurements w' ->
    counter "measurements_collected" w'
    = (counter "measurements_collected" w + Z.of_nat (List.length measurements))%Z
    /\ disk w' = disk w.
Proof.
  intros server isoformat_now fuel sensor_info date_from date_to w w' measurements H.
  unfold Nepal.get_sensor_measurements in H.
  apply bind_Ret_inv in H. destruct H as [sensor_id [w1 [E H]]].
  apply try_pure_Ret_inv in E. destruct E as [_ ->].
  apply bind_Ret_inv in H. destruct H as [sensor_name [w1 [E H]]].
  apply try_pure_Ret_inv in E. destruct E as [_ ->].
  apply bind_Ret_inv in H. destruct H as [location_name [w1 [E H]]].
  apply try_pure_Ret_inv in E. destruct E as [_ ->].
  apply bind_Ret_inv in H. destruct H as [parameter_name [w1 [E H]]].
  apply try_pure_Ret_inv in E. destruct E as [_ ->].
  destruct (py_not sensor_id).
  - revert H. run_effects. intros H. inversion H; subst.
    rewrite counter_record_event. cbn [List.length Z.of_nat disk record_event].
    split; [lia | reflexivity].
  - apply bind_Ret_inv in H. destruct H as [date_to' [w1 [E H]]].
    apply nepal_measurements_loop_Ret in H. destruct H as [more [Hr [Hm Hd]]].
    cbn [app] in Hr. subst more.
    destruct date_to as [given|].
    + inversion E; subst. split; assumption.
    + unfold utcnow in E. inversion E; subst. split; assumption.
Qed.

(** X19: when [get_sensor_measurements] of the Nepal script returns,
    whatever the API answered on the way, [progress['measurements_collected']]
    has grown by exactly the number of measurements returned, and no file
    has been written. *)
Theorem nepal_collected_counter_matches_result :
  forall (server : nat -> Request -> Outcome) (isoformat_now : nat -> Value)
         (fuel : nat) (sensor_info : Value) (date_from date_to : option Value)
         (w w' : World) (measurements : list Value),
    Nepal.get_sensor_measurements server isoformat_now fuel sensor_info
                                  date_from date_to w = Ret measurements w' ->
    counter "measurements_collected" w'
    = (counter "measurements_collected" w + Z.of_nat (List.length measurements))%Z
    /\ disk w' = disk w.
Proof. exact nepal_get_sensor_measurements_Ret. Qed.

Lemma nepal_collected_counter_matches_result_witness :
  counter "measurements_collected" nepal_sensor_world
  = (counter "measurements_collected" world0
     + Z.of_nat (List.length nepal_sensor_measurements))%Z
  /\ disk nepal_sensor_world = disk world0.
Proof.
  apply (nepal_collected_counter_matches_result
           (paged_api [VDict sample_measurement; VDict sample_measurement])
           sample_now 2 (VDict sample_sensor_info) None None
           world0 nepal_sensor_world nepal_sensor_measurements).
  vm_compute. reflexivity.
Defined.

Example nepal_sensor_run_counts :
  List.length nepal_sensor_measurements = 2
  /\ counter "measurements_collected" nepal_sensor_world = 2%Z.
Proof. split; reflexivity. Qed.

(** ** Batches of the Nepal script *)

(** X20: when Step 3 of [run_nepal_ingestion] returns and every parquet
    write succeeds, the files it has written are the batches numbered
    consecutively from the batch counter plus one, each holding at least
    [batch_size] records; the batch counter has grown by their number; and
    the measurements counted in [progress['measurements_collected']] during
    the loop are exactly the records written plus those still buffered,
    less those buffered at the start. *)
Theorem nepal_batches_are_numbered_and_complete :
  forall (server : nat -> Request -> Outcome) (isoformat_now : nat -> Value)
         (to_parquet : Filename -> list Value -> WriteResult) (batch_size : Z) (fuel : nat)
         (sensors all_measurements buffered : list Value) (batch_count batch_count' : Z)
         (w w' : World),
    (0 < batch_size)%Z ->
    (forall f d, to_parquet f d = Written) ->
    Nepal.collect_measurements server isoformat_now to_parquet batch_size fuel
                               sensors all_measurements batch_count w
    = Ret (buffered, batch_count') w' ->
    exists batches : list (list Value),
      disk w' = disk w ++ nepal_batch_files batch_count batches
      /\ batch_count' = (batch_count + Z.of_nat (List.length batches))%Z
      /\ Forall (fun batch => (batch_size <= Z.of_nat (List.length batch))%Z) batches
      /\ (counter "measurements_collected" w' + Z.of_nat (List.length all_measurements)
          = counter "measurements_collected" w
            + Z.of_nat (List.length (List.concat batches ++ buffered)))%Z.
Proof.
  intros server isoformat_now to_parquet batch_size fuel sensors.
  induction sensors as [|sensor_info rest IH];
    intros acc buffered bc bc' w w' Hpos Hok H.
  - cbn in H. inversion H; subst. exists [].
    cbn [nepal_batch_files List.length List.concat app Z.of_nat].
    rewrite app_nil_r.
    split; [reflexivity|]. split; [lia|]. split; [constructor | lia].
  - cbn [Nepal.collect_measurements] in H.
    apply bind_Ret_inv in H. destruct H as [ms [w1 [Hget H]]].
    apply nepal_get_sensor_measurements_Ret in Hget. destruct Hget as [Hm Hd].
    destruct (Z.leb_spec batch_size (Z.of_nat (List.length (acc ++ ms)))) as [Hge | Hlt].
    + apply bind_Ret_inv in H. destruct H as [[] [w2 [Hsave H]]].
      assert (Hw2 : w2 = write_file (NepalPartition "measurements" (Some (bc + 1)%Z))
                                    (Parquet (acc ++ ms)) w1).
      { unfold Nepal.save_to_parquet_partitioned in Hsave.
        destruct (acc ++ ms) as [|x l] eqn:E; [cbn in Hge; lia|].
        rewrite Hok in Hsave. unfold modify in Hsave. now inversion Hsave. }
      subst w2.
      apply IH in H; [|assumption|assumption].
      destruct H as [batches [Hdisk [Hbc [Hall Hcount]]]].
      exists ((acc ++ ms) :: batches).
      cbn [nepal_batch_files List.length List.concat].
      cbn [disk write_file] in Hdisk. rewrite counter_write_file in Hcount.
      cbn [List.length Z.of_nat] in Hcount.
      split; [rewrite Hdisk, Hd, <- app_assoc; reflexivity|].
      split; [lia|].
      split; [constructor; assumption|].
      rewrite <- app_assoc, length_app. rewrite length_app in Hge |- *. lia.
    + apply IH in H; [|assumption|assumption].
      destruct H as [batches [Hdisk [Hbc [Hall Hcount]]]].
      exists batches.
      split; [rewrite Hdisk, Hd; reflexivity|].
      split; [assumption|].
      split; [assumption|].
      rewrite length_app in Hcount. lia.
Qed.

Lemma nepal_batches_are_numbered_and_complete_witness :
  exists batches : list (list Value),
    disk nepal_collect_world = disk world0 ++ nepal_batch_files 0 batches
    /\ 1%Z = (0 + Z.of_nat (List.length batches))%Z
    /\ Forall (fun batch => (3 <= Z.of_nat (List.length batch))%Z) batches
    /\ (counter "measurements_collected" nepal_collect_world
        + Z.of_nat (List.length (@nil Value))
        = counter "measurements_collected" world0
          + Z.of_nat (List.length (List.concat batches ++ nepal_collect_buffer)))%Z.
Proof.
  apply (nepal_batches_are_numbered_and_complete
           (paged_api [VDict sample_measurement; VDict sample_measurement])
           sample_now always_written 3 2
           [VDict sample_sensor_info; VDict sample_sensor_info; VDict sample_sensor_info]
           [] nepal_collect_buffer 0 1 world0 nepal_collect_world).
  - lia.
  - reflexivity.
  - vm_compute. reflexivity.
Defined.

(** ** The basic script with the API down *)

Lemma basic_make_request_failed (server : nat -> Request -> Outcome) (r : Request)
      (w : World) :
  failed (server (calls w) r) = true ->
  exists w',
    Basic.make_request server r w = Ret VNone w'
    /\ calls w' = S (calls w)
    /\ disk w' = disk w.
Proof.
  intros H. unfold Basic.make_request.
  unfold bind at 1, requests_get. unfold failed, classify in H.
  destruct (server (calls w) r) as [sc j| | | |]; try discriminate H.
  - destruct (raise_for_status sc).
    + run_effects. eexists; repeat split.
    + destruct j; [discriminate H|]. run_effects. eexists; repeat split.
  - run_effects. eexists; repeat split.
  - run_effects. eexists; repeat split.
  - run_effects. eexists; repeat split.
Qed.

Lemma basic_collect_countries_api_down (server : nat -> Request -> Outcome) (fuel : nat) :
  1 <= fuel ->
  (forall n r, failed (server n r) = true) ->
  forall countries all_locations all_sensors w,
    exists w',
      Basic.collect_countries server fuel countries all_locations all_sensors w
      = Ret (all_locations, all_sensors) w'
      /\ calls w' = calls w + List.length countries
      /\ disk w' = disk w.
Proof.
  intros Hfuel Hdown.
  induction countries as [|[country_name country_id] countries IH];
    intros all_locations all_sensors w.
  - exists w. cbn. repeat split. lia.
  - cbn [Basic.collect_countries]. unfold Basic.get_all_locations.
    destruct fuel as [|fuel']; [lia|]. cbn [Basic.locations_loop].
    destruct (basic_make_request_failed
                server (mkRequest Locations [("countries_id", country_id);
                                            ("page", VNat 1);
                                            ("limit", VNat 1000)]) w (Hdown _ _))
      as [w1 [He [Hc Hd]]].
    unfold bind at 1. unfold bind at 1. rewrite He.
    cbn [py_not truthy negb]. unfold ret at 1.
    cbn [Basic.extract_sensors_from_locations try_pure]. unfold ret at 1.
    rewrite !app_nil_r.
    destruct (IH all_locations all_sensors w1) as [w' [He' [Hc' Hd']]].
    exists w'. split; [unfold bind; rewrite app_nil_r; exact He'|].
    cbn [List.length]. split; [lia | congruence].
Qed.

(** X21: when every request fails, [run_full_ingestion] of the basic script
    still returns normally: it has made exactly one request per target
    country, none for measurements, and has written no file. *)
Theorem basic_run_with_the_api_down :
  forall (server : nat -> Request -> Outcome) (isoformat_now : nat -> Value)
         (to_parquet : Filename -> list Value -> WriteResult) (fuel : nat)
         (target_countries : list (string * Value)) (w : World),
    1 <= fuel ->
    (forall n r, failed (server n r) = true) ->
    exists w' : World,
      Basic.run_full_ingestion server isoformat_now to_parquet fuel target_countries w
      = Ret tt w'
      /\ calls w' = calls w + List.length target_countries
      /\ disk w' = disk w.
Proof.
  intros server isoformat_now to_parquet fuel target_countries w Hfuel Hdown.
  destruct (basic_collect_countries_api_down server fuel Hfuel Hdown
              target_countries [] [] w) as [w1 [He [Hc Hd]]].
  unfold Basic.run_full_ingestion.
  rewrite (bind_Ret _ _ _ _ _ He).
  cbn [Basic.save_to_parquet Basic.collect_measurements].
  run_effects.
  eexists. split; [reflexivity|].
  cbn [calls disk record_event]. split; assumption.
Qed.

Lemma basic_run_with_the_api_down_witness :
  exists w' : World,
    Basic.run_full_ingestion (fun _ _ => Timeout) sample_now always_written 1
                             two_countries world0
    = Ret tt w'
    /\ calls w' = calls world0 + List.length two_countries
    /\ disk w' = disk world0.
Proof.
  apply (basic_run_with_the_api_down
           (fun _ _ => Timeout) sample_now always_written 1 two_countries world0).
  - lia.
  - reflexivity.
Defined.
